(** * Debian man-page loader: a shallow embedding of [loader.py]

    The development follows the source file function by function:
    Python strings and byte strings are Rocq strings, the file system is
    a tree rooted at the working directory of the process, and every
    function of the script that touches the file system is a computation
    in a state-and-exception monad whose state survives a raised
    exception (a Python exception does not undo the writes made before
    it).  The codecs and the network are collaborators of the script and
    appear as a class [Collab]. *)

From Stdlib Require Import String Ascii List Bool Arith Lia.
Import ListNotations.

Local Open Scope string_scope.
Local Open Scope list_scope.

Infix "+:+" := String.append (at level 60, right associativity).

(* ===================================================================== *)
(** * Python string methods *)
(* ===================================================================== *)

Module PyStr.

(** [s.startswith(p)] *)
Fixpoint startswith (s p : string) : bool :=
  match p, s with
  | EmptyString, _ => true
  | String _ _, EmptyString => false
  | String a p', String b s' => Ascii.eqb a b && startswith s' p'
  end.

(** [s.endswith(p)]: some suffix of [s] is [p]. *)
Fixpoint endswith (s p : string) : bool :=
  String.eqb s p ||
  match s with
  | EmptyString => false
  | String _ s' => endswith s' p
  end.

(** [s[:n]] for [0 <= n]. *)
Fixpoint take (n : nat) (s : string) : string :=
  match n, s with
  | S k, String c s' => String c (take k s')
  | _, _ => EmptyString
  end.

(** [s[n:]] for [0 <= n]. *)
Fixpoint drop (n : nat) (s : string) : string :=
  match n, s with
  | S k, String _ s' => drop k s'
  | _, _ => s
  end.

(** [s[:-n]] for [0 < n]: Python clamps the end index at 0. *)
Definition drop_last (n : nat) (s : string) : string :=
  take (String.length s - n) s.

(** [sep in s] for a one-character [sep]. *)
Fixpoint has_char (sep : ascii) (s : string) : bool :=
  match s with
  | EmptyString => false
  | String c s' => Ascii.eqb c sep || has_char sep s'
  end.

(** [s.split(sep)] for a one-character separator: never the empty list,
    consecutive separators give empty fields. *)
Fixpoint split (sep : ascii) (s : string) : list string :=
  match s with
  | EmptyString => [EmptyString]
  | String c s' =>
      if Ascii.eqb c sep then EmptyString :: split sep s'
      else match split sep s' with
           | h :: t => String c h :: t
           | [] => [String c EmptyString]
           end
  end.

(** The text of [s] up to (not including) the first [sep]. *)
Fixpoint upto (sep : ascii) (s : string) : string :=
  match s with
  | EmptyString => EmptyString
  | String c s' => if Ascii.eqb c sep then EmptyString else String c (upto sep s')
  end.

(** [c.isspace()] on the ASCII range: TAB, LF, VT, FF, CR, the four
    separators FS, GS, RS, US, and the space.  A character is a byte
    here: the text of the index is taken as ASCII. *)
Definition isspace (c : ascii) : bool :=
  let n := nat_of_ascii c in
  (Nat.leb 9 n && Nat.leb n 13) || (Nat.leb 28 n && Nat.leb n 32).

Fixpoint lstrip (s : string) : string :=
  match s with
  | EmptyString => EmptyString
  | String c s' => if isspace c then lstrip s' else s
  end.

Fixpoint rstrip (s : string) : string :=
  match s with
  | EmptyString => EmptyString
  | String c s' =>
      match rstrip s' with
      | EmptyString => if isspace c then EmptyString else String c EmptyString
      | r => String c r
      end
  end.

(** [s.strip()] *)
Definition strip (s : string) : string := lstrip (rstrip s).

(** [s.replace(old, new)] for a non-empty [old]: the occurrences are
    replaced from left to right and do not overlap.  [skip] counts the
    characters of an occurrence that are still to be passed over. *)
Fixpoint replace_from (old new : string) (skip : nat) (s : string) : string :=
  match s with
  | EmptyString => EmptyString
  | String c s' =>
      match skip with
      | S k => replace_from old new k s'
      | O =>
          if startswith s old
          then new +:+ replace_from old new (String.length old - 1) s'
          else String c (replace_from old new 0 s')
      end
  end.

Definition replace (s old new : string) : string := replace_from old new 0 s.

(** [frag in s]: some position of [s] starts with [frag]. *)
Fixpoint contains (s frag : string) : bool :=
  startswith s frag ||
  match s with
  | EmptyString => false
  | String _ s' => contains s' frag
  end.

(** [sep.join(parts)] *)
Fixpoint join (sep : string) (parts : list string) : string :=
  match parts with
  | [] => EmptyString
  | [x] => x
  | x :: rest => x +:+ sep +:+ join sep rest
  end.

End PyStr.

(** Characters the script names. *)
Definition LF : ascii := ascii_of_nat 10.
Definition CR : ascii := ascii_of_nat 13.
Definition SPACE : ascii := ascii_of_nat 32.
Definition SLASH : ascii := ascii_of_nat 47.
Definition BACKSLASH : ascii := ascii_of_nat 92.

Definition str1 (c : ascii) : string := String c EmptyString.

(* ===================================================================== *)
(** * Reading the package index (main, lines 109 to 112) *)
(* ===================================================================== *)

Inductive exn : Type :=
| FileNotFoundError
| FileExistsError
| IsADirectoryError
| NotADirectoryError
| ConnectionError
| ChunkedEncodingError
| ArchiveFormatError
| ReadError
| BadGzipFile
| IndexError
| OSError.

Definition result (A : Type) : Type := (exn + A)%type.

Module Index.

(** Text mode with the default [newline=None]: CR LF and a lone CR both
    read as LF. *)
Fixpoint universal_newlines (s : string) : string :=
  match s with
  | EmptyString => EmptyString
  | String c s' =>
      if Ascii.eqb c CR then
        match s' with
        | String c2 s'' =>
            if Ascii.eqb c2 LF then String LF (universal_newlines s'')
            else String LF (universal_newlines s')
        | EmptyString => String LF EmptyString
        end
      else String c (universal_newlines s')
  end.

(** [f.readlines()]: every line keeps its terminating LF. *)
Fixpoint readlines (s : string) : list string :=
  match s with
  | EmptyString => []
  | String c s' =>
      if Ascii.eqb c LF then str1 LF :: readlines s'
      else match readlines s' with
           | [] => [str1 c]
           | l :: ls => String c l :: ls
           end
  end.

Definition field_prefix : string := "Filename: ".

(** [line.split(' ')[1]]: an index out of range raises. *)
Definition second_field (line : string) : result string :=
  match nth_error (PyStr.split SPACE line) 1 with
  | Some f => inr f
  | None => inl IndexError
  end.

(** [[line.split(' ')[1].strip() for line in lines
      if line.startswith('Filename: ')]] *)
Fixpoint deb_links (lines : list string) : result (list string) :=
  match lines with
  | [] => inr []
  | line :: rest =>
      if PyStr.startswith line field_prefix then
        match second_field line with
        | inl e => inl e
        | inr f =>
            match deb_links rest with
            | inl e => inl e
            | inr fs => inr (PyStr.strip f :: fs)
            end
        end
      else deb_links rest
  end.

(** The index text as the script sees it. *)
Definition parse_index (text : string) : result (list string) :=
  deb_links (readlines (universal_newlines text)).

(** A record line. *)
Definition is_record (line : string) : bool := PyStr.startswith line field_prefix.

(** The parsing rule in the words of the specification: a record line
    contributes everything after the prefix, trimmed of trailing
    whitespace, and the entries come in the order of the lines. *)
Definition spec_field (line : string) : string :=
  PyStr.rstrip (PyStr.drop (String.length field_prefix) line).

Definition spec_parse (lines : list string) : list string :=
  map spec_field (filter is_record lines).

(** What a record line contributes in the script: the text between the
    prefix and the next space, stripped on both sides. *)
Definition field_of (line : string) : string :=
  PyStr.strip (PyStr.upto SPACE (PyStr.drop (String.length field_prefix) line)).

Definition field_parse (lines : list string) : list string :=
  map field_of (filter is_record lines).

End Index.

(* ===================================================================== *)
(** * The file system *)
(* ===================================================================== *)

(** A path is the list of the components of a Python path string, the
    string split at the slash.  The root of the tree is the working
    directory of the process: every path the script builds is relative.
    Symbolic links are outside the model. *)
Definition path : Type := list string.

Definition to_path (s : string) : path := PyStr.split SLASH s.

(** The string of a path, as [os.path.join] builds it on POSIX. *)
Definition path_str (p : path) : string := PyStr.join (str1 SLASH) p.

(** The string of [a] is empty or ends with a slash. *)
Definition ends_with_slash (a : path) : bool := String.eqb (last a EmptyString) EmptyString.

(** Two path strings put together the way [os.path.join] does it: a
    slash goes between them unless the first one is empty or ends with
    one. *)
Definition join_paths (a b : path) : path :=
  if ends_with_slash a then removelast a ++ b else a ++ b.

(** [os.path.join(a, b)]: a [b] that starts with a slash replaces [a]
    (an absolute path; the script builds none). *)
Definition os_path_join (a : path) (b : string) : path :=
  if PyStr.startswith b (str1 SLASH) then to_path b else join_paths a (to_path b).

(** [os.path.basename(s)] *)
Definition os_path_basename (s : string) : string :=
  last (PyStr.split SLASH s) EmptyString.

Module FS.

#[warnings="-register-all"]
Inductive node : Type :=
| File (data : string)
| Dir (entries : list (string * node)).

Section Alist.
Context {A : Type}.

Fixpoint alist_get (k : string) (l : list (string * A)) : option A :=
  match l with
  | [] => None
  | (k', v) :: l' => if String.eqb k k' then Some v else alist_get k l'
  end.

(** Replace the entry of [k], or add it at the end of the listing. *)
Fixpoint alist_set (k : string) (v : A) (l : list (string * A)) : list (string * A) :=
  match l with
  | [] => [(k, v)]
  | (k', v') :: l' =>
      if String.eqb k k' then (k, v) :: l' else (k', v') :: alist_set k v l'
  end.

Fixpoint alist_del (k : string) (l : list (string * A)) : list (string * A) :=
  match l with
  | [] => []
  | (k', v') :: l' =>
      if String.eqb k k' then alist_del k l' else (k', v') :: alist_del k l'
  end.
End Alist.

(** The node at a path whose components are all entry names. *)
Fixpoint get (n : node) (p : path) : option node :=
  match p with
  | [] => Some n
  | c :: q =>
      match n with
      | Dir es => match alist_get c es with
                  | Some m => get m q
                  | None => None
                  end
      | File _ => None
      end
  end.

(** Put [v] at [p]: replaces what is there, or creates the entry when the
    parent is a directory; does nothing when the parent is missing. *)
Fixpoint put (n : node) (p : path) (v : node) : node :=
  match p with
  | [] => v
  | c :: q =>
      match n with
      | Dir es =>
          match alist_get c es with
          | Some m => Dir (alist_set c (put m q v) es)
          | None => match q with
                    | [] => Dir (alist_set c v es)
                    | _ :: _ => n
                    end
          end
      | File _ => n
      end
  end.

(** Unlink the entry at [p] (with all that is below it). *)
Fixpoint del (n : node) (p : path) : node :=
  match p with
  | [] => n
  | c :: q =>
      match n with
      | Dir es =>
          match q with
          | [] => Dir (alist_del c es)
          | _ :: _ => match alist_get c es with
                      | Some m => Dir (alist_set c (del m q) es)
                      | None => n
                      end
          end
      | File _ => n
      end
  end.

Definition is_dir (fs : node) (p : path) : bool :=
  match get fs p with Some (Dir _) => true | _ => false end.

Definition is_file (fs : node) (p : path) : bool :=
  match get fs p with Some (File _) => true | _ => false end.

(** One component of path resolution: the empty component (a doubled or
    trailing slash) and the dot stay, the double dot goes up (the root
    is its own parent), a name goes down. *)
Definition step_component (cur : path) (c : string) : path :=
  if String.eqb c "" then cur
  else if String.eqb c "." then cur
  else if String.eqb c ".." then removelast cur
  else cur ++ [c].

(** Resolution walks the components; each one is looked up in a
    directory. *)
Fixpoint resolve_from (fs : node) (cur : path) (comps : path) : option path :=
  match comps with
  | [] => Some cur
  | c :: rest =>
      if is_dir fs cur then resolve_from fs (step_component cur c) rest else None
  end.

(** Resolution without the look-ups, as [os.path.normpath] does it. *)
Definition norm (p : path) : path := fold_left step_component p [].

(** A component that is the name of an entry. *)
Definition regular (c : string) : bool :=
  negb (String.eqb c "" || String.eqb c "." || String.eqb c "..").

(** The empty path string names nothing. *)
Definition is_empty_path (p : path) : bool :=
  match p with
  | [] => true
  | [c] => String.eqb c ""
  | _ => false
  end.

Definition resolve (fs : node) (p : path) : option path :=
  if is_empty_path p then None else resolve_from fs [] p.

Definition stat (fs : node) (p : path) : option node :=
  match resolve fs p with
  | Some q => get fs q
  | None => None
  end.

(** [os.path.exists(p)] *)
Definition path_exists (fs : node) (p : path) : bool :=
  match stat fs p with Some _ => true | None => false end.

(** The content of the regular file at [p], if there is one. *)
Definition file_at (fs : node) (p : path) : option string :=
  match get fs p with Some (File d) => Some d | _ => None end.

Definition dirnames (es : list (string * node)) : list string :=
  map fst (filter (fun e => match snd e with Dir _ => true | File _ => false end) es).

Definition filenames (es : list (string * node)) : list string :=
  map fst (filter (fun e => match snd e with Dir _ => false | File _ => true end) es).

(** [os.walk(top)], top down: a directory, then its sub-directories in
    listing order. *)
Fixpoint walk (top : path) (n : node) : list (path * list string * list string) :=
  match n with
  | File _ => []
  | Dir es =>
      (top, dirnames es, filenames es) ::
      (fix subdirs (l : list (string * node)) : list (path * list string * list string) :=
         match l with
         | [] => []
         | (name, m) :: l' => walk (os_path_join top name) m ++ subdirs l'
         end) es
  end.

End FS.

(* ===================================================================== *)
(** * Computations: file-system state and exceptions *)
(* ===================================================================== *)

Definition M (A : Type) : Type := FS.node -> result A * FS.node.

Definition ret {A} (a : A) : M A := fun fs => (inr a, fs).

Definition raise {A} (e : exn) : M A := fun fs => (inl e, fs).

Definition bind {A B} (c : M A) (k : A -> M B) : M B :=
  fun fs =>
    match c fs with
    | (inl e, fs') => (inl e, fs')
    | (inr a, fs') => k a fs'
    end.

Notation "x <- c ;; k" := (bind c (fun x => k))
  (at level 61, c at next level, right associativity).
Notation "c ;; k" := (bind c (fun _ => k))
  (at level 61, right associativity).

(** A [for] loop whose body may raise. *)
Fixpoint for_each {A} (l : list A) (body : A -> M unit) : M unit :=
  match l with
  | [] => ret tt
  | x :: rest => body x ;; for_each rest body
  end.

(** [if cond: body] *)
Definition when (b : bool) (c : M unit) : M unit := if b then c else ret tt.

Module Os.

Import FS.

Definition path_exists (p : path) : M bool :=
  fun fs => (inr (FS.path_exists fs p), fs).

(** Create the directories of [comps] below [cur] that are missing. *)
Fixpoint mkdirs_from (cur : path) (comps : path) : M unit :=
  match comps with
  | [] => ret tt
  | c :: rest =>
      fun fs =>
        if is_dir fs cur then
          let nxt := step_component cur c in
          match get fs nxt with
          | Some (Dir _) => mkdirs_from nxt rest fs
          | Some (File _) => (inl FileExistsError, fs)
          | None => mkdirs_from nxt rest (put fs nxt (Dir []))
          end
        else (inl NotADirectoryError, fs)
  end.

(** [os.makedirs(p, exist_ok=True)] *)
Definition mkdirs_p (p : path) : M unit :=
  if is_empty_path p then raise FileNotFoundError else mkdirs_from [] p.

(** [os.makedirs(p)] *)
Definition makedirs (p : path) : M unit :=
  fun fs => if FS.path_exists fs p then (inl FileExistsError, fs) else mkdirs_p p fs.

(** [open(p, 'rb')]: the descriptor is the resolved path. *)
Definition open_rb (p : path) : M path :=
  fun fs =>
    match resolve fs p with
    | None => (inl FileNotFoundError, fs)
    | Some q =>
        match get fs q with
        | Some (File _) => (inr q, fs)
        | Some (Dir _) => (inl IsADirectoryError, fs)
        | None => (inl FileNotFoundError, fs)
        end
    end.

(** [f.read()] on a descriptor. *)
Definition fd_read (q : path) : M string :=
  fun fs =>
    match file_at fs q with
    | Some d => (inr d, fs)
    | None => (inl FileNotFoundError, fs)
    end.

(** [open(p, 'wb')]: creates the file or truncates it. *)
Definition open_wb (p : path) : M path :=
  fun fs =>
    match resolve fs p with
    | None => (inl FileNotFoundError, fs)
    | Some q =>
        match get fs q with
        | Some (Dir _) => (inl IsADirectoryError, fs)
        | _ => (inr q, put fs q (File ""))
        end
    end.

(** Everything written through a descriptor opened by [open_wb], once
    flushed.  A write to a file that was unlinked in between shows
    nowhere in the tree. *)
Definition fd_write (q : path) (data : string) : M unit :=
  fun fs =>
    match file_at fs q with
    | Some _ => (inr tt, put fs q (File data))
    | None => (inr tt, fs)
    end.

(** The idiom [if not os.path.exists(p): os.makedirs(p)]. *)
Definition ensure_dir (p : path) : M unit :=
  e <- path_exists p ;;
  when (negb e) (makedirs p).

(** [os.remove(p)] *)
Definition remove (p : path) : M unit :=
  fun fs =>
    match resolve fs p with
    | None => (inl FileNotFoundError, fs)
    | Some q =>
        match get fs q with
        | Some (File _) => (inr tt, del fs q)
        | Some (Dir _) => (inl IsADirectoryError, fs)
        | None => (inl FileNotFoundError, fs)
        end
    end.

(** [shutil.rmtree(p)]: the tree goes with its directory; of the working
    directory only the content can go, and the call raises. *)
Definition rmtree (p : path) : M unit :=
  fun fs =>
    match resolve fs p with
    | None => (inl FileNotFoundError, fs)
    | Some q =>
        match get fs q, q with
        | Some (Dir _), _ :: _ => (inr tt, del fs q)
        | Some (Dir _), [] => (inl OSError, Dir [])
        | Some (File _), _ => (inl NotADirectoryError, fs)
        | None, _ => (inl FileNotFoundError, fs)
        end
    end.

(** [os.walk(top)]: a top that is not a directory yields nothing.  The
    generator lists a directory when the loop reaches it; the loop of
    the script unlinks files of directories that are listed already and
    writes to the corpus folder only, so with the corpus folder outside
    of [top] the listings are those of the tree at the start. *)
Definition walk (top : path) : M (list (path * list string * list string)) :=
  fun fs =>
    match stat fs top with
    | Some (Dir es) => (inr (FS.walk top (Dir es)), fs)
    | _ => (inr [], fs)
    end.

End Os.

(* ===================================================================== *)
(** * Collaborators: the network and the codecs *)
(* ===================================================================== *)

(** [requests.get(url, stream=True)] and the iteration over the chunks
    of the body: the connection fails, the whole body arrives, or the
    stream breaks after a part of it. *)
Inductive response : Type :=
| ConnectFail
| Body (data : string)
| BodyThenFail (part : string).

(** Decoding a gzip stream to a file: all of it, or an error after some
    output. *)
Inductive gz_result : Type :=
| GzOk (data : string)
| GzErr (written : string).

(** The modes ['r:gz'], ['r:xz'] and ['r'] of [tarfile.open]. *)
Inductive tar_mode : Type := ModeGz | ModeXz | ModePlain.

Inductive tar_entry : Type :=
| TarFile (data : string)
| TarDir.

Class Collab : Type := {
  (** the network transport *)
  http_get : string -> response;
  (** [arpy]: the members of an ar archive in header order, with their
      content as it is when the headers are read; [None] when the bytes
      are no ar archive *)
  ar_members : string -> option (list (string * string));
  (** [tarfile]: the entries of a tar stream read in a mode, each with
      its member name split at the slash *)
  tar_entries : tar_mode -> string -> option (list (path * tar_entry));
  (** [gzip] *)
  gunzip : string -> gz_result
}.

(* ===================================================================== *)
(** * The script *)
(* ===================================================================== *)

Definition ARCH : string := "binary-amd64".
Definition DEB_PACKAGE_URL : string :=
  "https://ftp.debian.org/debian/dists/Debian12.5/main/" +:+ ARCH +:+ "/Packages.gz".
Definition UNPACKING_DIR : path := to_path "man_data".
Definition MAN_PAGE_DIR : path := os_path_join UNPACKING_DIR "man_pages".

(** ** The pattern of [move_and_clean_man_pages] *)

(** The pattern is an alternation of literals: in the raw string of the
    source every doubled backslash is the regular expression of one
    backslash character. *)
Inductive regex : Type :=
| Lit (s : string)
| Alt (r1 r2 : regex).

Fixpoint re_match_at (r : regex) (s : string) : bool :=
  match r with
  | Lit l => PyStr.startswith s l
  | Alt a b => re_match_at a s || re_match_at b s
  end.

(** [r.search(s)]: a match at some position. *)
Fixpoint re_search (r : regex) (s : string) : bool :=
  re_match_at r s ||
  match s with
  | EmptyString => false
  | String _ s' => re_search r s'
  end.

Definition bsl : string := str1 BACKSLASH.

Definition man_page_regex : regex :=
  Alt (Lit ("usr" +:+ bsl +:+ "share" +:+ bsl +:+ "man" +:+ bsl))
 (Alt (Lit ("usr" +:+ bsl +:+ "man" +:+ bsl))
 (Alt (Lit ("usr" +:+ bsl +:+ "X11R6" +:+ bsl +:+ "man" +:+ bsl))
 (Alt (Lit ("usr" +:+ bsl +:+ "local" +:+ bsl +:+ "man/"))
      (Lit ("opt" +:+ bsl +:+ "man" +:+ bsl))))).

Section Script.

Context {C : Collab}.

(** ** [extract_deb] *)

Definition tar_mode_of (name : string) : tar_mode :=
  if PyStr.endswith name ".gz" then ModeGz
  else if PyStr.endswith name ".xz" then ModeXz
  else ModePlain.

(** [tar.extractall(path=extract_to)]: the directories above a member
    are made when they are missing, a directory member is made unless
    it is there, a regular member is written over what is there. *)
Definition extract_member (extract_to : path) (e : path * tar_entry) : M unit :=
  let targetpath := join_paths extract_to (fst e) in
  match snd e with
  | TarDir => Os.mkdirs_p targetpath
  | TarFile data =>
      let upperdirs := removelast targetpath in
      when (negb (FS.is_empty_path upperdirs)) (Os.ensure_dir upperdirs) ;;
      fd <- Os.open_wb targetpath ;;
      Os.fd_write fd data
  end.

(** Where a member lands. *)
Definition tar_target (extract_to : path) (e : path * tar_entry) : path :=
  FS.norm (extract_to ++ fst e).

Definition extractall (extract_to : path) (entries : list (path * tar_entry)) : M unit :=
  for_each entries (extract_member extract_to).

(** The body of the loop over [archive.archived_files]. *)
Definition extract_payload (extract_to : path) (member : string * string) : M unit :=
  let name := fst member in
  let content := snd member in
  when (PyStr.startswith name "data.tar")
    (let tar_mode := tar_mode_of name in
     let tar_path := os_path_join extract_to name in
     tar_file <- Os.open_wb tar_path ;;
     Os.fd_write tar_file content ;;
     tar_fd <- Os.open_rb tar_path ;;
     raw <- Os.fd_read tar_fd ;;
     match tar_entries tar_mode raw with
     | None => raise ReadError
     | Some entries => extractall extract_to entries
     end).

Definition extract_deb (data_path extract_to : path) : M unit :=
  Os.ensure_dir extract_to ;;
  archive <- Os.open_rb data_path ;;
  raw <- Os.fd_read archive ;;
  match ar_members raw with
  | None => raise ArchiveFormatError
  | Some archived_files => for_each archived_files (extract_payload extract_to)
  end.

(** ** [download_file] *)

Definition local_filename_of (url : string) : string :=
  last (PyStr.split SLASH url) EmptyString.

Definition download_file (url : string) : M string :=
  let local_filename := local_filename_of url in
  match http_get url with
  | ConnectFail => raise ConnectionError
  | Body data =>
      f <- Os.open_wb (to_path local_filename) ;;
      Os.fd_write f data ;;
      ret local_filename
  | BodyThenFail part =>
      f <- Os.open_wb (to_path local_filename) ;;
      Os.fd_write f part ;;
      raise ChunkedEncodingError
  end.

(** ** [extract_gz] *)

Definition extract_gz (file_path : string) : M unit :=
  f <- Os.open_rb (to_path file_path) ;;
  f_out <- Os.open_wb (to_path (PyStr.replace file_path ".gz" "")) ;;
  raw <- Os.fd_read f ;;
  match gunzip raw with
  | GzOk data => Os.fd_write f_out data
  | GzErr _ => raise BadGzipFile
  end.

(** ** [move_and_clean_man_pages] *)

(** [shutil.copyfileobj(f_in, f_out)] with [f_in] a gzip reader. *)
Definition copy_gunzip (f_in f_out : path) : M unit :=
  raw <- Os.fd_read f_in ;;
  match gunzip raw with
  | GzOk data => Os.fd_write f_out data
  | GzErr written => Os.fd_write f_out written ;; raise BadGzipFile
  end.

(** The body of the loop over [files], below the test of the suffix. *)
Definition process_candidate (root man_dest_folder : path) (file : string) : M unit :=
  let src_file := os_path_join root file in
  let dst_file := os_path_join man_dest_folder (PyStr.drop_last 3 file) in
  e <- Os.path_exists dst_file ;;
  if negb e then
    f_in <- Os.open_rb src_file ;;
    f_out <- Os.open_wb dst_file ;;
    copy_gunzip f_in f_out ;;
    Os.remove src_file
  else ret tt.

Definition is_candidate (file : string) : bool := PyStr.endswith file ".gz".

Definition is_man_dir (root : path) : bool := re_search man_page_regex (path_str root).

(** The body of the loop over [os.walk(extract_to)]. *)
Definition process_dir (man_dest_folder : path)
    (w : path * list string * list string) : M unit :=
  let '(root, _, files) := w in
  when (is_man_dir root)
    (for_each files (fun file =>
       when (is_candidate file) (process_candidate root man_dest_folder file))).

(** The walk and its loop, lines 67 to 84. *)
Definition harvest_loop (extract_to man_dest_folder : path) : M unit :=
  w <- Os.walk extract_to ;;
  for_each w (process_dir man_dest_folder).

Definition move_and_clean_man_pages (extract_to man_dest_folder : path) : M unit :=
  Os.ensure_dir man_dest_folder ;;
  harvest_loop extract_to man_dest_folder ;;
  Os.rmtree extract_to.

(** ** [download_and_process_package] *)

Definition mirror : string := "http://ftp.ca.debian.org/debian/".

Definition scratch_of (dest_folder : path) (deb_path : string) : path :=
  os_path_join dest_folder (PyStr.replace (os_path_basename deb_path) ".deb" "").

Definition download_and_process_package
    (link : string) (dest_folder man_dest_folder : path) : M unit :=
  let full_link := mirror +:+ link in
  deb_path <- download_file full_link ;;
  let extract_to := scratch_of dest_folder deb_path in
  extract_deb (to_path deb_path) extract_to ;;
  move_and_clean_man_pages extract_to man_dest_folder ;;
  Os.remove (to_path deb_path).

(** ** [main] *)

(** What the loop over the futures prints for one package. *)
Inductive report : Type :=
| Processed (link : string)
| Generated_exception (link : string) (e : exn).

(** [future.result()] under [try] and [except Exception]. *)
Definition run_future (link : string) : M report :=
  fun fs =>
    match download_and_process_package link UNPACKING_DIR MAN_PAGE_DIR fs with
    | (inl e, fs') => (inr (Generated_exception link e), fs')
    | (inr _, fs') => (inr (Processed link), fs')
    end.

(** The pool, in the schedule that runs the submitted tasks one after
    the other in the order of submission. *)
Fixpoint run_pool (links : list string) : M (list report) :=
  match links with
  | [] => ret []
  | link :: rest =>
      r <- run_future link ;;
      rs <- run_pool rest ;;
      ret (r :: rs)
  end.

(** Lines 101 to 110: the text of the index. *)
Definition index_text : M string :=
  Os.ensure_dir UNPACKING_DIR ;;
  packages_path <- download_file DEB_PACKAGE_URL ;;
  extract_gz packages_path ;;
  f <- Os.open_rb (to_path (PyStr.replace packages_path ".gz" "")) ;;
  Os.fd_read f.

(** Lines 101 to 112: the list of links. *)
Definition read_index : M (list string) :=
  text <- index_text ;;
  match Index.parse_index text with
  | inl e => raise e
  | inr deb_links => ret deb_links
  end.

(** [main] returns the links it submitted and the reports it printed. *)
Definition main : M (list string * list report) :=
  deb_links <- read_index ;;
  reports <- run_pool deb_links ;;
  ret (deb_links, reports).

End Script.

(** The package a report is about. *)
Definition report_link (r : report) : string :=
  match r with
  | Processed link => link
  | Generated_exception link _ => link
  end.

(* ===================================================================== *)
(** * Tar streams that unpack *)
(* ===================================================================== *)

(** [b] is [a] or lies below it. *)
Definition below (a b : path) : Prop := exists r, b = a ++ r.

Fixpoint belowb (a b : path) : bool :=
  match a, b with
  | [], _ => true
  | x :: a', y :: b' => String.eqb x y && belowb a' b'
  | _ :: _, [] => false
  end.

(** A component of a relative member name: an entry name or the dot. *)
Definition plain (c : string) : bool := FS.regular c || String.eqb c ".".

(** The name of a member: plain components, and a regular member ends
    in an entry name. *)
Definition member_name_ok (e : path * tar_entry) : Prop :=
  Forall (fun c => plain c = true) (fst e) /\
  match snd e with
  | TarFile _ => exists q c, fst e = q ++ [c] /\ FS.regular c = true
  | TarDir => True
  end.

(** A tar stream that is a tree below the scratch directory: no two
    members land on one path, none lands on the payload file or below
    it, and nothing lands below a regular member. *)
Definition tree_like (extract_to payload : path) (entries : list (path * tar_entry)) : Prop :=
  Forall member_name_ok entries /\
  NoDup (map (tar_target extract_to) entries) /\
  (forall e, In e entries -> ~ below payload (tar_target extract_to e)) /\
  (forall e1 e2 d, In e1 entries -> In e2 entries -> snd e1 = TarFile d ->
     below (tar_target extract_to e1) (tar_target extract_to e2) ->
     tar_target extract_to e1 = tar_target extract_to e2).

(** The scratch directory while the members [done] are unpacked: its
    files are the payload file and the regular members, its directories
    lie on the way to a member. *)
Definition unpacked (extract_to payload : path) (done : list (path * tar_entry))
    (fs : FS.node) : Prop :=
  FS.is_dir fs extract_to = true /\
  (forall q, below extract_to q -> FS.file_at fs q <> None ->
     q = payload \/
     exists e d, In e done /\ snd e = TarFile d /\ q = tar_target extract_to e) /\
  (forall q, below extract_to q -> q <> extract_to -> FS.is_dir fs q = true ->
     exists e, In e done /\ below q (tar_target extract_to e) /\
               (q = tar_target extract_to e -> snd e = TarDir)).

(* ===================================================================== *)
(** * Two workers on one destination *)
(* ===================================================================== *)

(** The pool of [main] runs [move_and_clean_man_pages] in several
    threads.  A worker here is one thread inside the loop body of lines
    76 to 82 for one candidate; a step is one statement of that body,
    run with the same primitives as [process_candidate], and a schedule
    says which worker moves next. *)
Module Race.

Inductive pc : Type :=
| AtExists                      (** before [os.path.exists(dst_file)] *)
| AtOpenIn                      (** before [gzip.open(src_file, 'rb')] *)
| AtOpenOut (f_in : path)       (** before [open(dst_file, 'wb')] *)
| AtCopy (f_in f_out : path)    (** before [shutil.copyfileobj] *)
| AtRemove                      (** before [os.remove(src_file)] *)
| Moved
| Skipped
| Crashed (e : exn).

Record worker : Type := {
  w_root : path;
  w_file : string;
  w_pc : pc
}.

Definition at_pc (w : worker) (l : pc) : worker :=
  {| w_root := w_root w; w_file := w_file w; w_pc := l |}.

Definition advance {A} (w : worker) (c : M A) (next : A -> pc) (fs : FS.node)
    : worker * FS.node :=
  match c fs with
  | (inl e, fs') => (at_pc w (Crashed e), fs')
  | (inr a, fs') => (at_pc w (next a), fs')
  end.

Section Workers.

Context {C : Collab}.
Variable man_dest_folder : path.

Definition step (w : worker) (fs : FS.node) : worker * FS.node :=
  let src_file := os_path_join (w_root w) (w_file w) in
  let dst_file := os_path_join man_dest_folder (PyStr.drop_last 3 (w_file w)) in
  match w_pc w with
  | AtExists =>
      advance w (Os.path_exists dst_file)
        (fun e => if negb e then AtOpenIn else Skipped) fs
  | AtOpenIn => advance w (Os.open_rb src_file) AtOpenOut fs
  | AtOpenOut f_in => advance w (Os.open_wb dst_file) (AtCopy f_in) fs
  | AtCopy f_in f_out => advance w (copy_gunzip f_in f_out) (fun _ => AtRemove) fs
  | AtRemove => advance w (Os.remove src_file) (fun _ => Moved) fs
  | Moved | Skipped | Crashed _ => (w, fs)
  end.

(** A worker on its own, for a number of steps. *)
Fixpoint steps (n : nat) (w : worker) (fs : FS.node) : worker * FS.node :=
  match n with
  | O => (w, fs)
  | S k => let '(w', fs') := step w fs in steps k w' fs'
  end.





Definition finished (w : worker) : bool :=
  match w_pc w with
  | Moved | Skipped | Crashed _ => true
  | _ => false
  end.

(** The destination of a worker and what its candidate decodes to. *)
Definition dst_of (w : worker) : path :=
  os_path_join man_dest_folder (PyStr.drop_last 3 (w_file w)).


End Workers.

End Race.

(* ===================================================================== *)
(** * A small world for the examples *)
(* ===================================================================== *)

(** Stand-ins for the collaborators, given by tables.  The gzip stand-in
    stores the data after a three-character marker and, as gzip does,
    rejects a stream that does not start with its marker. *)
Module Demo.

Definition url_hello : string := mirror +:+ "pool/main/h/hello/hello_2.10-3_amd64.deb".
Definition url_broken : string := mirror +:+ "pool/main/b/broken/broken_1.0_all.deb".
Definition url_nodata : string := mirror +:+ "pool/main/n/nodata/nodata_1.0_all.deb".
Definition url_cut : string := mirror +:+ "pool/main/c/cut/cut_1.0_all.deb".

Definition deb_hello : string := "!<arch> hello".
Definition deb_nodata : string := "!<arch> nodata".
Definition tgz_hello : string := "tar.gz of hello".

Definition index_gz : string :=
  "gz:Package: hello" +:+ str1 LF +:+
  "Filename: pool/main/h/hello/hello_2.10-3_amd64.deb" +:+ str1 LF +:+
  "Size: 56132" +:+ str1 LF.

Definition index_gz_no_record : string :=
  "gz:Package: hello" +:+ str1 LF +:+ "Size: 56132" +:+ str1 LF.

Definition demo_http_get (url : string) : response :=
  if String.eqb url url_hello then Body deb_hello
  else if String.eqb url url_broken then Body "<html>404 Not Found</html>"
  else if String.eqb url url_nodata then Body deb_nodata
  else if String.eqb url url_cut then BodyThenFail "!<arch> cu"
  else if String.eqb url DEB_PACKAGE_URL then Body index_gz
  else ConnectFail.

Definition demo_ar_members (raw : string) : option (list (string * string)) :=
  if String.eqb raw deb_hello then
    Some [("debian-binary", "2.0"); ("control.tar.gz", "tar.gz of control");
          ("data.tar.gz", tgz_hello)]
  else if String.eqb raw deb_nodata then
    Some [("debian-binary", "2.0"); ("control.tar.gz", "tar.gz of control")]
  else None.

Definition man1 : path := ["."; "usr"; "share"; "man"; "man1"].

Definition demo_tar_entries (mode : tar_mode) (raw : string)
    : option (list (path * tar_entry)) :=
  match mode with
  | ModeGz =>
      if String.eqb raw tgz_hello then
        Some [(["."; "usr"; "bin"; "hello"], TarFile "ELF");
              (man1, TarDir);
              (man1 ++ ["hello.1.gz"], TarFile "gz:HELLO(1)")]
      else None
  | _ => None
  end.

Definition demo_gunzip (raw : string) : gz_result :=
  if PyStr.startswith raw "gz:" then GzOk (PyStr.drop 3 raw) else GzErr "".

#[export] Instance demo : Collab := {
  http_get := demo_http_get;
  ar_members := demo_ar_members;
  tar_entries := demo_tar_entries;
  gunzip := demo_gunzip
}.

(** The same world with an index that holds no record. *)
Definition no_record_http_get (url : string) : response :=
  if String.eqb url DEB_PACKAGE_URL then Body index_gz_no_record
  else demo_http_get url.

Definition demo_no_record : Collab := {|
  http_get := no_record_http_get;
  ar_members := demo_ar_members;
  tar_entries := demo_tar_entries;
  gunzip := demo_gunzip
|}.

(** The working directory before a run: empty. *)
Definition fs_empty : FS.node := FS.Dir [].

(** The working directory of a run under way. *)
Definition fs_started : FS.node := FS.Dir [("man_data", FS.Dir [])].

(** Two unpacked packages that both ship [foo.1.gz]. *)
Definition fs_two : FS.node :=
  FS.Dir [("man_data",
     FS.Dir [("man_pages", FS.Dir []);
             ("a", FS.Dir [("foo.1.gz", FS.File "gz:page of a")]);
             ("b", FS.Dir [("foo.1.gz", FS.File "gz:page of b")])])].

(** The working directory once the archive without a payload has been
    fetched. *)
Definition fs_nodata : FS.node :=
  FS.Dir [("man_data", FS.Dir []); ("nodata_1.0_all.deb", FS.File deb_nodata)].

(** The working directory once the archive of hello has been fetched. *)
Definition fs_hello : FS.node :=
  FS.Dir [("man_data", FS.Dir []); ("hello_2.10-3_amd64.deb", FS.File deb_hello)].

(** A directory name that the pattern of the script matches: the name
    itself holds the backslashes. *)
Definition backslash_man : string := "usr" +:+ bsl +:+ "man" +:+ bsl.

(** An unpacked package with a page whose gzip stream is damaged. *)
Definition fs_damaged : FS.node :=
  FS.Dir [("man_data",
     FS.Dir [("man_pages", FS.Dir []);
             ("pkg", FS.Dir [(backslash_man,
                FS.Dir [("bad.1.gz", FS.File "no gzip stream")])])])].

(** An unpacked package with a page that decodes. *)
Definition fs_page : FS.node :=
  FS.Dir [("man_data",
     FS.Dir [("man_pages", FS.Dir []);
             ("pkg", FS.Dir [(backslash_man,
                FS.Dir [("ok.1.gz", FS.File "gz:OK(1)")])])])].

(** A record line whose path holds a space. *)
Definition line_with_space : string :=
  "Filename: pool/main/m/my pkg/my pkg_1.0_all.deb" +:+ str1 LF.


End Demo.

(** Worlds and trees for the edge cases of the helpers. *)
Module Samples.


(** The working directory with a file whose name holds no [.gz]. *)
Definition fs_text : FS.node := FS.Dir [("Packages", FS.File "gz:Package: hello")].

(** Two pools that serve different archives under one file name. *)
Definition url_main : string := mirror +:+ "pool/main/t/tool/tool_1.0_all.deb".
Definition url_contrib : string := mirror +:+ "pool/contrib/t/tool/tool_1.0_all.deb".

Definition pools_http_get (url : string) : response :=
  if String.eqb url url_main then Body "!<arch> tool of main"
  else if String.eqb url url_contrib then Body "!<arch> tool of contrib"
  else ConnectFail.

Definition pools : Collab := {|
  http_get := pools_http_get;
  ar_members := Demo.demo_ar_members;
  tar_entries := Demo.demo_tar_entries;
  gunzip := Demo.demo_gunzip
|}.

(** A server that answers the URL of a directory with its listing. *)
Definition listing_http_get (url : string) : response :=
  if PyStr.endswith url "/" then Body "<html>Index of /debian</html>"
  else Demo.demo_http_get url.

Definition listing : Collab := {|
  http_get := listing_http_get;
  ar_members := Demo.demo_ar_members;
  tar_entries := Demo.demo_tar_entries;
  gunzip := Demo.demo_gunzip
|}.

(** An archive whose payload is compressed in a way the script has no
    mode for: the plain mode refuses the stream. *)
Definition deb_zstd : string := "!<arch> zstd".

Definition zstd_ar_members (raw : string) : option (list (string * string)) :=
  if String.eqb raw deb_zstd then
    Some [("debian-binary", "2.0"); ("control.tar.zst", "zstd of control");
          ("data.tar.zst", "zstd of data")]
  else None.

Definition zstd : Collab := {|
  http_get := Demo.demo_http_get;
  ar_members := zstd_ar_members;
  tar_entries := Demo.demo_tar_entries;
  gunzip := Demo.demo_gunzip
|}.

Definition fs_zstd : FS.node :=
  FS.Dir [("man_data", FS.Dir []); ("zstd_1.5_amd64.deb", FS.File deb_zstd)].

(** The working directory once the answer of the server for a missing
    package has been saved as the archive. *)
Definition fs_broken : FS.node :=
  FS.Dir [("man_data", FS.Dir []);
          ("broken_1.0_all.deb", FS.File "<html>404 Not Found</html>")].

(** An unpacked package as it looks on a POSIX system. *)
Definition fs_posix : FS.node :=
  FS.Dir [("man_data",
     FS.Dir [("man_pages", FS.Dir []);
             ("hello_2.10-3_amd64",
              FS.Dir [("data.tar.gz", FS.File Demo.tgz_hello);
                      ("usr",
                       FS.Dir [("bin", FS.Dir [("hello", FS.File "ELF")]);
                               ("share",
                                FS.Dir [("man",
                                  FS.Dir [("man1",
                                    FS.Dir [("hello.1.gz",
                                             FS.File "gz:HELLO(1)")])])])])])])].

(** A manual directory with a page and a file that is no candidate. *)
Definition fs_pages : FS.node :=
  FS.Dir [("man_data",
     FS.Dir [("man_pages", FS.Dir []);
             ("pkg", FS.Dir [(Demo.backslash_man,
                FS.Dir [("ok.1.gz", FS.File "gz:OK(1)");
                        ("README", FS.File "see the manual")])])])].

End Samples.

(* ===================================================================== *)
(** * Properties of computations *)
(* ===================================================================== *)

(** A computation that makes no directory and removes none, whether it
    returns or raises. *)
Definition keeps_dirs {A} (c : M A) : Prop :=
  forall fs r fs', c fs = (r, fs') -> forall q, FS.is_dir fs' q = FS.is_dir fs q.

(** A computation that at most makes directories: it changes no file and
    removes no directory, whether it returns or raises. *)
Definition only_makes_dirs {A} (c : M A) : Prop :=
  forall fs r fs', c fs = (r, fs') ->
    (forall q, FS.file_at fs' q = FS.file_at fs q) /\
    (forall q, FS.is_dir fs q = true -> FS.is_dir fs' q = true).

(** A candidate of the directory [root] that the loop body can move: its
    name is an entry name, its file decodes, and the corpus folder has
    nothing under its destination name. *)
Definition fresh_candidate {C : Collab} (root man_dest_folder : path) (fs : FS.node)
    (file : string) : Prop :=
  PyStr.has_char SLASH file = false /\
  FS.regular file = true /\
  exists raw data,
    FS.file_at fs (root ++ [file]) = Some raw /\
    gunzip raw = GzOk data /\
    FS.path_exists fs (man_dest_folder ++ [PyStr.drop_last 3 file]) = false.

(** What the loop over the files of [root] leaves of a candidate: the
    decoded page in the corpus folder, and no source. *)
Definition harvested {C : Collab} (root man_dest_folder : path) (fs fs' : FS.node)
    (file : string) : Prop :=
  exists raw data,
    FS.file_at fs (root ++ [file]) = Some raw /\
    gunzip raw = GzOk data /\
    FS.file_at fs' (man_dest_folder ++ [PyStr.drop_last 3 file]) = Some data /\
    FS.file_at fs' (root ++ [file]) = None.

(* ===================================================================== *)
(** * Facts about the string methods *)
(* ===================================================================== *)

Module PyStrFacts.

Import PyStr.

Lemma length_app (a b : string) :
  String.length (a +:+ b) = String.length a + String.length b.
Proof. induction a as [|c a IH]; simpl; [reflexivity | now rewrite IH]. Qed.

Lemma app_empty_r (a : string) : a +:+ "" = a.
Proof. induction a as [|c a IH]; simpl; [reflexivity | now rewrite IH]. Qed.

Lemma app_assoc (a b c : string) : (a +:+ b) +:+ c = a +:+ (b +:+ c).
Proof. induction a as [|x a IH]; simpl; [reflexivity | now rewrite IH]. Qed.

Lemma startswith_app (p r : string) : startswith (p +:+ r) p = true.
Proof.
  induction p as [|c p IH]; simpl; [now destruct r|].
  now rewrite Ascii.eqb_refl, IH.
Qed.

Lemma startswith_inv (s p : string) :
  startswith s p = true -> s = p +:+ drop (String.length p) s.
Proof.
  revert s; induction p as [|c p IH]; intros s H; simpl.
  - now destruct s.
  - destruct s as [|b s]; simpl in H; [discriminate|].
    apply andb_true_iff in H as [Hc Hs].
    apply Ascii.eqb_eq in Hc; subst b.
    simpl. f_equal. now apply IH.
Qed.

Lemma endswith_inv (s p : string) :
  endswith s p = true -> exists q, s = q +:+ p.
Proof.
  induction s as [|c s IH]; cbn [endswith]; intros H.
  - rewrite orb_false_r in H. apply String.eqb_eq in H. now exists "".
  - apply orb_true_iff in H as [H|H].
    + apply String.eqb_eq in H. now exists "".
    + destruct (IH H) as [q ->]. now exists (String c q).
Qed.

Lemma endswith_app (q p : string) : endswith (q +:+ p) p = true.
Proof.
  induction q as [|c q IH]; cbn [endswith String.append].
  - destruct p; cbn [endswith]; now rewrite String.eqb_refl.
  - rewrite IH. apply orb_true_r.
Qed.

Lemma take_length_app (q p : string) : take (String.length q) (q +:+ p) = q.
Proof. induction q as [|c q IH]; simpl; [now destruct p | now rewrite IH]. Qed.

Lemma drop_last_app (q p : string) : drop_last (String.length p) (q +:+ p) = q.
Proof.
  unfold drop_last. rewrite length_app.
  replace (String.length q + String.length p - String.length p)
    with (String.length q) by lia.
  apply take_length_app.
Qed.

Lemma has_char_app (c : ascii) (a b : string) :
  has_char c (a +:+ b) = has_char c a || has_char c b.
Proof.
  induction a as [|x a IH]; simpl; [reflexivity|].
  now rewrite IH, orb_assoc.
Qed.

Lemma has_char_take (c : ascii) (n : nat) (s : string) :
  has_char c s = false -> has_char c (take n s) = false.
Proof.
  revert s; induction n as [|n IH]; intros [|x s]; simpl; auto.
  intros H. apply orb_false_iff in H as [H1 H2].
  now rewrite H1, (IH _ H2).
Qed.

Lemma startswith_has_char (c : ascii) (s p : string) :
  startswith s p = true -> has_char c p = true -> has_char c s = true.
Proof.
  intros H Hp. rewrite (startswith_inv _ _ H), has_char_app, Hp. reflexivity.
Qed.

Lemma split_not_nil (sep : ascii) (s : string) : split sep s <> [].
Proof.
  induction s as [|c s IH]; simpl; [discriminate|].
  destruct (Ascii.eqb c sep); [discriminate|].
  destruct (split sep s); discriminate.
Qed.

Lemma split_no_sep (sep : ascii) (s : string) :
  has_char sep s = false -> split sep s = [s].
Proof.
  induction s as [|c s IH]; simpl; [reflexivity|].
  intros H. apply orb_false_iff in H as [H1 H2].
  now rewrite H1, (IH H2).
Qed.

(** [(a + sep + b).split(sep) == a.split(sep) + b.split(sep)] *)
Lemma split_app (sep : ascii) (a b : string) :
  split sep (a +:+ String sep b) = split sep a ++ split sep b.
Proof.
  induction a as [|c a IH]; simpl.
  - now rewrite Ascii.eqb_refl.
  - destruct (Ascii.eqb c sep); rewrite IH; [reflexivity|].
    pose proof (split_not_nil sep a) as Hne.
    destruct (split sep a); [contradiction | reflexivity].
Qed.

Lemma split_head (sep : ascii) (s : string) :
  exists t, split sep s = upto sep s :: t.
Proof.
  induction s as [|c s [t IH]]; simpl; [now exists []|].
  destruct (Ascii.eqb c sep); [now eexists|].
  rewrite IH. now eexists.
Qed.

Lemma last_split_app (sep : ascii) (a b : string) :
  has_char sep b = false ->
  last (split sep (a +:+ String sep b)) "" = b.
Proof.
  intros H. rewrite split_app, (split_no_sep _ _ H). apply last_last.
Qed.

Lemma lstrip_rstrip_no_lead (c : ascii) (s : string) :
  isspace c = false -> strip (String c s) = rstrip (String c s).
Proof.
  intros H. unfold strip. simpl.
  destruct (rstrip s); rewrite ?H; simpl; now rewrite H.
Qed.

Lemma upto_no_sep (sep : ascii) (s : string) :
  has_char sep s = false -> upto sep s = s.
Proof.
  induction s as [|c s IH]; simpl; [reflexivity|].
  intros H. apply orb_false_iff in H as [H1 H2].
  now rewrite H1, (IH H2).
Qed.

End PyStrFacts.

(* ===================================================================== *)
(** * The index *)
(* ===================================================================== *)

Module IndexFacts.

Import PyStr PyStrFacts Index.

Lemma second_field_record (line : string) :
  startswith line field_prefix = true ->
  second_field line = inr (upto SPACE (drop (String.length field_prefix) line)).
Proof.
  intros H. unfold second_field.
  rewrite (startswith_inv _ _ H) at 1.
  change (field_prefix +:+ drop (String.length field_prefix) line)
    with ("Filename:" +:+ String SPACE (drop (String.length field_prefix) line)).
  rewrite split_app.
  destruct (split_head SPACE (drop (String.length field_prefix) line)) as [t ->].
  reflexivity.
Qed.

Lemma deb_links_field_parse (lines : list string) :
  deb_links lines = inr (field_parse lines).
Proof.
  unfold field_parse.
  induction lines as [|line rest IH]; simpl; [reflexivity|].
  unfold is_record at 1.
  destruct (startswith line field_prefix) eqn:H.
  - rewrite (second_field_record _ H), IH. reflexivity.
  - exact IH.
Qed.

Lemma field_parse_no_record (lines : list string) :
  (forall l, In l lines -> startswith l field_prefix = false) ->
  field_parse lines = [].
Proof.
  unfold field_parse.
  induction lines as [|line rest IH]; simpl; intros H; [reflexivity|].
  unfold is_record at 1. rewrite (H line (or_introl eq_refl)).
  apply IH. intros l Hl. apply H. now right.
Qed.

(** On a record line whose path holds no space and starts with no
    whitespace the script and the rule of the specification agree. *)
Lemma field_of_spec_field (line : string) (c : ascii) (rest : string) :
  drop (String.length field_prefix) line = String c rest ->
  isspace c = false ->
  has_char SPACE (String c rest) = false ->
  field_of line = spec_field line.
Proof.
  intros Hd Hc Hs. unfold field_of, spec_field.
  rewrite Hd, (upto_no_sep _ _ Hs), (lstrip_rstrip_no_lead _ _ Hc).
  reflexivity.
Qed.

End IndexFacts.

(* ===================================================================== *)
(** * The file system: looking up after an update *)
(* ===================================================================== *)

Module FSFacts.

Import FS.

Section AlistFacts.
Context {A : Type}.
Implicit Types (l : list (string * A)) (k : string) (v : A).

Lemma alist_get_set_same k v l : alist_get k (alist_set k v l) = Some v.
Proof.
  induction l as [|[k' v'] l IH]; simpl.
  - now rewrite String.eqb_refl.
  - destruct (String.eqb k k') eqn:E; simpl; rewrite ?String.eqb_refl, ?E; auto.
Qed.

Lemma alist_get_set_other k k' v l :
  k <> k' -> alist_get k' (alist_set k v l) = alist_get k' l.
Proof.
  intros Hne. induction l as [|[k0 v0] l IH]; simpl.
  - destruct (String.eqb_spec k' k); [congruence | reflexivity].
  - destruct (String.eqb_spec k k0); simpl.
    + subst k0. destruct (String.eqb_spec k' k); [congruence | reflexivity].
    + now rewrite IH.
Qed.

Lemma alist_get_del_same k l : alist_get k (alist_del k l) = None.
Proof.
  induction l as [|[k' v'] l IH]; simpl; [reflexivity|].
  destruct (String.eqb k k') eqn:E; simpl; rewrite ?E; auto.
Qed.

Lemma alist_get_del_other k k' l :
  k <> k' -> alist_get k' (alist_del k l) = alist_get k' l.
Proof.
  intros Hne. induction l as [|[k0 v0] l IH]; simpl; [reflexivity|].
  destruct (String.eqb_spec k k0); simpl.
  - subst k0. destruct (String.eqb_spec k' k); [congruence | exact IH].
  - now rewrite IH.
Qed.

Lemma alist_set_set k v w l : alist_set k w (alist_set k v l) = alist_set k w l.
Proof.
  induction l as [|[k' v'] l IH]; simpl.
  - now rewrite String.eqb_refl.
  - destruct (String.eqb k k') eqn:E; simpl; rewrite ?String.eqb_refl, ?E; congruence.
Qed.
End AlistFacts.

Lemma get_app (n : node) (p q : path) :
  get n (p ++ q) = match get n p with Some m => get m q | None => None end.
Proof.
  revert n; induction p as [|c p IH]; intros n; simpl; [reflexivity|].
  destruct n as [d|es]; [reflexivity|].
  destruct (alist_get c es); [apply IH | reflexivity].
Qed.

Lemma get_file_below (d : string) (q : path) : q <> [] -> get (File d) q = None.
Proof. destruct q; [congruence | reflexivity]. Qed.

Lemma file_at_below_file (d : string) (q : path) : q <> [] -> file_at (File d) q = None.
Proof. intros H. unfold file_at. now rewrite get_file_below. Qed.

Lemma is_dir_app (n : node) (p q : path) :
  is_dir n (p ++ q) = true -> is_dir n p = true.
Proof.
  unfold is_dir. rewrite get_app.
  destruct (get n p) as [[d|es]|]; try discriminate; [|reflexivity].
  destruct q; simpl; discriminate.
Qed.

Lemma is_dir_removelast (n : node) (p : path) :
  is_dir n p = true -> is_dir n (removelast p) = true.
Proof.
  destruct p as [|c p] using rev_ind; [trivial|].
  rewrite removelast_last. apply is_dir_app.
Qed.

Lemma is_dir_not_file (n : node) (p : path) (d : string) :
  file_at n p = Some d -> is_dir n p = false.
Proof. unfold file_at, is_dir. now destruct (get n p) as [[?|?]|]. Qed.

(** What was put is found, when the parent is a directory. *)
Lemma get_put_same (a : path) (c : string) (n v : node) :
  is_dir n a = true -> get (put n (a ++ [c]) v) (a ++ [c]) = Some v.
Proof.
  revert n; induction a as [|x a IH]; intros n H.
  - destruct n as [d|es]; [discriminate|]. simpl.
    destruct (alist_get c es); simpl; now rewrite alist_get_set_same.
  - destruct n as [d|es]; [discriminate|].
    unfold is_dir in H. simpl in H. simpl.
    destruct (alist_get x es) as [m|] eqn:E; [|discriminate].
    simpl. rewrite alist_get_set_same. now apply IH.
Qed.

(** Writing a file where no directory is leaves every other file. *)
Lemma put_file_frame (p : path) (n : node) (d : string) (q : path) :
  is_dir n p = false -> q <> p ->
  file_at (put n p (File d)) q = file_at n q.
Proof.
  revert n q; induction p as [|c p IH]; intros n q Hnd Hq.
  - destruct n as [d0|es]; [|discriminate]. simpl.
    now rewrite !file_at_below_file.
  - destruct n as [d0|es]; [reflexivity|]. simpl.
    unfold is_dir in Hnd. simpl in Hnd.
    destruct (alist_get c es) as [m|] eqn:E.
    + destruct q as [|c' q]; [reflexivity|].
      unfold file_at. simpl.
      destruct (String.eqb_spec c c') as [->|Hc].
      * rewrite alist_get_set_same, E. apply (IH m q Hnd). congruence.
      * now rewrite alist_get_set_other.
    + destruct p as [|x p]; [|reflexivity].
      destruct q as [|c' q]; [reflexivity|].
      unfold file_at. simpl.
      destruct (String.eqb_spec c c') as [->|Hc].
      * rewrite alist_get_set_same, E. rewrite get_file_below; congruence.
      * now rewrite alist_get_set_other.
Qed.

(** It makes and removes no directory. *)
Lemma put_file_dirs (p : path) (n : node) (d : string) (q : path) :
  is_dir n p = false -> is_dir (put n p (File d)) q = is_dir n q.
Proof.
  revert n q; induction p as [|c p IH]; intros n q Hnd.
  - destruct n as [d0|es]; [|discriminate]. simpl.
    unfold is_dir. destruct q; reflexivity.
  - destruct n as [d0|es]; [reflexivity|]. simpl.
    unfold is_dir in Hnd. simpl in Hnd.
    destruct (alist_get c es) as [m|] eqn:E.
    + destruct q as [|c' q]; [reflexivity|].
      unfold is_dir. simpl.
      destruct (String.eqb_spec c c') as [->|Hc].
      * rewrite alist_get_set_same, E. apply (IH m q Hnd).
      * now rewrite alist_get_set_other.
    + destruct p as [|x p]; [|reflexivity].
      destruct q as [|c' q]; [reflexivity|].
      unfold is_dir. simpl.
      destruct (String.eqb_spec c c') as [->|Hc].
      * rewrite alist_get_set_same, E. destruct q; reflexivity.
      * now rewrite alist_get_set_other.
Qed.

(** A new empty directory changes no file. *)
Lemma put_newdir_frame (p : path) (n : node) (q : path) :
  get n p = None -> file_at (put n p (Dir [])) q = file_at n q.
Proof.
  revert n q; induction p as [|c p IH]; intros n q Hg; [discriminate|].
  destruct n as [d0|es]; [reflexivity|]. simpl. simpl in Hg.
  destruct (alist_get c es) as [m|] eqn:E.
  - destruct q as [|c' q]; [reflexivity|].
    unfold file_at. simpl.
    destruct (String.eqb_spec c c') as [->|Hc].
    + rewrite alist_get_set_same, E. apply (IH m q Hg).
    + now rewrite alist_get_set_other.
  - destruct p as [|x p]; [|reflexivity].
    destruct q as [|c' q]; [reflexivity|].
    unfold file_at. simpl.
    destruct (String.eqb_spec c c') as [->|Hc].
    + rewrite alist_get_set_same, E. destruct q; reflexivity.
    + now rewrite alist_get_set_other.
Qed.

(** It removes no directory. *)
Lemma put_newdir_dirs (p : path) (n : node) (q : path) :
  get n p = None -> is_dir n q = true -> is_dir (put n p (Dir [])) q = true.
Proof.
  revert n q; induction p as [|c p IH]; intros n q Hg; [discriminate|].
  destruct n as [d0|es]; [trivial|]. simpl. simpl in Hg.
  destruct (alist_get c es) as [m|] eqn:E.
  - destruct q as [|c' q]; [reflexivity|].
    unfold is_dir. simpl.
    destruct (String.eqb_spec c c') as [->|Hc].
    + rewrite alist_get_set_same, E. apply (IH m q Hg).
    + now rewrite alist_get_set_other.
  - destruct p as [|x p]; [|trivial].
    destruct q as [|c' q]; [reflexivity|].
    unfold is_dir. simpl.
    destruct (String.eqb_spec c c') as [->|Hc].
    + rewrite alist_get_set_same, E. discriminate.
    + now rewrite alist_get_set_other.
Qed.

(** Nothing is found where an entry was unlinked. *)
Lemma get_del_same (p : path) (n : node) : p <> [] -> get (del n p) p = None.
Proof.
  revert n; induction p as [|c p IH]; intros n Hp; [congruence|].
  destruct n as [d0|es]; [reflexivity|]. simpl.
  destruct p as [|x p].
  - simpl. now rewrite alist_get_del_same.
  - destruct (alist_get c es) as [m|] eqn:E.
    + cbn [get]. rewrite alist_get_set_same. apply IH. discriminate.
    + cbn [get]. now rewrite E.
Qed.

(** Unlinking a file leaves every other file. *)
Lemma del_file_frame (p : path) (n : node) (d0 : string) (q : path) :
  file_at n p = Some d0 -> q <> p -> file_at (del n p) q = file_at n q.
Proof.
  revert n q; induction p as [|c p IH]; intros n q Hf Hq; [reflexivity|].
  destruct n as [d1|es]; [reflexivity|]. simpl.
  unfold file_at in Hf. simpl in Hf.
  destruct (alist_get c es) as [m|] eqn:E; [|discriminate].
  destruct p as [|x p].
  - destruct q as [|c' q]; [reflexivity|].
    unfold file_at. simpl.
    destruct (String.eqb_spec c c') as [->|Hc].
    + rewrite alist_get_del_same, E. simpl in Hf.
      destruct m as [dm|]; [|discriminate].
      rewrite get_file_below; congruence.
    + now rewrite alist_get_del_other.
  - destruct q as [|c' q]; [reflexivity|].
    unfold file_at. cbn [get].
    destruct (String.eqb_spec c c') as [->|Hc].
    + rewrite alist_get_set_same, E. apply (IH m q Hf). congruence.
    + now rewrite alist_get_set_other.
Qed.

(** It removes no directory. *)
Lemma del_file_dirs (p : path) (n : node) (d0 : string) (q : path) :
  file_at n p = Some d0 -> is_dir (del n p) q = is_dir n q.
Proof.
  revert n q; induction p as [|c p IH]; intros n q Hf; [reflexivity|].
  destruct n as [d1|es]; [reflexivity|]. simpl.
  unfold file_at in Hf. simpl in Hf.
  destruct (alist_get c es) as [m|] eqn:E; [|discriminate].
  destruct p as [|x p].
  - destruct q as [|c' q]; [reflexivity|].
    unfold is_dir. simpl.
    destruct (String.eqb_spec c c') as [->|Hc].
    + rewrite alist_get_del_same, E. simpl in Hf.
      destruct m as [dm|]; [|discriminate].
      destruct q; reflexivity.
    + now rewrite alist_get_del_other.
  - destruct q as [|c' q]; [reflexivity|].
    unfold is_dir. cbn [get].
    destruct (String.eqb_spec c c') as [->|Hc].
    + rewrite alist_get_set_same, E. apply (IH m q Hf).
    + now rewrite alist_get_set_other.
Qed.

(** A second write at a path replaces the first. *)
Lemma put_put_same (p : path) (n v w : node) : put (put n p v) p w = put n p w.
Proof.
  revert n; induction p as [|c p IH]; intros n; [reflexivity|].
  destruct n as [d|es]; [reflexivity|]. simpl.
  destruct (alist_get c es) as [m|] eqn:E.
  - simpl. now rewrite alist_get_set_same, IH, alist_set_set.
  - destruct p as [|x p].
    + simpl. now rewrite alist_get_set_same, alist_set_set.
    + simpl. now rewrite E.
Qed.

End FSFacts.

(* ===================================================================== *)
(** * Path resolution *)
(* ===================================================================== *)

Module ResolveFacts.

Import FS FSFacts.

Lemma step_component_regular (cur : path) (c : string) :
  regular c = true -> step_component cur c = cur ++ [c].
Proof.
  unfold regular, step_component. intros H.
  apply negb_true_iff, orb_false_iff in H as [H H3].
  apply orb_false_iff in H as [H1 H2].
  now rewrite H1, H2, H3.
Qed.

(** Resolution looks at the directories only. *)
Lemma resolve_from_same_dirs (fs fs' : node) :
  (forall q, is_dir fs' q = is_dir fs q) ->
  forall p cur, resolve_from fs' cur p = resolve_from fs cur p.
Proof.
  intros H. induction p as [|c p IH]; intros cur; simpl; [reflexivity|].
  rewrite H. destruct (is_dir fs cur); [apply IH | reflexivity].
Qed.

Lemma resolve_same_dirs (fs fs' : node) (p : path) :
  (forall q, is_dir fs' q = is_dir fs q) -> resolve fs' p = resolve fs p.
Proof.
  intros H. unfold resolve.
  destruct (is_empty_path p); [reflexivity | now apply resolve_from_same_dirs].
Qed.

(** Where resolution succeeds it gives the normal form of the path. *)
Lemma resolve_from_norm (fs : node) (p cur q : path) :
  resolve_from fs cur p = Some q -> q = fold_left step_component p cur.
Proof.
  revert cur; induction p as [|c p IH]; intros cur; simpl.
  - congruence.
  - destruct (is_dir fs cur); [apply IH | discriminate].
Qed.

Lemma resolve_norm (fs : node) (p q : path) : resolve fs p = Some q -> q = norm p.
Proof.
  unfold resolve, norm.
  destruct (is_empty_path p); [discriminate | apply resolve_from_norm].
Qed.

Lemma resolve_not_empty (fs : node) (p q : path) : resolve fs p = Some q -> p <> [].
Proof. unfold resolve. destruct p; simpl; [discriminate | congruence]. Qed.

Lemma resolve_from_last (fs : node) (p cur q : path) :
  p <> [] -> resolve_from fs cur p = Some q ->
  exists cur' c, is_dir fs cur' = true /\ q = step_component cur' c.
Proof.
  revert cur; induction p as [|c p IH]; intros cur Hp; [congruence|]. simpl.
  destruct (is_dir fs cur) eqn:Hd; [|discriminate].
  destruct p as [|c2 p].
  - simpl. intros [= <-]. now exists cur, c.
  - apply IH. discriminate.
Qed.

(** What resolves to something that is no directory has a directory as
    its parent. *)
Lemma resolve_parent (fs : node) (p q : path) :
  resolve fs p = Some q -> is_dir fs q = false ->
  exists a c, q = a ++ [c] /\ is_dir fs a = true.
Proof.
  intros Hr Hq. pose proof (resolve_not_empty _ _ _ Hr) as Hp.
  unfold resolve in Hr. destruct (is_empty_path p); [discriminate|].
  destruct (resolve_from_last _ _ _ _ Hp Hr) as (cur & c & Hd & ->).
  unfold step_component in *.
  destruct (String.eqb c ""); [congruence|].
  destruct (String.eqb c "."); [congruence|].
  destruct (String.eqb c "..").
  - rewrite (is_dir_removelast _ _ Hd) in Hq. discriminate.
  - now exists cur, c.
Qed.

Lemma resolve_from_clean (fs : node) (p cur : path) :
  Forall (fun c => regular c = true) p ->
  (forall k, k < length p -> is_dir fs (cur ++ firstn k p) = true) ->
  resolve_from fs cur p = Some (cur ++ p).
Proof.
  revert cur; induction p as [|c p IH]; intros cur Hreg Hd; simpl.
  - now rewrite app_nil_r.
  - inversion Hreg as [|? ? Hc Hp]; subst.
    pose proof (Hd 0 ltac:(simpl; lia)) as H0. simpl in H0.
    rewrite app_nil_r in H0. rewrite H0.
    rewrite (step_component_regular _ _ Hc), IH; auto.
    + now rewrite <- app_assoc.
    + intros k Hk. rewrite <- app_assoc. apply (Hd (S k)). simpl. lia.
Qed.

Lemma regular_not_empty_path (p : path) :
  Forall (fun c => regular c = true) p -> p <> [] -> is_empty_path p = false.
Proof.
  intros Hreg Hp. destruct p as [|c [|c2 p]]; [congruence| |reflexivity].
  inversion Hreg as [|? ? Hc _]; subst. simpl.
  unfold regular in Hc. apply negb_true_iff, orb_false_iff in Hc as [Hc _].
  now apply orb_false_iff in Hc as [Hc _].
Qed.

(** A path of entry names below a directory resolves to itself. *)
Lemma resolve_clean (fs : node) (a : path) (c : string) :
  Forall (fun c => regular c = true) (a ++ [c]) ->
  is_dir fs a = true ->
  resolve fs (a ++ [c]) = Some (a ++ [c]).
Proof.
  intros Hreg Hd. unfold resolve.
  rewrite regular_not_empty_path; auto; [|now destruct a].
  apply (resolve_from_clean fs (a ++ [c]) []); auto.
  intros k Hk. rewrite length_app in Hk. simpl in Hk. simpl.
  rewrite firstn_app.
  replace (k - length a) with 0 by lia. simpl. rewrite app_nil_r.
  apply (is_dir_app fs (firstn k a) (skipn k a)).
  now rewrite firstn_skipn.
Qed.

Lemma to_path_name (s : string) : PyStr.has_char SLASH s = false -> to_path s = [s].
Proof. apply PyStrFacts.split_no_sep. Qed.

Lemma regular_not_empty (c : string) : regular c = true -> String.eqb c "" = false.
Proof.
  unfold regular. intros H. apply negb_true_iff, orb_false_iff in H as [H _].
  now apply orb_false_iff in H as [H _].
Qed.

(** After a path of entry names the slash is put. *)
Lemma join_paths_regular (a b : path) :
  Forall (fun c => regular c = true) a -> join_paths a b = a ++ b.
Proof.
  intros Hreg. unfold join_paths, ends_with_slash.
  destruct a as [|x a _] using rev_ind; [reflexivity|].
  rewrite last_last. apply Forall_app in Hreg as [_ Hx].
  inversion Hx as [|? ? Hx' _]; subst. now rewrite (regular_not_empty _ Hx').
Qed.

Lemma os_path_join_name (a : path) (s : string) :
  Forall (fun c => regular c = true) a ->
  PyStr.has_char SLASH s = false -> os_path_join a s = a ++ [s].
Proof.
  intros Hreg H. unfold os_path_join.
  destruct (PyStr.startswith s (str1 SLASH)) eqn:E.
  - apply (PyStrFacts.startswith_has_char SLASH) in E; [congruence | reflexivity].
  - now rewrite join_paths_regular, to_path_name.
Qed.

(** The slash that [os.path.join] leaves out changes nothing in what the
    path names. *)
Lemma norm_join_paths (a b : path) : norm (join_paths a b) = norm (a ++ b).
Proof.
  unfold join_paths, ends_with_slash, norm.
  destruct (String.eqb (last a "") "") eqn:E; [|reflexivity].
  destruct a as [|x a _] using rev_ind; [reflexivity|].
  rewrite last_last in E. apply String.eqb_eq in E. subst x.
  rewrite removelast_last, !fold_left_app. reflexivity.
Qed.

(** What [stat] finds after a change that kept the directories. *)
Lemma stat_dir_same_dirs (fs fs' : node) (p : path) :
  (forall q, is_dir fs' q = is_dir fs q) ->
  (exists es, stat fs p = Some (Dir es)) ->
  exists es', stat fs' p = Some (Dir es').
Proof.
  intros H [es Hs]. unfold stat in *. rewrite (resolve_same_dirs _ _ _ H).
  destruct (resolve fs p) as [q|]; [|discriminate].
  pose proof (H q) as Hq. unfold is_dir in Hq. rewrite Hs in Hq.
  destruct (get fs' q) as [[d|es']|]; try discriminate. now exists es'.
Qed.

End ResolveFacts.

(* ===================================================================== *)
(** * The index reader and the start of a run *)
(* ===================================================================== *)

(** C8, as the script has it: for every index text the parsed list
    holds, in the order of the lines, one entry for each line that
    starts with the prefix of the field, namely the text between the
    prefix and the next space (or the end of the line) stripped of
    white space on both sides; the other lines give nothing, and no
    index raises. *)
Theorem C8_parse_index_fields : forall text : string,
  Index.parse_index text =
  inr (Index.field_parse (Index.readlines (Index.universal_newlines text))).
Proof. intros text. apply IndexFacts.deb_links_field_parse. Qed.

(** C8 as stated fails on a path that holds a space: the script keeps
    the text up to the space, the stated rule keeps all of the path. *)
Lemma C8_path_with_space_is_cut :
  Index.deb_links [Demo.line_with_space] = inr ["pool/main/m/my"] /\
  Index.spec_parse [Demo.line_with_space] = ["pool/main/m/my pkg/my pkg_1.0_all.deb"] /\
  Index.deb_links [Demo.line_with_space] <> inr (Index.spec_parse [Demo.line_with_space]).
Proof. repeat split; try reflexivity. vm_compute. discriminate. Qed.

(** C9, as the script has it: when the text of the index holds no
    record line, the list of links is empty and [main] goes on with it:
    it submits no task, prints no report and returns without an
    error. *)
Theorem C9_no_record_runs_no_task :
  forall (C : Collab) (fs fs1 : FS.node) (text : string),
    index_text fs = (inr text, fs1) ->
    (forall l, In l (Index.readlines (Index.universal_newlines text)) ->
               PyStr.startswith l Index.field_prefix = false) ->
    main fs = (inr ([], []), fs1).
Proof.
  intros C fs fs1 text Htext Hnone.
  unfold main, read_index, bind. rewrite Htext.
  unfold Index.parse_index.
  rewrite IndexFacts.deb_links_field_parse, (IndexFacts.field_parse_no_record _ Hnone).
  reflexivity.
Qed.

Lemma C9_no_record_runs_no_task_witness :
  @main Demo.demo_no_record Demo.fs_empty =
  (inr ([], []), snd (@index_text Demo.demo_no_record Demo.fs_empty)).
Proof.
  apply (C9_no_record_runs_no_task Demo.demo_no_record Demo.fs_empty _
           ("Package: hello" +:+ str1 LF +:+ "Size: 56132" +:+ str1 LF)).
  - vm_compute. reflexivity.
  - vm_compute. intros l [<-|[<-|[]]]; reflexivity.
Defined.

(** C9 as stated fails: on an index without a record the run neither
    raises nor stops, it ends normally with nothing submitted. *)
Lemma C9_empty_index_is_no_error :
  fst (@main Demo.demo_no_record Demo.fs_empty) = inr ([], []).
Proof. vm_compute. reflexivity. Qed.

(* ===================================================================== *)
(** * Running the primitives *)
(* ===================================================================== *)

Module OsFacts.

Import FS FSFacts ResolveFacts.

Lemma file_at_put_same (fs : node) (a : path) (c data : string) :
  is_dir fs a = true -> file_at (put fs (a ++ [c]) (File data)) (a ++ [c]) = Some data.
Proof. intros H. unfold file_at. now rewrite get_put_same. Qed.

Lemma open_wb_clean (fs : node) (a : path) (c : string) :
  Forall (fun c => regular c = true) (a ++ [c]) ->
  is_dir fs a = true ->
  is_dir fs (a ++ [c]) = false ->
  Os.open_wb (a ++ [c]) fs = (inr (a ++ [c]), put fs (a ++ [c]) (File "")).
Proof.
  intros Hreg Ha Hnd. unfold Os.open_wb. rewrite (resolve_clean _ _ _ Hreg Ha).
  unfold is_dir in Hnd. now destruct (get fs (a ++ [c])) as [[d|es]|].
Qed.

Lemma fd_write_after_open (fs : node) (a : path) (c d data : string) :
  is_dir fs a = true ->
  Os.fd_write (a ++ [c]) data (put fs (a ++ [c]) (File d)) =
  (inr tt, put fs (a ++ [c]) (File data)).
Proof.
  intros Ha. unfold Os.fd_write.
  now rewrite (file_at_put_same _ _ _ _ Ha), put_put_same.
Qed.

Lemma open_rb_clean (fs : node) (a : path) (c raw : string) :
  Forall (fun c => regular c = true) (a ++ [c]) ->
  file_at fs (a ++ [c]) = Some raw ->
  Os.open_rb (a ++ [c]) fs = (inr (a ++ [c]), fs).
Proof.
  intros Hreg Hf. unfold Os.open_rb.
  assert (Ha : is_dir fs a = true).
  { unfold file_at in Hf. unfold is_dir. rewrite get_app in Hf.
    destruct (get fs a) as [[d|es]|]; try discriminate; reflexivity. }
  rewrite (resolve_clean _ _ _ Hreg Ha).
  unfold file_at in Hf. now destruct (get fs (a ++ [c])) as [[d|es]|].
Qed.

Lemma file_parent_is_dir (fs : node) (a : path) (c raw : string) :
  file_at fs (a ++ [c]) = Some raw -> is_dir fs a = true.
Proof.
  unfold file_at, is_dir. rewrite get_app.
  destruct (get fs a) as [[d|es]|]; try discriminate; reflexivity.
Qed.

End OsFacts.

(* ===================================================================== *)
(** * The download *)
(* ===================================================================== *)

(** C10: a URL that ends in a slash and a segment is fetched into the
    file of that segment in the working directory, the root of the
    tree, whatever the rest of the URL and whatever folder the task
    works in, and the segment is returned; so every URL with the same
    last segment is written to the same path.  The body has arrived, the
    segment is the name of an entry and names no directory. *)
Theorem C10_download_file_local_path :
  forall (C : Collab) (pre seg data : string) (fs : FS.node),
    PyStr.has_char SLASH seg = false ->
    FS.regular seg = true ->
    FS.is_dir fs [] = true ->
    FS.is_dir fs [seg] = false ->
    http_get (pre +:+ String SLASH seg) = Body data ->
    (forall pre', local_filename_of (pre' +:+ String SLASH seg) = seg) /\
    download_file (pre +:+ String SLASH seg) fs =
      (inr seg, FS.put fs [seg] (FS.File data)) /\
    FS.file_at (FS.put fs [seg] (FS.File data)) [seg] = Some data.
Proof.
  intros C pre seg data fs Hslash Hreg Hroot Hnd Hget.
  assert (Hname : forall pre', local_filename_of (pre' +:+ String SLASH seg) = seg).
  { intros pre'. now apply PyStrFacts.last_split_app. }
  repeat split; [exact Hname | | exact (OsFacts.file_at_put_same fs [] seg data Hroot)].
  unfold download_file. rewrite Hget, Hname, (ResolveFacts.to_path_name _ Hslash).
  unfold bind.
  pose proof (OsFacts.open_wb_clean fs [] seg) as Hopen.
  pose proof (OsFacts.fd_write_after_open fs [] seg "" data Hroot) as Hwrite.
  simpl app in Hopen, Hwrite.
  rewrite Hopen, Hwrite; auto.
Qed.

Lemma C10_download_file_local_path_witness :
  (forall pre', local_filename_of (pre' +:+ String SLASH "hello_2.10-3_amd64.deb")
                = "hello_2.10-3_amd64.deb") /\
  @download_file Demo.demo Demo.url_hello Demo.fs_started =
    (inr "hello_2.10-3_amd64.deb",
     FS.put Demo.fs_started ["hello_2.10-3_amd64.deb"] (FS.File Demo.deb_hello)) /\
  FS.file_at (FS.put Demo.fs_started ["hello_2.10-3_amd64.deb"] (FS.File Demo.deb_hello))
    ["hello_2.10-3_amd64.deb"] = Some Demo.deb_hello.
Proof.
  apply (C10_download_file_local_path Demo.demo
           (mirror +:+ "pool/main/h/hello") "hello_2.10-3_amd64.deb"
           Demo.deb_hello Demo.fs_started); reflexivity.
Defined.

(* ===================================================================== *)
(** * The pattern of the manual directories *)
(* ===================================================================== *)

Lemma man_page_regex_needs_backslash (s : string) :
  PyStr.has_char BACKSLASH s = false -> re_search man_page_regex s = false.
Proof.
  assert (Hat : forall t, PyStr.has_char BACKSLASH t = false ->
                          re_match_at man_page_regex t = false).
  { intros t Ht. unfold man_page_regex. cbn [re_match_at].
    repeat match goal with
    | |- context [PyStr.startswith t ?l] =>
        let E := fresh "E" in
        destruct (PyStr.startswith t l) eqn:E;
        [ apply (PyStrFacts.startswith_has_char BACKSLASH) in E;
          [congruence | reflexivity] | ]
    end.
    reflexivity. }
  induction s as [|c s IH]; intros H; cbn [re_search].
  - now rewrite (Hat "" H).
  - rewrite (Hat _ H). simpl in H. apply orb_false_iff in H as [_ H].
    now rewrite IH.
Qed.

(** C4 on POSIX paths: a directory whose path holds no backslash is
    never taken for a manual directory, whatever manual location it
    is; every alternative of the pattern asks for a backslash, and
    [os.walk] joins the names with the slash. *)
Theorem C4_posix_paths_never_match :
  forall root : path,
    PyStr.has_char BACKSLASH (path_str root) = false -> is_man_dir root = false.
Proof. intros root. apply man_page_regex_needs_backslash. Qed.

Lemma C4_posix_paths_never_match_witness :
  is_man_dir ["man_data"; "hello_2.10-3_amd64"; "usr"; "share"; "man"; "man1"] = false.
Proof.
  apply (C4_posix_paths_never_match
           ["man_data"; "hello_2.10-3_amd64"; "usr"; "share"; "man"; "man1"]).
  reflexivity.
Defined.

(** The task that unpacks a package with a page under
    [usr/share/man/man1] ends normally with an empty corpus: the page
    is deleted with the scratch tree. *)
Lemma posix_man_page_is_lost :
  @download_and_process_package Demo.demo "pool/main/h/hello/hello_2.10-3_amd64.deb"
     UNPACKING_DIR MAN_PAGE_DIR Demo.fs_started
  = (inr tt, FS.Dir [("man_data", FS.Dir [("man_pages", FS.Dir [])])]).
Proof. vm_compute. reflexivity. Qed.

(** A directory whose name holds the backslashes is matched. *)
Lemma backslash_name_matches :
  is_man_dir ["man_data"; "pkg"; Demo.backslash_man] = true.
Proof. vm_compute. reflexivity. Qed.

(* ===================================================================== *)
(** * Unpacking: an archive without a payload *)
(* ===================================================================== *)

Lemma for_each_skip {A} (l : list A) (body : A -> M unit) (fs : FS.node) :
  (forall x, In x l -> body x = ret tt) -> for_each l body fs = (inr tt, fs).
Proof.
  induction l as [|x l IH]; intros H; simpl; [reflexivity|].
  unfold bind. rewrite (H x (or_introl eq_refl)). simpl.
  apply IH. intros y Hy. apply H. now right.
Qed.

Lemma open_rb_read (fs : FS.node) (p q : path) (raw : string) :
  FS.resolve fs p = Some q ->
  FS.file_at fs q = Some raw ->
  (f <- Os.open_rb p ;; Os.fd_read f) fs = (inr raw, fs).
Proof.
  intros Hr Hf. unfold bind, Os.open_rb, Os.fd_read. rewrite Hr.
  pose proof Hf as Hg. unfold FS.file_at in Hg.
  destruct (FS.get fs q) as [[d|es]|]; try discriminate.
  now rewrite Hf.
Qed.

(* ===================================================================== *)
(** * One package: failures *)
(* ===================================================================== *)




(* ===================================================================== *)
(** * The harvest: one candidate *)
(* ===================================================================== *)

Module HarvestFacts.

Import FS FSFacts ResolveFacts OsFacts.

Lemma bind_inr {A B} (c : M A) (k : A -> M B) (fs : node) (a : A) (fs' : node) :
  c fs = (inr a, fs') -> bind c k fs = k a fs'.
Proof. intros H. unfold bind. now rewrite H. Qed.

Lemma bind_inl {A B} (c : M A) (k : A -> M B) (fs : node) (e : exn) (fs' : node) :
  c fs = (inl e, fs') -> bind c k fs = (inl e, fs').
Proof. intros H. unfold bind. now rewrite H. Qed.

Lemma resolve_from_app (fs : node) (p q cur : path) :
  resolve_from fs cur (p ++ q) =
  match resolve_from fs cur p with
  | Some c => resolve_from fs c q
  | None => None
  end.
Proof.
  revert cur; induction p as [|c p IH]; intros cur; simpl; [reflexivity|].
  destruct (is_dir fs cur); [apply IH | reflexivity].
Qed.

Lemma resolve_from_clean_dir (fs : node) (a : path) :
  Forall (fun c => regular c = true) a -> is_dir fs a = true ->
  resolve_from fs [] a = Some a.
Proof.
  intros Hreg Hd. apply (resolve_from_clean fs a []); auto.
  intros k _. simpl. apply (is_dir_app fs (firstn k a) (skipn k a)).
  now rewrite firstn_skipn.
Qed.

(** An entry of a directory given by entry names: one more step. *)
Lemma resolve_child (fs : node) (a : path) (c : string) :
  Forall (fun c => regular c = true) a -> a <> [] -> is_dir fs a = true ->
  resolve fs (a ++ [c]) = Some (step_component a c).
Proof.
  intros Hreg Hne Hd. unfold resolve.
  assert (E : is_empty_path (a ++ [c]) = false).
  { destruct a as [|x [|y a]]; [congruence|reflexivity|reflexivity]. }
  rewrite E, resolve_from_app, (resolve_from_clean_dir _ _ Hreg Hd). simpl.
  now rewrite Hd.
Qed.

(** A destination that does not exist is a new entry name. *)
Lemma missing_child_regular (fs : node) (a : path) (c : string) :
  Forall (fun c => regular c = true) a -> a <> [] -> is_dir fs a = true ->
  path_exists fs (a ++ [c]) = false ->
  regular c = true /\ get fs (a ++ [c]) = None.
Proof.
  intros Hreg Hne Hd Hex. unfold path_exists, stat in Hex.
  rewrite (resolve_child _ _ _ Hreg Hne Hd) in Hex.
  unfold step_component in Hex. unfold regular.
  pose proof Hd as Hd'. unfold is_dir in Hd'.
  pose proof (is_dir_removelast _ _ Hd) as Hp. unfold is_dir in Hp.
  destruct (String.eqb c "").
  { destruct (get fs a); discriminate. }
  destruct (String.eqb c ".").
  { destruct (get fs a); discriminate. }
  destruct (String.eqb c "..").
  { destruct (get fs (removelast a)); discriminate. }
  split; [reflexivity|]. now destruct (get fs (a ++ [c])).
Qed.

Lemma name_of_candidate (file : string) :
  is_candidate file = true -> PyStr.drop_last 3 file +:+ ".gz" = file.
Proof.
  intros H. destruct (PyStrFacts.endswith_inv _ _ H) as [q ->].
  change 3 with (String.length ".gz").
  now rewrite (PyStrFacts.drop_last_app q ".gz").
Qed.

Lemma name_no_slash (file : string) :
  PyStr.has_char SLASH file = false ->
  PyStr.has_char SLASH (PyStr.drop_last 3 file) = false.
Proof. apply PyStrFacts.has_char_take. Qed.

Lemma name_differs (file : string) :
  is_candidate file = true -> PyStr.drop_last 3 file <> file.
Proof.
  intros H E. apply name_of_candidate in H. rewrite E in H.
  apply (f_equal String.length) in H. rewrite PyStrFacts.length_app in H.
  simpl in H. lia.
Qed.

Section Candidate.

Context {C : Collab}.
Variables (root man_dest_folder : path) (file : string).

Local Abbreviation src := (root ++ [file]).
Local Abbreviation dst := (man_dest_folder ++ [PyStr.drop_last 3 file]).

Hypothesis file_name : PyStr.has_char SLASH file = false.
Hypothesis src_names : Forall (fun c => regular c = true) src.
Hypothesis dest_names : Forall (fun c => regular c = true) man_dest_folder.

Lemma candidate_paths :
  os_path_join root file = src /\
  os_path_join man_dest_folder (PyStr.drop_last 3 file) = dst.
Proof.
  split; apply os_path_join_name; auto using name_no_slash.
  now apply Forall_app in src_names as [H _].
Qed.

(** The destination is there: nothing happens. *)
Lemma candidate_skips (fs : node) :
  path_exists fs dst = true ->
  process_candidate root man_dest_folder file fs = (inr tt, fs).
Proof.
  intros Hex. unfold process_candidate.
  destruct candidate_paths as [-> ->].
  unfold bind, Os.path_exists. now rewrite Hex.
Qed.

Hypothesis candidate : is_candidate file = true.
Hypothesis dest_not_empty : man_dest_folder <> [].

Lemma src_not_dst : src <> dst.
Proof.
  intros E. apply app_inj_tail in E as [_ E].
  symmetry in E. now apply name_differs in E.
Qed.

Variables (fs : node) (raw data : string).

Hypothesis dest_dir : is_dir fs man_dest_folder = true.
Hypothesis src_file : file_at fs src = Some raw.
Hypothesis decodes : gunzip raw = GzOk data.
Hypothesis dst_missing : path_exists fs dst = false.

Local Abbreviation fs_written := (put fs dst (File data)).
Local Abbreviation fs_moved := (del fs_written src).

Lemma dst_names : Forall (fun c => regular c = true) dst.
Proof.
  apply Forall_app. split; [assumption|]. constructor; [|constructor].
  now destruct (missing_child_regular fs man_dest_folder _ dest_names dest_not_empty
                  dest_dir dst_missing).
Qed.

Lemma dst_not_dir : is_dir fs dst = false.
Proof.
  destruct (missing_child_regular fs man_dest_folder _ dest_names dest_not_empty
              dest_dir dst_missing) as [_ H].
  unfold is_dir. now rewrite H.
Qed.

Lemma written_src : file_at fs_written src = Some raw.
Proof. rewrite put_file_frame; auto using dst_not_dir, src_not_dst.
Qed.

Lemma written_dirs (q : path) : is_dir fs_written q = is_dir fs q.
Proof. apply put_file_dirs, dst_not_dir. Qed.

Lemma moved_dirs (q : path) : is_dir fs_moved q = is_dir fs q.
Proof. rewrite (del_file_dirs _ _ _ _ written_src). apply written_dirs.
Qed.

(** The destination is missing: the candidate is decoded into it and
    unlinked. *)
Lemma candidate_moves :
  process_candidate root man_dest_folder file fs = (inr tt, fs_moved).
Proof.
  assert (Hcopy : copy_gunzip src dst (put fs dst (File "")) = (inr tt, fs_written)).
  { unfold copy_gunzip.
    rewrite (bind_inr _ _ _ raw (put fs dst (File ""))).
    - rewrite decodes. apply fd_write_after_open, dest_dir.
    - unfold Os.fd_read.
      rewrite (put_file_frame dst fs "" src dst_not_dir src_not_dst).
      now rewrite src_file. }
  assert (Hremove : Os.remove src fs_written = (inr tt, fs_moved)).
  { unfold Os.remove.
    rewrite (resolve_same_dirs fs fs_written src written_dirs).
    rewrite (resolve_clean fs root file src_names (file_parent_is_dir _ _ _ _ src_file)).
    pose proof written_src as Hw. unfold file_at in Hw.
    destruct (get fs_written src) as [[d|es]|]; try discriminate. reflexivity. }
  unfold process_candidate. destruct candidate_paths as [-> ->].
  rewrite (bind_inr _ _ fs false fs) by (unfold Os.path_exists; now rewrite dst_missing).
  cbn [negb].
  rewrite (bind_inr _ _ fs src fs (open_rb_clean fs root file raw src_names src_file)).
  rewrite (bind_inr _ _ fs dst (put fs dst (File ""))
             (open_wb_clean fs man_dest_folder _ dst_names dest_dir dst_not_dir)).
  now rewrite (bind_inr _ _ _ tt fs_written Hcopy).
Qed.

Lemma moved_dst : file_at fs_moved dst = Some data.
Proof. rewrite (del_file_frame _ _ _ _ written_src).
  - apply file_at_put_same, dest_dir.
  - intros E. now apply src_not_dst.
Qed.

Lemma moved_src_gone : path_exists fs_moved src = false.
Proof.
  unfold path_exists, stat.
  rewrite (resolve_same_dirs fs fs_moved src moved_dirs).
  rewrite (resolve_clean fs root file src_names (file_parent_is_dir _ _ _ _ src_file)). rewrite get_del_same; [reflexivity|]. now destruct root.
Qed.

Lemma moved_frame (q : path) :
  q <> dst -> q <> src -> file_at fs_moved q = file_at fs q.
Proof.
  intros Hd Hs.
  rewrite (del_file_frame _ _ _ _ written_src); auto.
  apply put_file_frame; auto using dst_not_dir.
Qed.


End Candidate.

End HarvestFacts.

(** C1: for a candidate of the harvester, a file of a walked directory
    whose name ends in the gzip suffix, the name of the destination is
    the name of the candidate without the suffix; when the destination
    exists the candidate is skipped, nothing is written and nothing is
    raised; otherwise the candidate is decoded into the destination and
    unlinked, and no other file changes.  The candidate is a file whose
    gzip stream decodes, and the corpus folder is a directory. *)
Theorem C1_candidate_placement :
  forall (C : Collab) (root man_dest_folder : path) (file raw data : string)
         (fs : FS.node),
    is_candidate file = true ->
    PyStr.has_char SLASH file = false ->
    Forall (fun c => FS.regular c = true) (root ++ [file]) ->
    Forall (fun c => FS.regular c = true) man_dest_folder ->
    man_dest_folder <> [] ->
    FS.is_dir fs man_dest_folder = true ->
    FS.file_at fs (root ++ [file]) = Some raw ->
    gunzip raw = GzOk data ->
    PyStr.drop_last 3 file +:+ ".gz" = file /\
    (FS.path_exists fs (man_dest_folder ++ [PyStr.drop_last 3 file]) = true ->
     process_candidate root man_dest_folder file fs = (inr tt, fs)) /\
    (FS.path_exists fs (man_dest_folder ++ [PyStr.drop_last 3 file]) = false ->
     exists fs',
       process_candidate root man_dest_folder file fs = (inr tt, fs') /\
       FS.file_at fs' (man_dest_folder ++ [PyStr.drop_last 3 file]) = Some data /\
       FS.path_exists fs' (root ++ [file]) = false /\
       forall q, q <> man_dest_folder ++ [PyStr.drop_last 3 file] ->
                 q <> root ++ [file] ->
                 FS.file_at fs' q = FS.file_at fs q).
Proof.
  intros C root dest file raw data fs Hcand Hname Hsrc Hdest Hne Hdir Hfile Hdec.
  split; [now apply HarvestFacts.name_of_candidate|]. split.
  - now apply HarvestFacts.candidate_skips.
  - intros Hmiss. eexists. split; [|split; [|split]].
    + eapply HarvestFacts.candidate_moves; eassumption.
    + eapply HarvestFacts.moved_dst; eassumption.
    + eapply HarvestFacts.moved_src_gone; eassumption.
    + intros q Hq1 Hq2. eapply HarvestFacts.moved_frame; eassumption.
Qed.

Lemma C1_candidate_placement_witness :
  exists fs',
    @process_candidate Demo.demo ["man_data"; "a"] MAN_PAGE_DIR "foo.1.gz" Demo.fs_two
      = (inr tt, fs') /\
    FS.file_at fs' ["man_data"; "man_pages"; "foo.1"] = Some "page of a" /\
    FS.path_exists fs' ["man_data"; "a"; "foo.1.gz"] = false.
Proof.
  pose proof (C1_candidate_placement Demo.demo ["man_data"; "a"] MAN_PAGE_DIR "foo.1.gz"
                "gz:page of a" "page of a" Demo.fs_two
                eq_refl eq_refl ltac:(repeat constructor) ltac:(repeat constructor)
                ltac:(discriminate) eq_refl eq_refl eq_refl)
    as (_ & _ & Hmove).
  destruct (Hmove eq_refl) as (fs' & Hrun & Hdst & Hsrc & _).
  exists fs'. repeat split; assumption.
Defined.

(* ===================================================================== *)
(** * The harvest: the loop and the removal of the scratch tree *)
(* ===================================================================== *)

Module LoopFacts.

Import FS FSFacts ResolveFacts.

Lemma keeps_ret {A} (a : A) : keeps_dirs (ret a).
Proof. intros fs r fs' [= <- <-] q. reflexivity. Qed.

Lemma keeps_raise {A} (e : exn) : keeps_dirs (@raise A e).
Proof. intros fs r fs' [= <- <-] q. reflexivity. Qed.

Lemma keeps_bind {A B} (c : M A) (k : A -> M B) :
  keeps_dirs c -> (forall a, keeps_dirs (k a)) -> keeps_dirs (bind c k).
Proof.
  intros Hc Hk fs r fs' H q. unfold bind in H.
  destruct (c fs) as [[e|a] fs1] eqn:E.
  - injection H as <- <-. exact (Hc _ _ _ E q).
  - rewrite (Hk a _ _ _ H q). exact (Hc _ _ _ E q).
Qed.

Lemma keeps_when (b : bool) (c : M unit) : keeps_dirs c -> keeps_dirs (when b c).
Proof. destruct b; [trivial | intros _; apply keeps_ret]. Qed.

Lemma keeps_for_each {A} (l : list A) (body : A -> M unit) :
  (forall x, keeps_dirs (body x)) -> keeps_dirs (for_each l body).
Proof.
  intros H. induction l as [|x l IH]; simpl; [apply keeps_ret|].
  apply keeps_bind; auto.
Qed.

Lemma keeps_path_exists (p : path) : keeps_dirs (Os.path_exists p).
Proof. intros fs r fs' [= <- <-] q. reflexivity. Qed.

Lemma keeps_walk (p : path) : keeps_dirs (Os.walk p).
Proof.
  intros fs r fs' H q. unfold Os.walk in H.
  destruct (stat fs p) as [[d|es]|]; now injection H as <- <-.
Qed.

Lemma keeps_open_rb (p : path) : keeps_dirs (Os.open_rb p).
Proof.
  intros fs r fs' H q. unfold Os.open_rb in H.
  destruct (resolve fs p) as [q'|]; [|now injection H as <- <-].
  destruct (get fs q') as [[d|es]|]; now injection H as <- <-.
Qed.

Lemma keeps_fd_read (f : path) : keeps_dirs (Os.fd_read f).
Proof.
  intros fs r fs' H q. unfold Os.fd_read in H.
  destruct (file_at fs f); now injection H as <- <-.
Qed.

Lemma keeps_open_wb (p : path) : keeps_dirs (Os.open_wb p).
Proof.
  intros fs r fs' H q. unfold Os.open_wb in H.
  destruct (resolve fs p) as [q'|]; [|now injection H as <- <-].
  destruct (get fs q') as [[d|es]|] eqn:E; injection H as <- <-;
    try reflexivity; apply put_file_dirs; unfold is_dir; now rewrite E.
Qed.

Lemma keeps_fd_write (f : path) (data : string) : keeps_dirs (Os.fd_write f data).
Proof.
  intros fs r fs' H q. unfold Os.fd_write in H.
  destruct (file_at fs f) as [d|] eqn:E; injection H as <- <-; [|reflexivity].
  apply put_file_dirs. now apply is_dir_not_file in E.
Qed.

Lemma keeps_remove (p : path) : keeps_dirs (Os.remove p).
Proof.
  intros fs r fs' H q. unfold Os.remove in H.
  destruct (resolve fs p) as [q'|]; [|now injection H as <- <-].
  destruct (get fs q') as [[d|es]|] eqn:E; injection H as <- <-;
    try reflexivity.
  apply (del_file_dirs q' fs d). unfold file_at. now rewrite E.
Qed.

Section Loop.

Context {C : Collab}.

Lemma keeps_copy_gunzip (f_in f_out : path) : keeps_dirs (copy_gunzip f_in f_out).
Proof.
  unfold copy_gunzip. apply keeps_bind; [apply keeps_fd_read|].
  intros raw. destruct (gunzip raw); [apply keeps_fd_write|].
  apply keeps_bind; [apply keeps_fd_write | intros; apply keeps_raise].
Qed.

Lemma keeps_process_candidate (root dest : path) (file : string) :
  keeps_dirs (process_candidate root dest file).
Proof.
  unfold process_candidate. apply keeps_bind; [apply keeps_path_exists|].
  intros e. destruct (negb e); [|apply keeps_ret].
  apply keeps_bind; [apply keeps_open_rb|]. intros f_in.
  apply keeps_bind; [apply keeps_open_wb|]. intros f_out.
  apply keeps_bind; [apply keeps_copy_gunzip|]. intros _.
  apply keeps_remove.
Qed.

Lemma keeps_process_dir (dest : path) (w : path * list string * list string) :
  keeps_dirs (process_dir dest w).
Proof.
  destruct w as [[root dirs] files]. unfold process_dir.
  apply keeps_when, keeps_for_each. intros file.
  apply keeps_when, keeps_process_candidate.
Qed.

(** The loop of the harvester makes no directory and removes none. *)
Lemma keeps_harvest_loop (extract_to dest : path) :
  keeps_dirs (harvest_loop extract_to dest).
Proof.
  unfold harvest_loop. apply keeps_bind; [apply keeps_walk|].
  intros w. apply keeps_for_each, keeps_process_dir.
Qed.

(** A loop that raises has walked a directory, and that directory is
    still there. *)
Lemma raising_loop_keeps_scratch (extract_to dest : path) (fs fs' : node) (e : exn) :
  harvest_loop extract_to dest fs = (inl e, fs') -> path_exists fs' extract_to = true.
Proof.
  intros H. pose proof (keeps_harvest_loop _ _ _ _ _ H) as Hdirs.
  assert (Hdir : exists es, stat fs extract_to = Some (Dir es)).
  { unfold harvest_loop, bind, Os.walk in H.
    destruct (stat fs extract_to) as [[d|es]|]; try discriminate. now exists es. }
  destruct (stat_dir_same_dirs fs fs' extract_to Hdirs Hdir) as [es' Hs].
  unfold path_exists. now rewrite Hs.
Qed.

End Loop.

(** After [shutil.rmtree] has returned, its path names nothing. *)
Lemma rmtree_removes (p : path) (fs fs' : node) :
  Os.rmtree p fs = (inr tt, fs') -> path_exists fs' p = false.
Proof.
  unfold Os.rmtree. intros H.
  destruct (resolve fs p) as [q|] eqn:Hr; [|discriminate].
  assert (Hq : q <> [] /\ fs' = del fs q).
  { destruct (get fs q) as [[d|es]|]; try discriminate.
    destruct q; [discriminate|]. injection H as <-. split; [discriminate | reflexivity]. }
  destruct Hq as [Hne ->].
  unfold path_exists, stat.
  destruct (resolve (del fs q) p) as [q'|] eqn:Hr'; [|reflexivity].
  rewrite (resolve_norm _ _ _ Hr'), <- (resolve_norm _ _ _ Hr).
  now rewrite get_del_same.
Qed.

End LoopFacts.

(** C2, as the script has it: the scratch tree is removed after the
    loop, when the loop has ended without an exception; the harvester
    then returns what [shutil.rmtree] returns, and after a return
    without an exception the path of the scratch tree names nothing.
    When a candidate raises in the loop, the exception leaves the
    harvester at once with the file system as the loop left it: the
    removal is not reached, and the loop itself removes no directory. *)
Theorem C2_scratch_removed_after_the_loop :
  forall (C : Collab) (extract_to man_dest_folder : path) (fs fs0 fs1 : FS.node)
         (r : result unit),
    Os.ensure_dir man_dest_folder fs = (inr tt, fs0) ->
    harvest_loop extract_to man_dest_folder fs0 = (r, fs1) ->
    (forall q, FS.is_dir fs1 q = FS.is_dir fs0 q) /\
    (forall e, r = inl e ->
       move_and_clean_man_pages extract_to man_dest_folder fs = (inl e, fs1) /\
       FS.path_exists fs1 extract_to = true) /\
    (r = inr tt ->
       move_and_clean_man_pages extract_to man_dest_folder fs = Os.rmtree extract_to fs1) /\
    (forall fs', move_and_clean_man_pages extract_to man_dest_folder fs = (inr tt, fs') ->
       FS.path_exists fs' extract_to = false).
Proof.
  intros C extract_to dest fs fs0 fs1 r Hdir Hloop.
  assert (Hrun : move_and_clean_man_pages extract_to dest fs =
                 match r with
                 | inl e => (inl e, fs1)
                 | inr _ => Os.rmtree extract_to fs1
                 end).
  { unfold move_and_clean_man_pages.
    rewrite (HarvestFacts.bind_inr _ _ _ _ _ Hdir).
    unfold bind. rewrite Hloop. now destruct r. }
  split; [exact (LoopFacts.keeps_harvest_loop _ _ _ _ _ Hloop)|].
  split.
  { intros e ->. split; [exact Hrun|].
    exact (LoopFacts.raising_loop_keeps_scratch _ _ _ _ _ Hloop). }
  split; [now intros ->|].
  intros fs' H. rewrite Hrun in H.
  destruct r as [e|[]]; [discriminate|].
  exact (LoopFacts.rmtree_removes _ _ _ H).
Qed.

Lemma C2_scratch_removed_after_the_loop_witness :
  @move_and_clean_man_pages Demo.demo ["man_data"; "pkg"] MAN_PAGE_DIR Demo.fs_page
  = Os.rmtree ["man_data"; "pkg"]
      (snd (@harvest_loop Demo.demo ["man_data"; "pkg"] MAN_PAGE_DIR Demo.fs_page)).
Proof.
  apply (C2_scratch_removed_after_the_loop Demo.demo ["man_data"; "pkg"] MAN_PAGE_DIR
           Demo.fs_page Demo.fs_page _ (inr tt)); vm_compute; reflexivity.
Defined.

(** C2 as stated fails: a candidate whose gzip stream is damaged raises
    in the loop, and the harvester ends with that exception, the scratch
    tree in place and an empty file left in the corpus. *)
Lemma C2_damaged_candidate_leaves_scratch :
  @move_and_clean_man_pages Demo.demo ["man_data"; "pkg"] MAN_PAGE_DIR Demo.fs_damaged
  = (inl BadGzipFile,
     FS.Dir [("man_data",
        FS.Dir [("man_pages", FS.Dir [("bad.1", FS.File "")]);
                ("pkg", FS.Dir [(Demo.backslash_man,
                   FS.Dir [("bad.1.gz", FS.File "no gzip stream")])])])]) /\
  FS.path_exists
    (snd (@move_and_clean_man_pages Demo.demo ["man_data"; "pkg"] MAN_PAGE_DIR
            Demo.fs_damaged))
    ["man_data"; "pkg"] = true.
Proof. split; vm_compute; reflexivity. Qed.

(* ===================================================================== *)
(** * Two workers on one destination *)
(* ===================================================================== *)

Module RaceFacts.

Import FS Race.

Section Alone.

Context {C : Collab}.
Variable man_dest_folder : path.

Lemma steps_finished (n : nat) (w : worker) (fs : node) :
  finished w = true -> steps man_dest_folder n w fs = (w, fs).
Proof.
  intros H. unfold finished in H.
  induction n as [|n IH]; simpl; [reflexivity|].
  unfold step. destruct (w_pc w); try discriminate; exact IH.
Qed.



(** In every outcome a worker on its own ends where the loop body ends:
    with the same file system, crashed with the exception the body
    raises, or else skipped or moved as the check tells. *)
Lemma steps_alone (w : worker) (fs : node) :
  w_pc w = AtExists ->
  snd (steps man_dest_folder 5 w fs)
    = snd (process_candidate (w_root w) man_dest_folder (w_file w) fs) /\
  w_pc (fst (steps man_dest_folder 5 w fs))
    = match fst (process_candidate (w_root w) man_dest_folder (w_file w) fs) with
      | inl e => Crashed e
      | inr _ => if path_exists fs (dst_of man_dest_folder w) then Skipped else Moved
      end.
Proof.
  intros Hpc. unfold process_candidate, bind, dst_of.
  unfold Os.path_exists at 1 2.
  change (steps man_dest_folder 5 w fs)
    with (let '(w', fs') := step man_dest_folder w fs in steps man_dest_folder 4 w' fs').
  unfold step at 1 2. rewrite Hpc. unfold advance at 1 2, Os.path_exists.
  destruct (path_exists fs _); cbn [negb].
  { rewrite (steps_finished 4) by reflexivity. now split. }
  change (steps man_dest_folder 4 (at_pc w AtOpenIn) fs)
    with (let '(w', fs') := step man_dest_folder (at_pc w AtOpenIn) fs in
          steps man_dest_folder 3 w' fs').
  unfold step at 1 2. cbn [w_pc at_pc w_root w_file]. unfold advance at 1 2.
  destruct (Os.open_rb _ fs) as [[e|f_in] fs1].
  { rewrite (steps_finished 3) by reflexivity. now split. }
  change (steps man_dest_folder 3 (at_pc (at_pc w AtOpenIn) (AtOpenOut f_in)) fs1)
    with (let '(w', fs') :=
            step man_dest_folder (at_pc (at_pc w AtOpenIn) (AtOpenOut f_in)) fs1 in
          steps man_dest_folder 2 w' fs').
  unfold step at 1 2. cbn [w_pc at_pc w_root w_file]. unfold advance at 1 2.
  destruct (Os.open_wb _ fs1) as [[e|f_out] fs2].
  { rewrite (steps_finished 2) by reflexivity. now split. }
  cbn [steps]. unfold step. cbn [w_pc at_pc w_root w_file]. unfold advance.
  destruct (copy_gunzip f_in f_out fs2) as [[e|[]] fs3]; [now split|].
  cbn [w_pc at_pc w_root w_file].
  destruct (Os.remove _ fs3) as [[e|[]] fs4]; now split.
Qed.




End Alone.

End RaceFacts.




(* ===================================================================== *)
(** * Unpacking: the payload *)
(* ===================================================================== *)

Module UnpackFacts.

Import FS FSFacts ResolveFacts OsFacts HarvestFacts.

Lemma mkdirs_from_grows (comps cur : path) : only_makes_dirs (Os.mkdirs_from cur comps).
Proof.
  revert cur; induction comps as [|c rest IH]; intros cur fs r fs' H.
  - injection H as <- <-. now split.
  - cbn [Os.mkdirs_from] in H.
    destruct (is_dir fs cur); [|injection H as <- <-; now split].
    destruct (get fs (step_component cur c)) as [[d|es]|] eqn:E.
    + injection H as <- <-. now split.
    + exact (IH _ _ _ _ H).
    + destruct (IH _ _ _ _ H) as [Hf Hd]. split.
      * intros q. rewrite Hf. now apply put_newdir_frame.
      * intros q Hq. apply Hd. now apply put_newdir_dirs.
Qed.

(** After [mkdirs_from] has returned, the path is a directory. *)
Lemma mkdirs_from_post (comps cur : path) (fs fs' : node) :
  is_dir fs cur = true ->
  Os.mkdirs_from cur comps fs = (inr tt, fs') ->
  is_dir fs' (fold_left step_component comps cur) = true.
Proof.
  revert cur fs; induction comps as [|c rest IH]; intros cur fs Hcur H.
  - now injection H as <-.
  - cbn [Os.mkdirs_from] in H. rewrite Hcur in H. cbn [fold_left].
    destruct (get fs (step_component cur c)) as [[d|es]|] eqn:E; [discriminate| |].
    + apply (IH _ fs); [|exact H]. unfold is_dir. now rewrite E.
    + apply (IH _ (put fs (step_component cur c) (Dir []))); [|exact H].
      assert (Hstep : step_component cur c = cur ++ [c]).
      { unfold step_component in *.
        pose proof Hcur as Hc. unfold is_dir in Hc.
        pose proof (is_dir_removelast _ _ Hcur) as Hp. unfold is_dir in Hp.
        destruct (String.eqb c ""); [rewrite E in Hc; discriminate|].
        destruct (String.eqb c "."); [rewrite E in Hc; discriminate|].
        destruct (String.eqb c ".."); [rewrite E in Hp; discriminate|].
        reflexivity. }
      rewrite Hstep. unfold is_dir. now rewrite get_put_same.
Qed.

Lemma mkdirs_p_grows (p : path) : only_makes_dirs (Os.mkdirs_p p).
Proof.
  unfold Os.mkdirs_p. destruct (is_empty_path p).
  - intros fs r fs' [= <- <-]. now split.
  - apply mkdirs_from_grows.
Qed.

Lemma mkdirs_p_post (p : path) (fs fs' : node) :
  Os.mkdirs_p p fs = (inr tt, fs') -> is_dir fs' (norm p) = true.
Proof.
  unfold Os.mkdirs_p. destruct (is_empty_path p) eqn:E; [discriminate|].
  intros H. apply (mkdirs_from_post p [] fs); [|exact H].
  destruct p as [|c p]; [discriminate|].
  cbn [Os.mkdirs_from] in H. destruct (is_dir fs []); [reflexivity | discriminate].
Qed.

(** After [mkdirs_from] has returned, the path resolves. *)
Lemma mkdirs_from_resolves (comps cur : path) (fs fs' : node) :
  is_dir fs cur = true ->
  Os.mkdirs_from cur comps fs = (inr tt, fs') ->
  resolve_from fs' cur comps = Some (fold_left step_component comps cur).
Proof.
  revert cur fs; induction comps as [|c rest IH]; intros cur fs Hcur H.
  - reflexivity.
  - cbn [resolve_from fold_left].
    rewrite (proj2 (mkdirs_from_grows _ _ _ _ _ H) _ Hcur).
    cbn [Os.mkdirs_from] in H. rewrite Hcur in H.
    destruct (get fs (step_component cur c)) as [[d|es]|] eqn:E; [discriminate| |].
    + apply (IH _ fs); [|exact H]. unfold is_dir. now rewrite E.
    + apply (IH _ (put fs (step_component cur c) (Dir []))); [|exact H].
      assert (Hstep : step_component cur c = cur ++ [c]).
      { unfold step_component in *.
        pose proof Hcur as Hc. unfold is_dir in Hc.
        pose proof (is_dir_removelast _ _ Hcur) as Hp. unfold is_dir in Hp.
        destruct (String.eqb c ""); [rewrite E in Hc; discriminate|].
        destruct (String.eqb c "."); [rewrite E in Hc; discriminate|].
        destruct (String.eqb c ".."); [rewrite E in Hp; discriminate|].
        reflexivity. }
      rewrite Hstep. unfold is_dir. now rewrite get_put_same.
Qed.

Lemma mkdirs_p_exists (p : path) (fs fs' : node) :
  Os.mkdirs_p p fs = (inr tt, fs') -> path_exists fs' p = true.
Proof.
  intros H. pose proof (mkdirs_p_post _ _ _ H) as Hd.
  unfold Os.mkdirs_p in H. unfold path_exists, stat, resolve.
  destruct (is_empty_path p) eqn:E; [discriminate|].
  assert (Hroot : is_dir fs [] = true).
  { destruct p as [|c p]; [discriminate|].
    cbn [Os.mkdirs_from] in H. destruct (is_dir fs []); [reflexivity | discriminate]. }
  rewrite (mkdirs_from_resolves p [] fs fs' Hroot H).
  unfold norm, is_dir in Hd. now destruct (get fs' (fold_left step_component p [])).
Qed.

(** After the idiom has returned, the directory is there. *)
Lemma ensure_dir_exists (p : path) (fs fs' : node) :
  Os.ensure_dir p fs = (inr tt, fs') -> path_exists fs' p = true.
Proof.
  intros H. unfold Os.ensure_dir, bind, Os.path_exists, when in H.
  destruct (FS.path_exists fs p) eqn:E; cbn [negb] in H.
  - now injection H as <-.
  - unfold Os.makedirs in H. rewrite E in H. exact (mkdirs_p_exists _ _ _ H).
Qed.

Lemma ensure_dir_grows (p : path) : only_makes_dirs (Os.ensure_dir p).
Proof.
  intros fs r fs' H. unfold Os.ensure_dir, bind, Os.path_exists, when in H.
  destruct (FS.path_exists fs p) eqn:E; cbn [negb] in H.
  - injection H as <- <-. now split.
  - unfold Os.makedirs in H. rewrite E in H. exact (mkdirs_p_grows _ _ _ _ H).
Qed.

(** What a successful [open(p, 'wb')] and write do. *)
Lemma open_write (p : path) (data : string) (fs fs' : node) :
  (f <- Os.open_wb p ;; Os.fd_write f data) fs = (inr tt, fs') ->
  resolve fs p = Some (norm p) /\ is_dir fs (norm p) = false /\
  fs' = put fs (norm p) (File data) /\ file_at fs' (norm p) = Some data.
Proof.
  unfold bind, Os.open_wb. intros H.
  destruct (resolve fs p) as [q|] eqn:Hr; [|discriminate].
  pose proof (resolve_norm _ _ _ Hr) as ->.
  assert (Hnd : is_dir fs (norm p) = false).
  { unfold is_dir. destruct (get fs (norm p)) as [[d|es]|]; try reflexivity. discriminate. }
  destruct (resolve_parent _ _ _ Hr Hnd) as (a & c & Hq & Ha).
  assert (H' : Os.fd_write (norm p) data (put fs (norm p) (File "")) = (inr tt, fs')).
  { unfold is_dir in Hnd. destruct (get fs (norm p)) as [[d|es]|]; try discriminate; exact H. }
  rewrite Hq in H'. rewrite (fd_write_after_open fs a c "" data Ha) in H'.
  injection H' as <-. rewrite <- Hq.
  split; [reflexivity|]. split; [exact Hnd|]. split; [reflexivity|].
  rewrite Hq. now apply file_at_put_same.
Qed.

Section Members.

Variable extract_to : path.

Lemma extract_member_spec (e : path * tar_entry) (fs fs' : node) :
  extract_member extract_to e fs = (inr tt, fs') ->
  (forall q, q <> tar_target extract_to e -> file_at fs' q = file_at fs q) /\
  (forall q, is_dir fs q = true -> is_dir fs' q = true) /\
  match snd e with
  | TarFile d => file_at fs' (tar_target extract_to e) = Some d
  | TarDir => is_dir fs' (tar_target extract_to e) = true
  end.
Proof.
  destruct e as [p [d|]]; unfold extract_member, tar_target; cbn [fst snd]; intros H.
  - unfold bind at 1 in H.
    destruct (when _ _ fs) as [[e|[]] fs1] eqn:E1; [discriminate|].
    assert (G : only_makes_dirs
                  (when (negb (is_empty_path (removelast (join_paths extract_to p))))
                     (Os.ensure_dir (removelast (join_paths extract_to p))))).
    { destruct (negb _); cbn [when]; [apply ensure_dir_grows|].
      intros ? ? ? [= <- <-]. now split. }
    destruct (G _ _ _ E1) as [Hf Hd].
    destruct (open_write _ _ _ _ H) as (_ & Hnd & -> & Hw).
    rewrite norm_join_paths in *.
    split; [|split; [|exact Hw]].
    + intros q Hq. rewrite put_file_frame; auto.
    + intros q Hq. rewrite put_file_dirs; auto.
  - destruct (mkdirs_p_grows _ _ _ _ H) as [Hf Hd].
    split; [|split]; auto.
    rewrite <- norm_join_paths. now apply (mkdirs_p_post _ fs).
Qed.

(** All the members, none of which lands where another one does. *)
Lemma extractall_spec (entries : list (path * tar_entry)) (fs fs' : node) :
  extractall extract_to entries fs = (inr tt, fs') ->
  NoDup (map (tar_target extract_to) entries) ->
  (forall q, ~ In q (map (tar_target extract_to) entries) -> file_at fs' q = file_at fs q) /\
  (forall q, is_dir fs q = true -> is_dir fs' q = true) /\
  (forall p d, In (p, TarFile d) entries ->
               file_at fs' (tar_target extract_to (p, TarFile d)) = Some d) /\
  (forall p, In (p, TarDir) entries ->
             is_dir fs' (tar_target extract_to (p, TarDir)) = true).
Proof.
  unfold extractall.
  revert fs; induction entries as [|e rest IH]; intros fs H Hnd.
  - injection H as <-. repeat split; auto; intros; contradiction.
  - cbn [for_each] in H. unfold bind in H.
    destruct (extract_member extract_to e fs) as [[x|[]] fs1] eqn:E; [discriminate|].
    cbn [map] in Hnd. inversion Hnd as [|? ? Hnotin Hnd']; subst.
    destruct (extract_member_spec _ _ _ E) as (Hf1 & Hd1 & Hat).
    destruct (IH _ H Hnd') as (Hf & Hd & Hfiles & Hdirs).
    split; [|split; [|split]].
    + intros q Hq. cbn [map] in Hq. rewrite Hf, Hf1; auto.
      * intros ->. apply Hq. now left.
      * intros Hin. apply Hq. now right.
    + auto.
    + intros p d [->|Hin]; [|now apply Hfiles].
      rewrite (Hf _ Hnotin). exact Hat.
    + intros p [->|Hin]; [|now apply Hdirs].
      apply Hd. exact Hat.
Qed.

Section Payload.

Context {C : Collab}.

(** The payload member: its file stays in the scratch directory, next
    to the members of its tar stream. *)
Lemma extract_payload_spec (name content : string)
    (entries : list (path * tar_entry)) (fs fs' : node) :
  PyStr.startswith name "data.tar" = true ->
  tar_entries (tar_mode_of name) content = Some entries ->
  extract_payload extract_to (name, content) fs = (inr tt, fs') ->
  NoDup (map (tar_target extract_to) entries) ->
  ~ In (norm (os_path_join extract_to name)) (map (tar_target extract_to) entries) ->
  file_at fs' (norm (os_path_join extract_to name)) = Some content /\
  (forall p d, In (p, TarFile d) entries ->
               file_at fs' (tar_target extract_to (p, TarFile d)) = Some d) /\
  (forall p, In (p, TarDir) entries ->
             is_dir fs' (tar_target extract_to (p, TarDir)) = true) /\
  (forall q, q <> norm (os_path_join extract_to name) ->
             ~ In q (map (tar_target extract_to) entries) ->
             file_at fs' q = file_at fs q) /\
  (forall q, is_dir fs q = true -> is_dir fs' q = true).
Proof.
  intros Hname Htar H Hnd Hnotin.
  unfold extract_payload in H. cbn [fst snd] in H. rewrite Hname in H. cbn [when] in H.
  set (tar_path := os_path_join extract_to name) in *.
  assert (Hsplit : exists fs1,
             (f <- Os.open_wb tar_path ;; Os.fd_write f content) fs = (inr tt, fs1) /\
             (tar_fd <- Os.open_rb tar_path ;; raw <- Os.fd_read tar_fd ;;
              match tar_entries (tar_mode_of name) raw with
              | Some entries => extractall extract_to entries
              | None => raise ReadError
              end) fs1 = (inr tt, fs')).
  { unfold bind in H |- *.
    destruct (Os.open_wb tar_path fs) as [[e|f] fs0]; [discriminate|].
    destruct (Os.fd_write f content fs0) as [[e|[]] fs1]; [discriminate|].
    now exists fs1. }
  destruct Hsplit as (fs1 & Hwrite & Hrest).
  destruct (open_write _ _ _ _ Hwrite) as (Hres & Hnotdir & -> & Hw).
  assert (Hdirs : forall q, is_dir (put fs (norm tar_path) (File content)) q = is_dir fs q)
    by (intros q; now apply put_file_dirs).
  assert (Hall : extractall extract_to entries (put fs (norm tar_path) (File content))
                 = (inr tt, fs')).
  { unfold bind, Os.open_rb, Os.fd_read in Hrest.
    rewrite (resolve_same_dirs _ _ _ Hdirs), Hres in Hrest.
    pose proof Hw as Hg. unfold file_at in Hg.
    destruct (get (put fs (norm tar_path) (File content)) (norm tar_path))
      as [[d|es]|]; try discriminate.
    rewrite Hw, Htar in Hrest. exact Hrest. }
  destruct (extractall_spec _ _ _ Hall Hnd) as (Hf & Hd & Hfiles & Hdirs').
  split; [|split; [|split; [|split]]]; auto.
  - now rewrite (Hf _ Hnotin).
  - intros q Hq Hq'. rewrite (Hf _ Hq'). now apply put_file_frame.
  - intros q Hq. apply Hd. now rewrite Hdirs.
Qed.

End Payload.

End Members.

End UnpackFacts.

(* ===================================================================== *)
(** * Unpacking: a tree-like tar stream is unpacked without an exception *)
(* ===================================================================== *)

Module UnpackOk.

Import FS FSFacts ResolveFacts OsFacts HarvestFacts UnpackFacts.

Lemma below_refl a : below a a.
Proof. exists []. now rewrite app_nil_r. Qed.

Lemma below_trans a b c : below a b -> below b c -> below a c.
Proof. intros [r ->] [r' ->]. exists (r ++ r'). now rewrite app_assoc. Qed.

Lemma below_app a r : below a (a ++ r).
Proof. now exists r. Qed.

Lemma below_antisym a b : below a b -> below b a -> a = b.
Proof.
  intros [r ->] [r' H]. rewrite <- app_assoc in H.
  rewrite <- (app_nil_r a) in H at 1. apply app_inv_head in H.
  symmetry in H. apply app_eq_nil in H as [-> _]. now rewrite app_nil_r.
Qed.

(** Two paths above one path are one above the other. *)
Lemma below_comparable a b t : below a t -> below b t -> below a b \/ below b a.
Proof.
  revert b t; induction a as [|x a IH]; intros b t [r Ha] [r' Hb].
  - left. now exists b.
  - destruct b as [|y b]; [right; now exists (x :: a)|].
    subst t. simpl in Hb. injection Hb as -> Hb.
    destruct (IH b (a ++ r)) as [[s ->]|[s ->]]; [now exists r | now exists r' | |].
    + left. now exists s.
    + right. now exists s.
Qed.

Lemma plain_step cur c :
  plain c = true ->
  step_component cur c = cur \/ (step_component cur c = cur ++ [c] /\ regular c = true).
Proof.
  unfold plain. intros H. apply orb_true_iff in H as [H|H].
  - right. split; [now apply step_component_regular | exact H].
  - left. apply String.eqb_eq in H. subst c. reflexivity.
Qed.

Lemma fold_plain_below p cur :
  Forall (fun c => plain c = true) p -> below cur (fold_left step_component p cur).
Proof.
  revert cur; induction p as [|c p IH]; intros cur H; cbn [fold_left].
  - apply below_refl.
  - inversion H as [|? ? Hc Hp]; subst.
    apply (below_trans _ (step_component cur c)); [|now apply IH].
    destruct (plain_step cur c Hc) as [->|[-> _]]; [apply below_refl | apply below_app].
Qed.

Lemma put_newdir_dirs_inv (p : path) (n : node) (q : path) :
  get n p = None -> is_dir (put n p (Dir [])) q = true ->
  is_dir n q = true \/ q = p.
Proof.
  revert n q; induction p as [|c p IH]; intros n q Hg; [discriminate|].
  destruct n as [d0|es]; [now left|]. simpl. simpl in Hg.
  destruct (alist_get c es) as [m|] eqn:E.
  - destruct q as [|c' q]; [now left|].
    unfold is_dir. simpl.
    destruct (String.eqb_spec c c') as [->|Hc].
    + rewrite alist_get_set_same, E. intros H.
      destruct (IH m q Hg H) as [H'| ->]; [now left | now right].
    + rewrite alist_get_set_other by assumption. now left.
  - destruct p as [|x p]; [|now left].
    destruct q as [|c' q]; [now left|].
    unfold is_dir. simpl.
    destruct (String.eqb_spec c c') as [->|Hc].
    + rewrite alist_get_set_same. destruct q as [|y q]; [now right|].
      simpl. discriminate.
    + rewrite alist_get_set_other by assumption. now left.
Qed.

Lemma step_plain_new (fs : node) (cur : path) (c : string) :
  is_dir fs cur = true -> get fs (step_component cur c) = None ->
  step_component cur c = cur ++ [c].
Proof.
  intros Hcur E. unfold step_component in *.
  pose proof Hcur as Hc. unfold is_dir in Hc.
  pose proof (is_dir_removelast _ _ Hcur) as Hp. unfold is_dir in Hp.
  destruct (String.eqb c ""); [rewrite E in Hc; discriminate|].
  destruct (String.eqb c "."); [rewrite E in Hc; discriminate|].
  destruct (String.eqb c ".."); [rewrite E in Hp; discriminate|].
  reflexivity.
Qed.

(** [mkdirs_from] returns when no file is on the way. *)
Lemma mkdirs_from_ok (comps cur : path) (fs : node) :
  Forall (fun c => plain c = true) comps ->
  is_dir fs cur = true ->
  (forall q, below cur q -> below q (fold_left step_component comps cur) ->
             file_at fs q = None) ->
  exists fs', Os.mkdirs_from cur comps fs = (inr tt, fs').
Proof.
  revert cur fs; induction comps as [|c rest IH]; intros cur fs Hpl Hcur Hfree.
  - now exists fs.
  - inversion Hpl as [|? ? Hc Hrest]; subst.
    cbn [Os.mkdirs_from fold_left] in *. rewrite Hcur.
    assert (Hnext : below cur (step_component cur c)).
    { destruct (plain_step cur c Hc) as [->|[-> _]]; [apply below_refl | apply below_app]. }
    destruct (get fs (step_component cur c)) as [[d|es]|] eqn:E.
    + exfalso.
      assert (Hf : file_at fs (step_component cur c) = None).
      { apply Hfree; [exact Hnext | now apply fold_plain_below]. }
      unfold file_at in Hf. rewrite E in Hf. discriminate.
    + apply IH; auto.
      * unfold is_dir. now rewrite E.
      * intros q Hq1 Hq2. apply Hfree; [|exact Hq2]. now apply (below_trans _ _ _ Hnext).
    + apply IH; auto.
      * rewrite (step_plain_new _ _ _ Hcur E). unfold is_dir. now rewrite get_put_same.
      * intros q Hq1 Hq2. rewrite put_newdir_frame by exact E.
        apply Hfree; [|exact Hq2]. now apply (below_trans _ _ _ Hnext).
Qed.

(** The directories that [mkdirs_from] makes are on the way. *)
Lemma mkdirs_from_dirs (comps cur : path) (fs fs' : node) (q : path) :
  Forall (fun c => plain c = true) comps ->
  Os.mkdirs_from cur comps fs = (inr tt, fs') ->
  is_dir fs' q = true ->
  is_dir fs q = true \/ (below cur q /\ below q (fold_left step_component comps cur)).
Proof.
  revert cur fs; induction comps as [|c rest IH]; intros cur fs Hpl H Hq.
  - injection H as <-. now left.
  - inversion Hpl as [|? ? Hc Hrest]; subst.
    cbn [Os.mkdirs_from fold_left] in *.
    destruct (is_dir fs cur) eqn:Hcur; [|discriminate].
    assert (Hnext : below cur (step_component cur c)).
    { destruct (plain_step cur c Hc) as [->|[-> _]]; [apply below_refl | apply below_app]. }
    destruct (get fs (step_component cur c)) as [[d|es]|] eqn:E; [discriminate| |].
    + destruct (IH _ _ Hrest H Hq) as [Hd|[H1 H2]]; [now left|].
      right. split; [now apply (below_trans _ _ _ Hnext) | exact H2].
    + destruct (IH _ _ Hrest H Hq) as [Hd|[H1 H2]].
      * destruct (put_newdir_dirs_inv _ _ _ E Hd) as [Hd'| ->]; [now left|].
        right. split; [exact Hnext | now apply fold_plain_below].
      * right. split; [now apply (below_trans _ _ _ Hnext) | exact H2].
Qed.

Lemma plain_not_empty_path (p : path) :
  Forall (fun c => plain c = true) p -> p <> [] -> is_empty_path p = false.
Proof.
  intros Hpl Hne. destruct p as [|c [|c2 p]]; [congruence| |reflexivity].
  inversion Hpl as [|? ? Hc _]; subst. simpl.
  unfold plain, regular in Hc. destruct (String.eqb_spec c ""); [|reflexivity].
  subst c. discriminate.
Qed.

Lemma below_nil (q : path) : below [] q.
Proof. now exists q. Qed.

Lemma mkdirs_p_ok (p : path) (fs : node) :
  Forall (fun c => plain c = true) p -> p <> [] ->
  is_dir fs [] = true ->
  (forall q, below q (norm p) -> file_at fs q = None) ->
  exists fs', Os.mkdirs_p p fs = (inr tt, fs').
Proof.
  intros Hpl Hne Hroot Hfree. unfold Os.mkdirs_p.
  rewrite (plain_not_empty_path _ Hpl Hne).
  apply mkdirs_from_ok; auto.
Qed.

Lemma mkdirs_p_dirs (p : path) (fs fs' : node) (q : path) :
  Forall (fun c => plain c = true) p ->
  Os.mkdirs_p p fs = (inr tt, fs') ->
  is_dir fs' q = true ->
  is_dir fs q = true \/ below q (norm p).
Proof.
  intros Hpl H Hq. unfold Os.mkdirs_p in H.
  destruct (is_empty_path p); [discriminate|].
  destruct (mkdirs_from_dirs _ _ _ _ _ Hpl H Hq) as [Hd|[_ Hb]]; [now left | now right].
Qed.

Lemma ensure_dir_ok (p : path) (fs : node) :
  Forall (fun c => plain c = true) p -> p <> [] ->
  is_dir fs [] = true ->
  (forall q, below q (norm p) -> file_at fs q = None) ->
  exists fs', Os.ensure_dir p fs = (inr tt, fs').
Proof.
  intros Hpl Hne Hroot Hfree.
  unfold Os.ensure_dir, bind, Os.path_exists, when.
  destruct (FS.path_exists fs p) eqn:E; cbn [negb]; [now exists fs|].
  unfold Os.makedirs. rewrite E. now apply mkdirs_p_ok.
Qed.

Lemma ensure_dir_dirs (p : path) (fs fs' : node) (q : path) :
  Forall (fun c => plain c = true) p ->
  Os.ensure_dir p fs = (inr tt, fs') ->
  is_dir fs' q = true ->
  is_dir fs q = true \/ below q (norm p).
Proof.
  intros Hpl H Hq. unfold Os.ensure_dir, bind, Os.path_exists, when in H.
  destruct (FS.path_exists fs p) eqn:E; cbn [negb] in H.
  - injection H as <-. now left.
  - unfold Os.makedirs in H. rewrite E in H. exact (mkdirs_p_dirs _ _ _ _ Hpl H Hq).
Qed.

(** After the idiom, what was no file is a directory that resolves. *)
Lemma ensure_dir_is_dir (p : path) (fs fs' : node) :
  Os.ensure_dir p fs = (inr tt, fs') ->
  file_at fs (norm p) = None ->
  resolve fs' p = Some (norm p) /\ is_dir fs' (norm p) = true.
Proof.
  intros H Hf. pose proof (ensure_dir_exists _ _ _ H) as Hex.
  destruct (ensure_dir_grows _ _ _ _ H) as [Hfiles _].
  unfold path_exists, stat in Hex.
  destruct (resolve fs' p) as [q|] eqn:Hr; [|discriminate].
  pose proof (resolve_norm _ _ _ Hr) as ->. split; [reflexivity|].
  rewrite <- Hfiles in Hf. unfold file_at in Hf. unfold is_dir.
  destruct (get fs' (norm p)) as [[d|es]|]; try discriminate. reflexivity.
Qed.


Lemma regular_plain (c : string) : regular c = true -> plain c = true.
Proof. unfold plain. now intros ->. Qed.

Lemma fold_regular (a cur : path) :
  Forall (fun c => regular c = true) a -> fold_left step_component a cur = cur ++ a.
Proof.
  revert cur; induction a as [|c a IH]; intros cur H; cbn [fold_left].
  - now rewrite app_nil_r.
  - inversion H as [|? ? Hc Ha]; subst.
    rewrite (step_component_regular _ _ Hc), IH by assumption.
    now rewrite <- app_assoc.
Qed.

Lemma norm_regular (a : path) : Forall (fun c => regular c = true) a -> norm a = a.
Proof. intros H. unfold norm. now rewrite fold_regular. Qed.

Lemma norm_app (a p : path) : norm (a ++ p) = fold_left step_component p (norm a).
Proof. unfold norm. apply fold_left_app. Qed.

Lemma norm_snoc_regular (u : path) (c : string) :
  regular c = true -> norm (u ++ [c]) = norm u ++ [c].
Proof. intros H. rewrite norm_app. cbn [fold_left]. now apply step_component_regular. Qed.

Lemma below_snoc_absurd (u : path) (c : string) : ~ below (u ++ [c]) u.
Proof.
  intros [r H]. apply (f_equal (@length _)) in H.
  rewrite !length_app in H. simpl in H. lia.
Qed.

Section Extraction.

Variables extract_to payload : path.
Hypothesis scratch_names : Forall (fun c => regular c = true) extract_to.
Hypothesis scratch_not_root : extract_to <> [].

Local Abbreviation target := (tar_target extract_to).

Lemma target_below (e : path * tar_entry) :
  Forall (fun c => plain c = true) (fst e) -> below extract_to (target e).
Proof.
  intros H. unfold tar_target. rewrite norm_app, (norm_regular _ scratch_names).
  now apply fold_plain_below.
Qed.

Lemma scratch_plain : Forall (fun c => plain c = true) extract_to.
Proof. eapply Forall_impl; [|exact scratch_names]. apply regular_plain. Qed.

(** No file is on the way to a member that is still to come. *)
Lemma no_file_on_the_way (done : list (path * tar_entry)) (e : path * tar_entry)
    (fs : node) (q : path) :
  unpacked extract_to payload done fs ->
  Forall (fun c => plain c = true) (fst e) ->
  ~ In (target e) (map target done) ->
  ~ below payload (target e) ->
  (forall e' d, In e' done -> snd e' = TarFile d ->
                below (target e') (target e) -> target e' = target e) ->
  below q (target e) -> file_at fs q = None.
Proof.
  intros (Hdir & Hfiles & _) Hpl Hnew Hpay Htree Hq.
  destruct (below_comparable _ _ _ Hq (target_below e Hpl)) as [Hup|Hdown].
  - destruct Hup as [r ->]. apply is_dir_app in Hdir.
    unfold is_dir in Hdir. unfold file_at.
    destruct (get fs q) as [[d|es]|]; try discriminate; reflexivity.
  - destruct (file_at fs q) as [d|] eqn:E; [|reflexivity]. exfalso.
    destruct (Hfiles q Hdown) as [->|(e' & d' & Hin & Hkind & ->)];
      [congruence | now apply Hpay |].
    apply Hnew. rewrite <- (Htree e' d' Hin Hkind Hq).
    now apply in_map.
Qed.

Lemma unpacked_more (done : list (path * tar_entry)) (e : path * tar_entry)
    (fs fs' : node) :
  unpacked extract_to payload done fs ->
  (forall q, is_dir fs q = true -> is_dir fs' q = true) ->
  (forall q, file_at fs' q <> None ->
             file_at fs q <> None \/
             (exists d, snd e = TarFile d) /\ q = target e) ->
  (forall q, is_dir fs' q = true ->
             is_dir fs q = true \/
             (below q (target e) /\ (q = target e -> snd e = TarDir))) ->
  unpacked extract_to payload (done ++ [e]) fs'.
Proof.
  intros (Hdir & Hfiles & Hdirs) Hmono Hf Hd. split; [now apply Hmono|]. split.
  - intros q Hq Hne. destruct (Hf q Hne) as [Hold|[[d Hk] ->]].
    + destruct (Hfiles q Hq Hold) as [->|(e' & d' & Hin & Hkind & ->)]; [now left|].
      right. exists e', d'. split; [apply in_or_app; now left | now split].
    + right. exists e, d. split; [apply in_or_app; right; now left | now split].
  - intros q Hq Hne Hqd. destruct (Hd q Hqd) as [Hold|[Hb Hk]].
    + destruct (Hdirs q Hq Hne Hold) as (e' & Hin & Hb & Hk).
      exists e'. split; [apply in_or_app; now left | now split].
    + exists e. split; [apply in_or_app; right; now left | now split].
Qed.

Lemma root_is_dir (fs : node) : is_dir fs extract_to = true -> is_dir fs [] = true.
Proof. apply (is_dir_app fs [] extract_to). Qed.

(** A directory member. *)
Lemma extract_dir_ok (done : list (path * tar_entry)) (p : path) (fs : node) :
  unpacked extract_to payload done fs ->
  Forall (fun c => plain c = true) p ->
  ~ In (target (p, TarDir)) (map target done) ->
  ~ below payload (target (p, TarDir)) ->
  (forall e' d, In e' done -> snd e' = TarFile d ->
                below (target e') (target (p, TarDir)) ->
                target e' = target (p, TarDir)) ->
  exists fs', extract_member extract_to (p, TarDir) fs = (inr tt, fs') /\
              unpacked extract_to payload (done ++ [(p, TarDir)]) fs'.
Proof.
  intros Hinv Hpl Hnew Hpay Htree.
  pose proof Hinv as (Hdir & _ & _).
  unfold extract_member. cbn [fst snd].
  rewrite (join_paths_regular _ _ scratch_names).
  assert (Hall : Forall (fun c => plain c = true) (extract_to ++ p))
    by (apply Forall_app; split; [apply scratch_plain | exact Hpl]).
  destruct (mkdirs_p_ok (extract_to ++ p) fs Hall) as [fs' Hrun].
  - now destruct extract_to.
  - now apply root_is_dir.
  - intros q Hq. now apply (no_file_on_the_way done (p, TarDir) fs q).
  - exists fs'. split; [exact Hrun|].
    destruct (mkdirs_p_grows _ _ _ _ Hrun) as [Hf Hd].
    apply (unpacked_more done (p, TarDir) fs fs' Hinv Hd).
    + intros q Hq. left. now rewrite <- Hf.
    + intros q Hq. destruct (mkdirs_p_dirs _ _ _ _ Hall Hrun Hq) as [Hold|Hb];
        [now left | right; now split].
Qed.

(** A regular member. *)
Lemma extract_file_ok (done : list (path * tar_entry)) (p : path) (d : string)
    (fs : node) :
  unpacked extract_to payload done fs ->
  member_name_ok (p, TarFile d) ->
  ~ In (target (p, TarFile d)) (map target done) ->
  ~ below payload (target (p, TarFile d)) ->
  (forall e' d', In e' done -> snd e' = TarFile d' ->
                 below (target e') (target (p, TarFile d)) ->
                 target e' = target (p, TarFile d)) ->
  (forall e', In e' done -> below (target (p, TarFile d)) (target e') ->
              target (p, TarFile d) = target e') ->
  exists fs', extract_member extract_to (p, TarFile d) fs = (inr tt, fs') /\
              unpacked extract_to payload (done ++ [(p, TarFile d)]) fs'.
Proof.
  intros Hinv [Hpl (q0 & c & Hp & Hc)] Hnew Hpay Htree Hleaf.
  cbn [fst snd] in Hpl, Hp. subst p.
  pose proof Hinv as (Hdir & _ & Hdirs).
  apply Forall_app in Hpl as [Hq0 _].
  assert (Hup : Forall (fun c => plain c = true) (extract_to ++ q0))
    by (apply Forall_app; split; [apply scratch_plain | exact Hq0]).
  assert (Ht : target (q0 ++ [c], TarFile d) = norm (extract_to ++ q0) ++ [c]).
  { unfold tar_target. cbn [fst]. rewrite app_assoc. now apply norm_snoc_regular. }
  assert (Hbelow : below (norm (extract_to ++ q0)) (target (q0 ++ [c], TarFile d)))
    by (rewrite Ht; apply below_app).
  assert (Hfree : forall q, below q (target (q0 ++ [c], TarFile d)) -> file_at fs q = None).
  { intros q Hq. apply (no_file_on_the_way done (q0 ++ [c], TarFile d) fs q); auto.
    cbn [fst]. apply Forall_app. split; [exact Hq0|].
    constructor; [now apply regular_plain | constructor]. }
  unfold extract_member. cbn [fst snd].
  rewrite (join_paths_regular _ _ scratch_names).
  rewrite app_assoc, removelast_last.
  rewrite plain_not_empty_path; [|exact Hup|now destruct extract_to].
  cbn [negb when].
  destruct (ensure_dir_ok (extract_to ++ q0) fs Hup) as [fs1 Hens].
  { now destruct extract_to. }
  { now apply root_is_dir. }
  { intros q Hq. apply Hfree. now apply (below_trans _ _ _ Hq). }
  destruct (ensure_dir_grows _ _ _ _ Hens) as [Hf1 Hd1].
  destruct (ensure_dir_is_dir _ _ _ Hens) as [Hres Hupdir].
  { apply Hfree. exact Hbelow. }
  assert (Hnotdir : is_dir fs1 (norm (extract_to ++ q0) ++ [c]) = false).
  { destruct (is_dir fs1 (norm (extract_to ++ q0) ++ [c])) eqn:E; [|reflexivity].
    exfalso. rewrite <- Ht in E.
    destruct (ensure_dir_dirs _ _ _ _ Hup Hens E) as [Hold|Hb].
    - assert (Hst : below extract_to (target (q0 ++ [c], TarFile d))).
      { apply target_below. cbn [fst]. apply Forall_app. split; [exact Hq0|].
        constructor; [now apply regular_plain | constructor]. }
      assert (Hne : target (q0 ++ [c], TarFile d) <> extract_to).
      { rewrite Ht. intros Heq.
        assert (Hb2 : below extract_to (norm (extract_to ++ q0))).
        { rewrite norm_app, (norm_regular _ scratch_names). now apply fold_plain_below. }
        apply (below_snoc_absurd (norm (extract_to ++ q0)) c). now rewrite Heq. }
      destruct (Hdirs _ Hst Hne Hold) as (e' & Hin & Hb' & _).
      apply Hnew. rewrite (Hleaf e' Hin Hb'). now apply in_map.
    - rewrite Ht in Hb. now apply below_snoc_absurd in Hb. }
  assert (Hopen : Os.open_wb ((extract_to ++ q0) ++ [c]) fs1 =
                  (inr (norm (extract_to ++ q0) ++ [c]),
                   put fs1 (norm (extract_to ++ q0) ++ [c]) (File ""))).
  { unfold Os.open_wb, resolve.
    rewrite plain_not_empty_path.
    2:{ apply Forall_app. split; [exact Hup|].
        constructor; [now apply regular_plain | constructor]. }
    2:{ now destruct (extract_to ++ q0). }
    rewrite resolve_from_app.
    unfold resolve in Hres.
    rewrite plain_not_empty_path in Hres; [|exact Hup|now destruct extract_to].
    rewrite Hres. cbn [resolve_from]. rewrite Hupdir.
    rewrite (step_component_regular _ _ Hc).
    unfold is_dir in Hnotdir.
    now destruct (get fs1 (norm (extract_to ++ q0) ++ [c])) as [[x|es]|]. }
  exists (put fs1 (norm (extract_to ++ q0) ++ [c]) (File d)). split.
  - rewrite (bind_inr _ _ _ _ _ Hens), (bind_inr _ _ _ _ _ Hopen).
    apply fd_write_after_open, Hupdir.
  - rewrite <- Ht.
    apply (unpacked_more done (q0 ++ [c], TarFile d) fs _ Hinv).
    + intros q Hq. rewrite Ht, put_file_dirs by exact Hnotdir. now apply Hd1.
    + intros q Hq.
      destruct (list_eq_dec string_dec q (target (q0 ++ [c], TarFile d))) as [->|Hne].
      * right. split; [now exists d | reflexivity].
      * left. rewrite Ht in Hq, Hne.
        rewrite put_file_frame in Hq by assumption. now rewrite <- Hf1.
    + intros q Hq. rewrite Ht, put_file_dirs in Hq by exact Hnotdir.
      destruct (ensure_dir_dirs _ _ _ _ Hup Hens Hq) as [Hold|Hb]; [now left|].
      right. split; [now apply (below_trans _ _ _ Hb)|].
      intros ->. rewrite Ht in Hb. now apply below_snoc_absurd in Hb.
Qed.

End Extraction.

Section Unpack.

Variables extract_to : path.
Hypothesis scratch_names : Forall (fun c => regular c = true) extract_to.
Hypothesis scratch_not_root : extract_to <> [].

Local Abbreviation target := (tar_target extract_to).

(** All the members of a tree-like tar stream. *)
Lemma extractall_ok (payload : path) (todo done : list (path * tar_entry)) (fs : node) :
  tree_like extract_to payload (done ++ todo) ->
  unpacked extract_to payload done fs ->
  exists fs', extractall extract_to todo fs = (inr tt, fs') /\
              unpacked extract_to payload (done ++ todo) fs'.
Proof.
  unfold extractall.
  revert done fs; induction todo as [|e todo IH]; intros done fs Htree Hinv.
  - exists fs. now rewrite app_nil_r.
  - pose proof Htree as (Hnames & Hnd & Hpay & Hleaf).
    assert (Hin : In e (done ++ e :: todo)) by (apply in_or_app; right; now left).
    assert (Hdone : forall e', In e' done -> In e' (done ++ e :: todo))
      by (intros e' H; apply in_or_app; now left).
    assert (Hname : member_name_ok e) by (rewrite Forall_forall in Hnames; now apply Hnames).
    assert (Hnew : ~ In (target e) (map target done)).
    { rewrite map_app in Hnd. cbn [map] in Hnd. apply NoDup_remove_2 in Hnd.
      intros H. apply Hnd. apply in_or_app. now left. }
    assert (Hstep : exists fs1, extract_member extract_to e fs = (inr tt, fs1) /\
                                unpacked extract_to payload (done ++ [e]) fs1).
    { destruct e as [p [d|]].
      - apply extract_file_ok; auto.
        + intros e' d' He' Hk Hb. exact (Hleaf e' _ d' (Hdone _ He') Hin Hk Hb).
        + intros e' He' Hb. exact (Hleaf _ e' d Hin (Hdone _ He') eq_refl Hb).
      - apply extract_dir_ok; auto.
        + now destruct Hname.
        + intros e' d' He' Hk Hb. exact (Hleaf e' _ d' (Hdone _ He') Hin Hk Hb). }
    destruct Hstep as (fs1 & Hrun & Hinv1).
    destruct (IH (done ++ [e]) fs1) as (fs' & Hrest & Hinv').
    + now rewrite <- app_assoc.
    + exact Hinv1.
    + exists fs'. split.
      * cbn [for_each]. now rewrite (bind_inr _ _ _ _ _ Hrun).
      * now rewrite <- app_assoc in Hinv'.
Qed.

Context {C : Collab}.

(** The payload member of an archive, into an empty scratch directory. *)
Lemma extract_payload_ok (name content : string) (entries : list (path * tar_entry))
    (fs : node) :
  get fs extract_to = Some (Dir []) ->
  regular name = true ->
  PyStr.has_char SLASH name = false ->
  PyStr.startswith name "data.tar" = true ->
  tar_entries (tar_mode_of name) content = Some entries ->
  tree_like extract_to (extract_to ++ [name]) entries ->
  exists fs', extract_payload extract_to (name, content) fs = (inr tt, fs').
Proof.
  intros Hempty Hreg Hslash Hname Htar Htree.
  assert (Hdir : is_dir fs extract_to = true) by (unfold is_dir; now rewrite Hempty).
  assert (Hbelow : forall r, r <> [] -> get fs (extract_to ++ r) = None).
  { intros r Hr. rewrite get_app, Hempty. destruct r; [congruence | reflexivity]. }
  assert (Hnames : Forall (fun c => regular c = true) (extract_to ++ [name])).
  { apply Forall_app. split; [exact scratch_names|]. now constructor. }
  assert (Hnotdir : is_dir fs (extract_to ++ [name]) = false).
  { unfold is_dir. rewrite Hbelow; [reflexivity | discriminate]. }
  set (fsB := put fs (extract_to ++ [name]) (File content)).
  assert (Hinv : unpacked extract_to (extract_to ++ [name]) [] fsB).
  { split; [|split].
    - unfold fsB. now rewrite put_file_dirs.
    - intros q [r ->] Hq. left.
      destruct (list_eq_dec string_dec (extract_to ++ r) (extract_to ++ [name]))
        as [E|E]; [exact E|]. exfalso. apply Hq.
      unfold fsB. rewrite put_file_frame by assumption.
      unfold file_at. rewrite get_app, Hempty. destruct r; reflexivity.
    - intros q [r ->] Hne Hq. exfalso.
      unfold fsB in Hq. rewrite put_file_dirs in Hq by assumption.
      unfold is_dir in Hq. rewrite Hbelow in Hq; [discriminate|].
      intros ->. apply Hne. now rewrite app_nil_r. }
  destruct (extractall_ok (extract_to ++ [name]) entries [] fsB Htree Hinv)
    as (fs' & Hall & _).
  exists fs'. unfold extract_payload. cbn [fst snd]. rewrite Hname. cbn [when].
  rewrite (os_path_join_name _ _ scratch_names Hslash).
  rewrite (bind_inr _ _ _ _ _ (open_wb_clean fs extract_to name Hnames Hdir Hnotdir)).
  rewrite (bind_inr _ _ _ _ _ (fd_write_after_open fs extract_to name "" content Hdir)).
  fold fsB.
  assert (Hfile : file_at fsB (extract_to ++ [name]) = Some content)
    by (apply file_at_put_same, Hdir).
  rewrite (bind_inr _ _ _ _ _ (open_rb_clean fsB extract_to name content Hnames Hfile)).
  unfold bind, Os.fd_read. rewrite Hfile, Htar. exact Hall.
Qed.

End Unpack.


Lemma belowb_below (a b : path) : below a b -> belowb a b = true.
Proof.
  intros [r ->]. induction a as [|x a IH]; simpl; [reflexivity|].
  now rewrite String.eqb_refl, IH.
Qed.

Lemma not_below (a b : path) : belowb a b = false -> ~ below a b.
Proof. intros H Hb. apply belowb_below in Hb. congruence. Qed.

Lemma payload_name_regular (name : string) :
  PyStr.startswith name "data.tar" = true -> regular name = true.
Proof.
  intros H. apply PyStrFacts.startswith_inv in H. rewrite H. reflexivity.
Qed.

End UnpackOk.

(** C6, as the script has it: when no member of the archive starts with
    the payload prefix, [extract_deb] returns normally; it has made the
    scratch directory if it was missing, the scratch directory is there,
    and nothing was extracted: no file was made or changed. *)
Theorem C6_no_payload_returns_normally :
  forall (C : Collab) (data_path extract_to q : path) (fs fs1 : FS.node)
         (raw : string) (members : list (string * string)),
    Os.ensure_dir extract_to fs = (inr tt, fs1) ->
    FS.resolve fs1 data_path = Some q ->
    FS.file_at fs1 q = Some raw ->
    ar_members raw = Some members ->
    (forall m, In m members -> PyStr.startswith (fst m) "data.tar" = false) ->
    extract_deb data_path extract_to fs = (inr tt, fs1) /\
    FS.path_exists fs1 extract_to = true /\
    (forall p, FS.file_at fs1 p = FS.file_at fs p).
Proof.
  intros C data_path extract_to q fs fs1 raw members Hdir Hres Hfile Har Hnone.
  split; [|split;
    [exact (UnpackFacts.ensure_dir_exists _ _ _ Hdir)
    |exact (proj1 (UnpackFacts.ensure_dir_grows _ _ _ _ Hdir))]].
  unfold extract_deb. unfold bind at 1. rewrite Hdir.
  pose proof (open_rb_read fs1 data_path q raw Hres Hfile) as Hread.
  unfold bind in Hread |- *.
  destruct (Os.open_rb data_path fs1) as [[e|f] fs2]; [discriminate|].
  destruct (Os.fd_read f fs2) as [[e|raw'] fs3]; [discriminate|].
  injection Hread as -> ->. rewrite Har.
  apply for_each_skip. intros m Hm.
  unfold extract_payload. now rewrite (Hnone m Hm).
Qed.

Lemma C6_no_payload_returns_normally_witness :
  @extract_deb Demo.demo ["nodata_1.0_all.deb"] ["man_data"; "nodata_1.0_all"] Demo.fs_nodata
  = (inr tt, FS.Dir [("man_data", FS.Dir [("nodata_1.0_all", FS.Dir [])]);
                     ("nodata_1.0_all.deb", FS.File Demo.deb_nodata)]).
Proof.
  refine (proj1 (C6_no_payload_returns_normally Demo.demo
           ["nodata_1.0_all.deb"] ["man_data"; "nodata_1.0_all"] ["nodata_1.0_all.deb"]
           Demo.fs_nodata
           (FS.Dir [("man_data", FS.Dir [("nodata_1.0_all", FS.Dir [])]);
                    ("nodata_1.0_all.deb", FS.File Demo.deb_nodata)])
           Demo.deb_nodata
           [("debian-binary", "2.0"); ("control.tar.gz", "tar.gz of control")]
           eq_refl eq_refl eq_refl eq_refl _)).
  intros m [<-|[<-|[]]]; reflexivity.
Defined.

(** C6 as stated fails: an archive without a payload member raises
    nothing, the call ends normally with an empty scratch directory. *)
Lemma C6_no_payload_is_no_error :
  @extract_deb Demo.demo ["nodata_1.0_all.deb"] ["man_data"; "nodata_1.0_all"] Demo.fs_nodata
  = (inr tt, FS.Dir [("man_data", FS.Dir [("nodata_1.0_all", FS.Dir [])]);
                     ("nodata_1.0_all.deb", FS.File Demo.deb_nodata)]).
Proof. vm_compute. reflexivity. Qed.

Lemma for_each_app {A} (l1 l2 : list A) (body : A -> M unit) (fs : FS.node) :
  for_each (l1 ++ l2) body fs = (for_each l1 body ;; for_each l2 body) fs.
Proof.
  revert fs; induction l1 as [|x l1 IH]; intros fs; simpl; [reflexivity|].
  unfold bind. destruct (body x fs) as [[e|u] fs1]; [reflexivity|].
  rewrite IH. reflexivity.
Qed.

(** What an unpacking that raised nothing has left: the members of the
    tar stream at their relative paths, the payload member as a file of
    its member name, and no other file made or changed. *)
Lemma unpack_contents :
  forall (C : Collab) (data_path extract_to arc : path) (fs fs1 fs' : FS.node)
         (raw name content : string) (pre post : list (string * string))
         (entries : list (path * tar_entry)),
    Os.ensure_dir extract_to fs = (inr tt, fs1) ->
    FS.resolve fs1 data_path = Some arc ->
    FS.file_at fs1 arc = Some raw ->
    ar_members raw = Some (pre ++ (name, content) :: post) ->
    (forall m, In m (pre ++ post) -> PyStr.startswith (fst m) "data.tar" = false) ->
    PyStr.startswith name "data.tar" = true ->
    tar_entries (tar_mode_of name) content = Some entries ->
    NoDup (map (tar_target extract_to) entries) ->
    ~ In (FS.norm (os_path_join extract_to name)) (map (tar_target extract_to) entries) ->
    extract_deb data_path extract_to fs = (inr tt, fs') ->
    FS.file_at fs' (FS.norm (os_path_join extract_to name)) = Some content /\
    (forall p d, In (p, TarFile d) entries ->
                 FS.file_at fs' (FS.norm (extract_to ++ p)) = Some d) /\
    (forall p, In (p, TarDir) entries ->
               FS.is_dir fs' (FS.norm (extract_to ++ p)) = true) /\
    (forall q, q <> FS.norm (os_path_join extract_to name) ->
               ~ In q (map (tar_target extract_to) entries) ->
               FS.file_at fs' q = FS.file_at fs q).
Proof.
  intros C data_path extract_to arc fs fs1 fs' raw name content pre post entries
         Hdir Hres Hfile Har Hnone Hname Htar Hnd Hnotin Hrun.
  unfold extract_deb in Hrun.
  rewrite (HarvestFacts.bind_inr _ _ _ _ _ Hdir) in Hrun.
  pose proof (open_rb_read fs1 data_path arc raw Hres Hfile) as Hread.
  assert (Hloop : for_each (pre ++ (name, content) :: post) (extract_payload extract_to) fs1
                  = (inr tt, fs')).
  { unfold bind in Hread, Hrun.
    destruct (Os.open_rb data_path fs1) as [[e|f] fs2]; [discriminate|].
    destruct (Os.fd_read f fs2) as [[e|raw'] fs3]; [discriminate|].
    injection Hread as -> ->. now rewrite Har in Hrun. }
  assert (Hpay : extract_payload extract_to (name, content) fs1 = (inr tt, fs')).
  { rewrite for_each_app in Hloop. unfold bind at 1 in Hloop.
    rewrite for_each_skip in Hloop.
    2:{ intros m Hm. unfold extract_payload. rewrite (Hnone m); [reflexivity|].
        apply in_or_app. now left. }
    cbn [for_each] in Hloop. unfold bind in Hloop.
    destruct (extract_payload extract_to (name, content) fs1) as [[e|[]] fs2];
      [discriminate|].
    rewrite for_each_skip in Hloop.
    2:{ intros m Hm. unfold extract_payload. rewrite (Hnone m); [reflexivity|].
        apply in_or_app. now right. }
    exact Hloop. }
  destruct (UnpackFacts.extract_payload_spec extract_to name content entries fs1 fs'
              Hname Htar Hpay Hnd Hnotin) as (Hp & Hfiles & Hdirs & Hframe & _).
  destruct (UnpackFacts.ensure_dir_grows extract_to _ _ _ Hdir) as [Hf1 _].
  split; [exact Hp|]. split; [exact Hfiles|]. split; [exact Hdirs|].
  intros q Hq Hq'. rewrite (Hframe q Hq Hq'). apply Hf1.
Qed.

(** C7, as the script has it: an archive with one payload member whose
    tar stream is tree-like, unpacked into an empty scratch directory,
    is unpacked without an exception; afterwards every regular member
    of the tar stream is a file below the scratch directory at its
    relative path with its content, every directory member is a
    directory there, the payload member itself stays in the scratch
    directory as a file of its member name, and no other file is made
    or changed. *)
Theorem C7_unpack_keeps_the_payload_file :
  forall (C : Collab) (data_path extract_to arc : path) (fs fs1 : FS.node)
         (raw name content : string) (pre post : list (string * string))
         (entries : list (path * tar_entry)),
    Forall (fun c => FS.regular c = true) extract_to ->
    extract_to <> [] ->
    Os.ensure_dir extract_to fs = (inr tt, fs1) ->
    FS.get fs1 extract_to = Some (FS.Dir []) ->
    FS.resolve fs1 data_path = Some arc ->
    FS.file_at fs1 arc = Some raw ->
    ar_members raw = Some (pre ++ (name, content) :: post) ->
    (forall m, In m (pre ++ post) -> PyStr.startswith (fst m) "data.tar" = false) ->
    PyStr.startswith name "data.tar" = true ->
    PyStr.has_char SLASH name = false ->
    tar_entries (tar_mode_of name) content = Some entries ->
    tree_like extract_to (extract_to ++ [name]) entries ->
    exists fs',
      extract_deb data_path extract_to fs = (inr tt, fs') /\
      FS.file_at fs' (extract_to ++ [name]) = Some content /\
      (forall p d, In (p, TarFile d) entries ->
                   FS.file_at fs' (FS.norm (extract_to ++ p)) = Some d) /\
      (forall p, In (p, TarDir) entries ->
                 FS.is_dir fs' (FS.norm (extract_to ++ p)) = true) /\
      (forall q, q <> extract_to ++ [name] ->
                 ~ In q (map (tar_target extract_to) entries) ->
                 FS.file_at fs' q = FS.file_at fs q).
Proof.
  intros C data_path extract_to arc fs fs1 raw name content pre post entries
         Hreg Hne Hdir Hempty Hres Hfile Har Hnone Hname Hslash Htar Htree.
  pose proof (UnpackOk.payload_name_regular _ Hname) as Hnreg.
  destruct (UnpackOk.extract_payload_ok extract_to Hreg Hne name content entries fs1
              Hempty Hnreg Hslash Hname Htar Htree) as [fs' Hpay].
  assert (Hrun : extract_deb data_path extract_to fs = (inr tt, fs')).
  { unfold extract_deb.
    rewrite (HarvestFacts.bind_inr _ _ _ _ _ Hdir).
    pose proof (open_rb_read fs1 data_path arc raw Hres Hfile) as Hread.
    unfold bind in Hread |- *.
    destruct (Os.open_rb data_path fs1) as [[e|f] fs2]; [discriminate|].
    destruct (Os.fd_read f fs2) as [[e|raw'] fs3]; [discriminate|].
    injection Hread as -> ->. rewrite Har.
    rewrite for_each_app. unfold bind. rewrite for_each_skip.
    2:{ intros m Hm. unfold extract_payload. rewrite (Hnone m); [reflexivity|].
        apply in_or_app. now left. }
    cbn [for_each]. unfold bind. rewrite Hpay.
    apply for_each_skip.
    intros m Hm. unfold extract_payload. rewrite (Hnone m); [reflexivity|].
    apply in_or_app. now right. }
  assert (Hpath : FS.norm (os_path_join extract_to name) = extract_to ++ [name]).
  { rewrite (ResolveFacts.os_path_join_name _ _ Hreg Hslash).
    apply UnpackOk.norm_regular.
    apply Forall_app. split; [exact Hreg | now constructor]. }
  destruct Htree as (_ & Hnd & Hpayload & _).
  assert (Hnotin : ~ In (FS.norm (os_path_join extract_to name))
                        (map (tar_target extract_to) entries)).
  { rewrite Hpath. intros Hin. apply in_map_iff in Hin as (e & He & Hin).
    apply (Hpayload e Hin). rewrite He. apply UnpackOk.below_refl. }
  exists fs'. split; [exact Hrun|].
  rewrite <- Hpath.
  exact (unpack_contents C data_path extract_to arc fs fs1 fs' raw name
           content pre post entries Hdir Hres Hfile Har Hnone Hname Htar Hnd Hnotin Hrun).
Qed.

Lemma C7_unpack_keeps_the_payload_file_witness :
  exists fs',
    @extract_deb Demo.demo ["hello_2.10-3_amd64.deb"] ["man_data"; "hello_2.10-3_amd64"]
       Demo.fs_hello = (inr tt, fs') /\
    FS.file_at fs' ["man_data"; "hello_2.10-3_amd64"; "data.tar.gz"] = Some Demo.tgz_hello /\
    FS.file_at fs' ["man_data"; "hello_2.10-3_amd64"; "usr"; "share"; "man"; "man1";
                    "hello.1.gz"] = Some "gz:HELLO(1)".
Proof.
  destruct (C7_unpack_keeps_the_payload_file Demo.demo
              ["hello_2.10-3_amd64.deb"] ["man_data"; "hello_2.10-3_amd64"]
              ["hello_2.10-3_amd64.deb"] Demo.fs_hello
              (FS.Dir [("man_data", FS.Dir [("hello_2.10-3_amd64", FS.Dir [])]);
                       ("hello_2.10-3_amd64.deb", FS.File Demo.deb_hello)])
              Demo.deb_hello "data.tar.gz" Demo.tgz_hello
              [("debian-binary", "2.0"); ("control.tar.gz", "tar.gz of control")] []
              [(["."; "usr"; "bin"; "hello"], TarFile "ELF");
               (Demo.man1, TarDir);
               (Demo.man1 ++ ["hello.1.gz"], TarFile "gz:HELLO(1)")]
              ltac:(repeat constructor) ltac:(discriminate)
              eq_refl eq_refl eq_refl eq_refl eq_refl)
    as (fs' & Hrun & Hpayload & Hfiles & _); try reflexivity.
  - intros m [<-|[<-|[]]]; reflexivity.
  - split; [|split; [|split]].
    + repeat constructor; try (now exists ["."; "usr"; "bin"], "hello");
        now exists Demo.man1, "hello.1.gz".
    + vm_compute. repeat (constructor; [simpl; intuition discriminate|]). constructor.
    + intros e [<-|[<-|[<-|[]]]]; apply UnpackOk.not_below; reflexivity.
    + intros e1 e2 d [<-|[<-|[<-|[]]]] [<-|[<-|[<-|[]]]] Hk Hb;
        try reflexivity; try discriminate;
        exfalso; revert Hb; apply UnpackOk.not_below; reflexivity.
  - exists fs'. split; [exact Hrun|]. split; [exact Hpayload|].
    exact (Hfiles (Demo.man1 ++ ["hello.1.gz"]) "gz:HELLO(1)"
             (or_intror (or_intror (or_introl eq_refl)))).
Defined.

(** C7 as stated fails: after the archive of hello is unpacked, the
    scratch directory holds the payload member [data.tar.gz] itself, a
    file that is no member of the tar stream. *)
Lemma C7_payload_file_is_extra :
  @extract_deb Demo.demo ["hello_2.10-3_amd64.deb"] ["man_data"; "hello_2.10-3_amd64"]
     Demo.fs_hello
  = (inr tt,
     FS.Dir [("man_data",
        FS.Dir [("hello_2.10-3_amd64",
           FS.Dir [("data.tar.gz", FS.File Demo.tgz_hello);
                   ("usr",
                    FS.Dir [("bin", FS.Dir [("hello", FS.File "ELF")]);
                            ("share",
                             FS.Dir [("man",
                                FS.Dir [("man1",
                                   FS.Dir [("hello.1.gz", FS.File "gz:HELLO(1)")])])])])])]);
             ("hello_2.10-3_amd64.deb", FS.File Demo.deb_hello)]) /\
  @tar_entries Demo.demo (tar_mode_of "data.tar.gz") Demo.tgz_hello
  = Some [(["."; "usr"; "bin"; "hello"], TarFile "ELF");
          (Demo.man1, TarDir);
          (Demo.man1 ++ ["hello.1.gz"], TarFile "gz:HELLO(1)")] /\
  ~ In ["man_data"; "hello_2.10-3_amd64"; "data.tar.gz"]
       (map (tar_target ["man_data"; "hello_2.10-3_amd64"])
            [(["."; "usr"; "bin"; "hello"], TarFile "ELF");
             (Demo.man1, TarDir);
             (Demo.man1 ++ ["hello.1.gz"], TarFile "gz:HELLO(1)")]).
Proof.
  split; [vm_compute; reflexivity|]. split; [reflexivity|].
  vm_compute. intuition discriminate.
Qed.

(* ===================================================================== *)
(** * Further properties of the helpers and of the run *)
(* ===================================================================== *)

Module ReplaceFacts.

Import PyStr PyStrFacts.

(** No occurrence of [old]: nothing is replaced. *)
Lemma replace_from_none (old new s : string) :
  contains s old = false -> replace_from old new 0 s = s.
Proof.
  induction s as [|c s IH]; [reflexivity|].
  cbn [contains replace_from]. intros H.
  apply orb_false_iff in H as [H1 H2].
  rewrite H1. now rewrite IH.
Qed.

Lemma startswith_nil (s : string) : startswith s "" = true.
Proof. now destruct s. Qed.

(** An occurrence of [.deb] that starts in [a] lies in [a]. *)
Lemma no_straddle_deb (a b : string) :
  a <> "" ->
  startswith a ".deb" = false -> startswith (a +:+ ".deb" +:+ b) ".deb" = false.
Proof.
  intros Ha H.
  destruct a as [|c1 [|c2 [|c3 [|c4 a]]]]; [congruence| | | |];
    cbn [append startswith] in *;
    rewrite ?startswith_nil in *;
    repeat match goal with
           | |- context [Ascii.eqb ?x ?y] => destruct (Ascii.eqb x y) eqn:?
           end; simpl in *; try reflexivity; try discriminate; try congruence.
Qed.


(** [str.replace] takes the first occurrence out and goes on behind it. *)
Lemma replace_deb_first (a b : string) :
  contains a ".deb" = false ->
  replace (a +:+ ".deb" +:+ b) ".deb" "" = a +:+ replace b ".deb" "".
Proof.
  unfold replace. induction a as [|c a IH]; intros H.
  - change ("" +:+ ".deb" +:+ b) with (String "." ("deb" +:+ b)).
    cbn [replace_from].
    change (String "." ("deb" +:+ b)) with (".deb" +:+ b).
    rewrite startswith_app. reflexivity.
  - cbn [contains] in H. apply orb_false_iff in H as [H1 H2].
    pose proof (no_straddle_deb (String c a) b ltac:(discriminate) H1) as Hs.
    change (String c a +:+ ".deb" +:+ b) with (String c (a +:+ ".deb" +:+ b)) in *.
    cbn [replace_from]. rewrite Hs. rewrite (IH H2). reflexivity.
Qed.



Lemma replace_deb_suffix (a : string) :
  contains a ".deb" = false -> replace (a +:+ ".deb") ".deb" "" = a.
Proof.
  intros H. pose proof (replace_deb_first a "" H) as E.
  cbn [append] in E. rewrite E. unfold replace. cbn [replace_from].
  apply PyStrFacts.app_empty_r.
Qed.

End ReplaceFacts.

Module IoFacts.

Import FS.



(** Writing [data] to the entry [c] of the working directory: [open]
    with ['wb'], then the write. *)
Lemma write_in_cwd (fs : node) (c data : string) :
  regular c = true ->
  is_dir fs [] = true ->
  is_dir fs [c] = false ->
  (f <- Os.open_wb [c] ;; Os.fd_write f data) fs = (inr tt, put fs [c] (File data)).
Proof.
  intros Hreg Hroot Hnd.
  pose proof (OsFacts.open_wb_clean fs [] c) as Hopen.
  pose proof (OsFacts.fd_write_after_open fs [] c "" data Hroot) as Hwrite.
  simpl app in Hopen, Hwrite.
  unfold bind. rewrite Hopen, Hwrite; auto.
Qed.

Section Gz.

Context {C : Collab}.

(** [extract_gz] on the entry [src] of the working directory, with [out]
    the name after the replacement: the output is opened, and so
    truncated, before the input is read. *)
Lemma extract_gz_run (src out raw : string) (fs : node) :
  PyStr.has_char SLASH src = false ->
  PyStr.has_char SLASH out = false ->
  regular src = true ->
  regular out = true ->
  PyStr.replace src ".gz" "" = out ->
  file_at fs [src] = Some raw ->
  is_dir fs [out] = false ->
  extract_gz src fs =
    match file_at (put fs [out] (File "")) [src] with
    | Some r =>
        match gunzip r with
        | GzOk data => (inr tt, put fs [out] (File data))
        | GzErr _ => (inl BadGzipFile, put fs [out] (File ""))
        end
    | None => (inl FileNotFoundError, put fs [out] (File ""))
    end.
Proof.
  intros Hs Ho Hrs Hro Hrep Hsrc Hnd.
  assert (Hroot : is_dir fs [] = true)
    by exact (OsFacts.file_parent_is_dir fs [] src raw Hsrc).
  unfold extract_gz.
  rewrite Hrep, (ResolveFacts.to_path_name _ Hs), (ResolveFacts.to_path_name _ Ho).
  pose proof (OsFacts.open_rb_clean fs [] src raw) as Hin. simpl app in Hin.
  rewrite (HarvestFacts.bind_inr _ _ _ _ _ (Hin ltac:(auto) Hsrc)).
  pose proof (OsFacts.open_wb_clean fs [] out) as Hout. simpl app in Hout.
  rewrite (HarvestFacts.bind_inr _ _ _ _ _ (Hout ltac:(auto) Hroot Hnd)).
  unfold bind at 1. unfold Os.fd_read at 1.
  destruct (file_at (put fs [out] (File "")) [src]) as [r|]; [|reflexivity].
  destruct (gunzip r) as [data|w]; [|reflexivity].
  exact (OsFacts.fd_write_after_open fs [] out "" data Hroot).
Qed.

End Gz.

End IoFacts.



(** X2: [extract_gz] on a file whose name holds no [.gz] opens that same
    file for writing before it reads it: whatever the file held is
    lost, and what is decoded is the empty input. *)
Theorem X2_extract_gz_without_suffix_truncates_input :
  forall (C : Collab) (name raw : string) (fs : FS.node),
    PyStr.has_char SLASH name = false ->
    FS.regular name = true ->
    PyStr.contains name ".gz" = false ->
    FS.file_at fs [name] = Some raw ->
    extract_gz name fs =
      match gunzip "" with
      | GzOk data => (inr tt, FS.put fs [name] (FS.File data))
      | GzErr _ => (inl BadGzipFile, FS.put fs [name] (FS.File ""))
      end.
Proof.
  intros C name raw fs Hslash Hreg Hno Hsrc.
  assert (Hroot : FS.is_dir fs [] = true)
    by exact (OsFacts.file_parent_is_dir fs [] _ raw Hsrc).
  rewrite (IoFacts.extract_gz_run name name raw fs Hslash Hslash Hreg Hreg
             (ReplaceFacts.replace_from_none _ _ _ Hno) Hsrc
             (FSFacts.is_dir_not_file _ _ _ Hsrc)).
  pose proof (OsFacts.file_at_put_same fs [] name "" Hroot) as Hput.
  simpl app in Hput. now rewrite Hput.
Qed.

Lemma X2_extract_gz_without_suffix_truncates_input_witness :
  @extract_gz Demo.demo "Packages" Samples.fs_text =
    (inl BadGzipFile, FS.Dir [("Packages", FS.File "")]).
Proof.
  exact (X2_extract_gz_without_suffix_truncates_input Demo.demo "Packages"
           "gz:Package: hello" Samples.fs_text eq_refl eq_refl eq_refl eq_refl).
Defined.

Module DownloadFacts.

Import FS.

Section Download.

Context {C : Collab}.

Lemma local_filename_of_segment (pre seg : string) :
  PyStr.has_char SLASH seg = false ->
  local_filename_of (pre +:+ String SLASH seg) = seg.
Proof. intros H. now apply PyStrFacts.last_split_app. Qed.

Lemma download_body (pre seg data : string) (fs : node) :
  PyStr.has_char SLASH seg = false ->
  regular seg = true ->
  is_dir fs [] = true ->
  is_dir fs [seg] = false ->
  http_get (pre +:+ String SLASH seg) = Body data ->
  download_file (pre +:+ String SLASH seg) fs = (inr seg, put fs [seg] (File data)).
Proof.
  intros Hslash Hreg Hroot Hnd Hget.
  unfold download_file.
  rewrite Hget, (local_filename_of_segment _ _ Hslash), (ResolveFacts.to_path_name _ Hslash).
  pose proof (IoFacts.write_in_cwd fs seg data Hreg Hroot Hnd) as Hw.
  unfold bind in Hw |- *.
  destruct (Os.open_wb [seg] fs) as [[e|f] fs1]; [discriminate|].
  destruct (Os.fd_write f data fs1) as [[e|[]] fs2]; [discriminate|].
  now injection Hw as ->.
Qed.

Lemma download_returns_name (url deb : string) (fs fs' : node) :
  download_file url fs = (inr deb, fs') -> deb = local_filename_of url.
Proof.
  unfold download_file. destruct (http_get url) as [|data|part]; unfold raise, bind.
  - discriminate.
  - destruct (Os.open_wb _ fs) as [[e|f] fs1]; [discriminate|].
    destruct (Os.fd_write f data fs1) as [[e|[]] fs2]; [discriminate|].
    unfold ret. now intros [= <- _].
  - destruct (Os.open_wb _ fs) as [[e|f] fs1]; [discriminate|].
    destruct (Os.fd_write f part fs1) as [[e|[]] fs2]; discriminate.
Qed.

End Download.

End DownloadFacts.

(** X3: when the stream of the body breaks, [download_file] raises and
    the local file stays behind with the part of the body that had
    arrived: the function never removes what it wrote. *)
Theorem X3_broken_stream_leaves_partial_file :
  forall (C : Collab) (pre seg part : string) (fs : FS.node),
    PyStr.has_char SLASH seg = false ->
    FS.regular seg = true ->
    FS.is_dir fs [] = true ->
    FS.is_dir fs [seg] = false ->
    http_get (pre +:+ String SLASH seg) = BodyThenFail part ->
    download_file (pre +:+ String SLASH seg) fs =
      (inl ChunkedEncodingError, FS.put fs [seg] (FS.File part)) /\
    FS.file_at (FS.put fs [seg] (FS.File part)) [seg] = Some part.
Proof.
  intros C pre seg part fs Hslash Hreg Hroot Hnd Hget.
  split; [|exact (OsFacts.file_at_put_same fs [] seg part Hroot)].
  unfold download_file.
  rewrite Hget, (DownloadFacts.local_filename_of_segment _ _ Hslash),
    (ResolveFacts.to_path_name _ Hslash).
  pose proof (IoFacts.write_in_cwd fs seg part Hreg Hroot Hnd) as Hw.
  unfold bind in Hw |- *.
  destruct (Os.open_wb [seg] fs) as [[e|f] fs1]; [discriminate|].
  destruct (Os.fd_write f part fs1) as [[e|[]] fs2]; [discriminate|].
  now injection Hw as ->.
Qed.

Lemma X3_broken_stream_leaves_partial_file_witness :
  @download_file Demo.demo Demo.url_cut Demo.fs_started =
    (inl ChunkedEncodingError,
     FS.put Demo.fs_started ["cut_1.0_all.deb"] (FS.File "!<arch> cu")) /\
  FS.file_at (FS.put Demo.fs_started ["cut_1.0_all.deb"] (FS.File "!<arch> cu"))
    ["cut_1.0_all.deb"] = Some "!<arch> cu".
Proof.
  exact (X3_broken_stream_leaves_partial_file Demo.demo
           (mirror +:+ "pool/main/c/cut") "cut_1.0_all.deb" "!<arch> cu"
           Demo.fs_started eq_refl eq_refl eq_refl eq_refl eq_refl).
Defined.

(** X4: two downloads whose URLs end in the same segment go to the same
    local file, and the second one replaces what the first one wrote:
    after both, the file holds the second body only. *)
Theorem X4_second_download_replaces_first :
  forall (C : Collab) (pre1 pre2 seg data1 data2 : string) (fs : FS.node),
    PyStr.has_char SLASH seg = false ->
    FS.regular seg = true ->
    FS.is_dir fs [] = true ->
    FS.is_dir fs [seg] = false ->
    http_get (pre1 +:+ String SLASH seg) = Body data1 ->
    http_get (pre2 +:+ String SLASH seg) = Body data2 ->
    (download_file (pre1 +:+ String SLASH seg) ;;
     download_file (pre2 +:+ String SLASH seg)) fs =
      (inr seg, FS.put fs [seg] (FS.File data2)).
Proof.
  intros C pre1 pre2 seg data1 data2 fs Hslash Hreg Hroot Hnd H1 H2.
  rewrite (HarvestFacts.bind_inr _ _ _ _ _
             (DownloadFacts.download_body pre1 seg data1 fs Hslash Hreg Hroot Hnd H1)).
  rewrite (DownloadFacts.download_body pre2 seg data2 _ Hslash Hreg); auto.
  - now rewrite FSFacts.put_put_same.
  - now rewrite FSFacts.put_file_dirs.
  - now rewrite FSFacts.put_file_dirs.
Qed.

Lemma X4_second_download_replaces_first_witness :
  (@download_file Samples.pools Samples.url_main ;;
   @download_file Samples.pools Samples.url_contrib) Demo.fs_started =
    (inr "tool_1.0_all.deb",
     FS.put Demo.fs_started ["tool_1.0_all.deb"] (FS.File "!<arch> tool of contrib")).
Proof.
  exact (X4_second_download_replaces_first Samples.pools
           (mirror +:+ "pool/main/t/tool") (mirror +:+ "pool/contrib/t/tool")
           "tool_1.0_all.deb" "!<arch> tool of main" "!<arch> tool of contrib"
           Demo.fs_started eq_refl eq_refl eq_refl eq_refl eq_refl eq_refl).
Defined.

(** X5: a URL that ends in a slash has the empty string as its local
    file name, which [open] refuses: [download_file] raises whatever
    the server answers, and writes nothing.  A link that is empty or
    ends in a slash makes such a URL, so its task fails the same way. *)
Theorem X5_url_ending_in_slash_is_never_saved :
  forall (C : Collab) (pre link : string) (dest man : path) (fs : FS.node),
    mirror +:+ link = pre +:+ str1 SLASH ->
    let e := match http_get (pre +:+ str1 SLASH) with
             | ConnectFail => ConnectionError
             | _ => FileNotFoundError
             end in
    download_file (pre +:+ str1 SLASH) fs = (inl e, fs) /\
    download_and_process_package link dest man fs = (inl e, fs).
Proof.
  intros C pre link dest man fs Hurl e.
  assert (Hd : download_file (pre +:+ str1 SLASH) fs = (inl e, fs)).
  { unfold download_file.
    assert (Hname : local_filename_of (pre +:+ str1 SLASH) = "")
      by (apply (PyStrFacts.last_split_app SLASH pre ""); reflexivity).
    rewrite Hname. subst e.
    destruct (http_get (pre +:+ str1 SLASH)); reflexivity. }
  split; [exact Hd|].
  unfold download_and_process_package. rewrite Hurl.
  exact (HarvestFacts.bind_inl _ _ _ _ _ Hd).
Qed.

Lemma X5_url_ending_in_slash_is_never_saved_witness :
  @download_file Samples.listing mirror Demo.fs_started =
    (inl FileNotFoundError, Demo.fs_started) /\
  @download_and_process_package Samples.listing "" UNPACKING_DIR MAN_PAGE_DIR
    Demo.fs_started = (inl FileNotFoundError, Demo.fs_started).
Proof.
  exact (X5_url_ending_in_slash_is_never_saved Samples.listing
           "http://ftp.ca.debian.org/debian" "" UNPACKING_DIR MAN_PAGE_DIR
           Demo.fs_started eq_refl).
Defined.


(** X7: [extract_deb] makes the scratch directory before it reads the
    archive.  When the bytes of the file are no ar archive, the call
    raises after the directory is there: no file has changed, and the
    scratch directory stays behind. *)
Theorem X7_no_ar_archive_leaves_scratch_dir :
  forall (C : Collab) (data_path extract_to arc : path) (raw : string)
         (fs fs1 : FS.node),
    Os.ensure_dir extract_to fs = (inr tt, fs1) ->
    FS.resolve fs1 data_path = Some arc ->
    FS.file_at fs1 arc = Some raw ->
    ar_members raw = None ->
    extract_deb data_path extract_to fs = (inl ArchiveFormatError, fs1) /\
    FS.path_exists fs1 extract_to = true /\
    (forall q, FS.file_at fs1 q = FS.file_at fs q).
Proof.
  intros C data_path extract_to arc raw fs fs1 Hens Hres Hfile Har.
  repeat split.
  - unfold extract_deb.
    rewrite (HarvestFacts.bind_inr _ _ _ _ _ Hens).
    pose proof (open_rb_read fs1 data_path arc raw Hres Hfile) as Hread.
    unfold bind in Hread |- *.
    destruct (Os.open_rb data_path fs1) as [[e|f] fs2]; [discriminate|].
    destruct (Os.fd_read f fs2) as [[e|raw'] fs3]; [discriminate|].
    injection Hread as -> ->. now rewrite Har.
  - exact (UnpackFacts.ensure_dir_exists _ _ _ Hens).
  - exact (proj1 (UnpackFacts.ensure_dir_grows _ _ _ _ Hens)).
Qed.

Lemma X7_no_ar_archive_leaves_scratch_dir_witness :
  @extract_deb Demo.demo ["broken_1.0_all.deb"] ["man_data"; "broken_1.0_all"]
    Samples.fs_broken =
    (inl ArchiveFormatError,
     FS.put Samples.fs_broken ["man_data"; "broken_1.0_all"] (FS.Dir [])) /\
  FS.path_exists (FS.put Samples.fs_broken ["man_data"; "broken_1.0_all"] (FS.Dir []))
    ["man_data"; "broken_1.0_all"] = true /\
  (forall q, FS.file_at (FS.put Samples.fs_broken ["man_data"; "broken_1.0_all"]
                           (FS.Dir [])) q
             = FS.file_at Samples.fs_broken q).
Proof.
  exact (X7_no_ar_archive_leaves_scratch_dir Demo.demo ["broken_1.0_all.deb"]
           ["man_data"; "broken_1.0_all"] ["broken_1.0_all.deb"]
           "<html>404 Not Found</html>" Samples.fs_broken _
           eq_refl eq_refl eq_refl eq_refl).
Defined.

(** X8: the payload member is written to the scratch directory before
    the tar reader sees it.  When the reader refuses the stream in the
    mode picked from the suffix of the name, [extract_deb] raises
    [ReadError], the payload file stays in the scratch directory, and
    the members behind it are not looked at. *)
Theorem X8_unreadable_payload_leaves_payload_file :
  forall (C : Collab) (data_path extract_to arc : path) (raw name content : string)
         (pre post : list (string * string)) (fs fs1 : FS.node),
    Forall (fun c => FS.regular c = true) extract_to ->
    Os.ensure_dir extract_to fs = (inr tt, fs1) ->
    FS.is_dir fs1 extract_to = true ->
    FS.resolve fs1 data_path = Some arc ->
    FS.file_at fs1 arc = Some raw ->
    ar_members raw = Some (pre ++ (name, content) :: post) ->
    (forall m, In m pre -> PyStr.startswith (fst m) "data.tar" = false) ->
    PyStr.startswith name "data.tar" = true ->
    PyStr.has_char SLASH name = false ->
    FS.is_dir fs1 (extract_to ++ [name]) = false ->
    tar_entries (tar_mode_of name) content = None ->
    extract_deb data_path extract_to fs =
      (inl ReadError, FS.put fs1 (extract_to ++ [name]) (FS.File content)) /\
    FS.file_at (FS.put fs1 (extract_to ++ [name]) (FS.File content))
      (extract_to ++ [name]) = Some content.
Proof.
  intros C data_path extract_to arc raw name content pre post fs fs1
    Hregs Hens Hdir Hres Hfile Har Hpre Hpay Hslash Hnd Htar.
  pose proof (UnpackOk.payload_name_regular _ Hpay) as Hreg.
  assert (Hall : Forall (fun c => FS.regular c = true) (extract_to ++ [name])).
  { apply Forall_app. split; [exact Hregs | now constructor]. }
  assert (Hput : FS.file_at (FS.put fs1 (extract_to ++ [name]) (FS.File content))
                   (extract_to ++ [name]) = Some content)
    by exact (OsFacts.file_at_put_same fs1 extract_to name content Hdir).
  split; [|exact Hput].
  unfold extract_deb.
  rewrite (HarvestFacts.bind_inr _ _ _ _ _ Hens).
  pose proof (open_rb_read fs1 data_path arc raw Hres Hfile) as Hread.
  unfold bind in Hread. unfold bind at 1 2.
  destruct (Os.open_rb data_path fs1) as [[e|f] fs2]; [discriminate|].
  destruct (Os.fd_read f fs2) as [[e|raw'] fs3]; [discriminate|].
  injection Hread as -> ->. rewrite Har.
  rewrite for_each_app.
  rewrite (HarvestFacts.bind_inr _ _ _ tt fs1).
  2:{ apply for_each_skip. intros m Hm. unfold extract_payload.
      now rewrite (Hpre m Hm). }
  cbn [for_each]. apply HarvestFacts.bind_inl.
  unfold extract_payload. cbn [fst snd]. rewrite Hpay. cbn [when].
  rewrite (ResolveFacts.os_path_join_name _ _ Hregs Hslash).
  rewrite (HarvestFacts.bind_inr _ _ _ _ _
             (OsFacts.open_wb_clean fs1 extract_to name Hall Hdir Hnd)).
  rewrite (HarvestFacts.bind_inr _ _ _ _ _
             (OsFacts.fd_write_after_open fs1 extract_to name "" content Hdir)).
  rewrite (HarvestFacts.bind_inr _ _ _ _ _
             (OsFacts.open_rb_clean _ extract_to name content Hall Hput)).
  unfold bind, Os.fd_read. rewrite Hput, Htar. reflexivity.
Qed.

Lemma X8_unreadable_payload_leaves_payload_file_witness :
  let fs1 := FS.put Samples.fs_zstd ["man_data"; "zstd_1.5_amd64"] (FS.Dir []) in
  @extract_deb Samples.zstd ["zstd_1.5_amd64.deb"] ["man_data"; "zstd_1.5_amd64"]
    Samples.fs_zstd =
    (inl ReadError,
     FS.put fs1 (["man_data"; "zstd_1.5_amd64"] ++ ["data.tar.zst"])
       (FS.File "zstd of data")) /\
  FS.file_at (FS.put fs1 (["man_data"; "zstd_1.5_amd64"] ++ ["data.tar.zst"])
                (FS.File "zstd of data"))
    (["man_data"; "zstd_1.5_amd64"] ++ ["data.tar.zst"]) = Some "zstd of data".
Proof.
  exact (X8_unreadable_payload_leaves_payload_file Samples.zstd
           ["zstd_1.5_amd64.deb"] ["man_data"; "zstd_1.5_amd64"]
           ["zstd_1.5_amd64.deb"] Samples.deb_zstd "data.tar.zst" "zstd of data"
           [("debian-binary", "2.0"); ("control.tar.zst", "zstd of control")] []
           Samples.fs_zstd _
           ltac:(repeat constructor) eq_refl eq_refl eq_refl eq_refl eq_refl
           ltac:(intros m [<-|[<-|[]]]; reflexivity)
           eq_refl eq_refl eq_refl eq_refl).
Defined.



(** X10: on a scratch tree none of whose directory paths holds a
    backslash the loop of the harvester takes no directory for a manual
    directory: it changes nothing, and [move_and_clean_man_pages] comes
    down to making the corpus folder and removing the scratch tree. *)
Theorem X10_tree_without_backslash_is_only_removed :
  forall (C : Collab) (extract_to man_dest_folder : path) (fs fs0 : FS.node)
         (ws : list (path * list string * list string)),
    Os.ensure_dir man_dest_folder fs = (inr tt, fs0) ->
    Os.walk extract_to fs0 = (inr ws, fs0) ->
    Forall (fun w => PyStr.has_char BACKSLASH (path_str (fst (fst w))) = false) ws ->
    harvest_loop extract_to man_dest_folder fs0 = (inr tt, fs0) /\
    move_and_clean_man_pages extract_to man_dest_folder fs = Os.rmtree extract_to fs0 /\
    (forall q, FS.file_at fs0 q = FS.file_at fs q).
Proof.
  intros C extract_to dest fs fs0 ws Hens Hwalk Hws.
  assert (Hloop : harvest_loop extract_to dest fs0 = (inr tt, fs0)).
  { unfold harvest_loop. rewrite (HarvestFacts.bind_inr _ _ _ _ _ Hwalk).
    apply for_each_skip. intros [[root dirs] files] Hin.
    rewrite Forall_forall in Hws. specialize (Hws _ Hin). cbn [fst] in Hws.
    unfold process_dir, is_man_dir.
    now rewrite (man_page_regex_needs_backslash _ Hws). }
  repeat split.
  - exact Hloop.
  - unfold move_and_clean_man_pages.
    rewrite (HarvestFacts.bind_inr _ _ _ _ _ Hens).
    now rewrite (HarvestFacts.bind_inr _ _ _ _ _ Hloop).
  - exact (proj1 (UnpackFacts.ensure_dir_grows _ _ _ _ Hens)).
Qed.

Lemma X10_tree_without_backslash_is_only_removed_witness :
  let scratch := ["man_data"; "hello_2.10-3_amd64"] in
  @harvest_loop Demo.demo scratch MAN_PAGE_DIR Samples.fs_posix =
    (inr tt, Samples.fs_posix) /\
  @move_and_clean_man_pages Demo.demo scratch MAN_PAGE_DIR Samples.fs_posix =
    Os.rmtree scratch Samples.fs_posix /\
  (forall q, FS.file_at Samples.fs_posix q = FS.file_at Samples.fs_posix q).
Proof.
  exact (X10_tree_without_backslash_is_only_removed Demo.demo
           ["man_data"; "hello_2.10-3_amd64"] MAN_PAGE_DIR
           Samples.fs_posix Samples.fs_posix _
           eq_refl eq_refl ltac:(repeat constructor)).
Defined.

Module TaskFacts.

Import FS.

(** Unlinking an entry makes no path appear. *)
Lemma get_del_none (q : path) : forall (n : node) (p : path),
  get n p = None -> get (del n q) p = None.
Proof.
  induction q as [|c q IH]; intros n p H; [exact H|].
  destruct n as [d|es]; [exact H|].
  destruct p as [|c' p]; [discriminate|].
  cbn [del]. destruct q as [|c2 q].
  - cbn [get] in *.
    destruct (String.eqb c' c) eqn:E.
    + apply String.eqb_eq in E as ->. now rewrite FSFacts.alist_get_del_same.
    + rewrite FSFacts.alist_get_del_other; [exact H|].
      intros ->. now rewrite String.eqb_refl in E.
  - destruct (alist_get c es) as [m|] eqn:Em; [|exact H].
    cbn [get] in *.
    destruct (String.eqb c' c) eqn:E.
    + apply String.eqb_eq in E as ->.
      rewrite FSFacts.alist_get_set_same. rewrite Em in H. now apply IH.
    + rewrite FSFacts.alist_get_set_other; [exact H|].
      intros ->. now rewrite String.eqb_refl in E.
Qed.

Lemma remove_removes (p : path) (fs fs' : node) :
  Os.remove p fs = (inr tt, fs') -> path_exists fs' p = false.
Proof.
  intros H. pose proof (LoopFacts.keeps_remove p fs _ fs' H) as Hdirs.
  unfold Os.remove in H.
  destruct (resolve fs p) as [q|] eqn:Hr; [|discriminate].
  destruct (get fs q) as [[d|es]|] eqn:Hg; try discriminate.
  injection H as <-.
  unfold path_exists, stat.
  rewrite (ResolveFacts.resolve_same_dirs fs _ p Hdirs), Hr.
  rewrite FSFacts.get_del_same; [reflexivity|].
  intros ->. pose proof (ResolveFacts.resolve_parent fs p [] Hr) as Hp.
  unfold is_dir in Hp. rewrite Hg in Hp.
  destruct (Hp eq_refl) as (a & c & E & _). now destruct a.
Qed.

Lemma remove_keeps_missing (p r : path) (fs fs' : node) (x : result unit) :
  Os.remove r fs = (x, fs') -> path_exists fs p = false -> path_exists fs' p = false.
Proof.
  intros H Hmiss. pose proof (LoopFacts.keeps_remove r fs _ fs' H) as Hdirs.
  unfold path_exists, stat in *.
  rewrite (ResolveFacts.resolve_same_dirs fs fs' p Hdirs).
  destruct (resolve fs p) as [q|]; [|reflexivity].
  assert (Hq : get fs q = None) by (now destruct (get fs q)).
  unfold Os.remove in H.
  destruct (resolve fs r) as [q'|]; [|injection H as <- <-; now rewrite Hq].
  destruct (get fs q') as [[d|es]|]; injection H as <- <-; try (now rewrite Hq).
  now rewrite (get_del_none q' fs q Hq).
Qed.

End TaskFacts.

(** X11: a task that returns normally has cleaned up after itself:
    neither the downloaded archive nor the scratch directory of the
    package exists afterwards. *)
Theorem X11_finished_task_leaves_no_temporary :
  forall (C : Collab) (link : string) (dest_folder man_dest_folder : path)
         (fs fs' : FS.node),
    download_and_process_package link dest_folder man_dest_folder fs = (inr tt, fs') ->
    let deb_path := local_filename_of (mirror +:+ link) in
    FS.path_exists fs' (to_path deb_path) = false /\
    FS.path_exists fs' (scratch_of dest_folder deb_path) = false.
Proof.
  intros C link dest man fs fs' Hrun deb_path.
  unfold download_and_process_package in Hrun. cbv zeta in Hrun.
  unfold bind at 1 in Hrun.
  destruct (download_file (mirror +:+ link) fs) as [[e|deb] fs1] eqn:Hd; [discriminate|].
  apply DownloadFacts.download_returns_name in Hd. fold deb_path in Hd. subst deb.
  unfold bind at 1 in Hrun.
  destruct (extract_deb _ _ fs1) as [[e|[]] fs2]; [discriminate|].
  unfold bind at 1 in Hrun.
  destruct (move_and_clean_man_pages _ _ fs2) as [[e|[]] fs3] eqn:Hm; [discriminate|].
  split.
  - exact (TaskFacts.remove_removes _ _ _ Hrun).
  - apply (TaskFacts.remove_keeps_missing _ _ _ _ _ Hrun).
    unfold move_and_clean_man_pages in Hm. unfold bind in Hm.
    destruct (Os.ensure_dir man fs2) as [[e|[]] fs4]; [discriminate|].
    destruct (harvest_loop _ _ fs4) as [[e|[]] fs5]; [discriminate|].
    exact (LoopFacts.rmtree_removes _ _ _ Hm).
Qed.

Lemma X11_finished_task_leaves_no_temporary_witness :
  let fs' := FS.Dir [("man_data", FS.Dir [("man_pages", FS.Dir [])])] in
  FS.path_exists fs' ["hello_2.10-3_amd64.deb"] = false /\
  FS.path_exists fs' ["man_data"; "hello_2.10-3_amd64"] = false.
Proof.
  exact (X11_finished_task_leaves_no_temporary Demo.demo
           "pool/main/h/hello/hello_2.10-3_amd64.deb" UNPACKING_DIR MAN_PAGE_DIR
           Demo.fs_started _ eq_refl).
Defined.

Module PoolFacts.

Section Pool.

Context {C : Collab}.

Lemma run_future_returns (link : string) (fs : FS.node) :
  exists r fs', run_future link fs = (inr r, fs') /\ report_link r = link.
Proof.
  unfold run_future.
  destruct (download_and_process_package link UNPACKING_DIR MAN_PAGE_DIR fs)
    as [[e|[]] fs']; eexists _, _; split; reflexivity.
Qed.

Lemma run_pool_returns (links : list string) : forall fs : FS.node,
  exists reports fs',
    run_pool links fs = (inr reports, fs') /\ map report_link reports = links.
Proof.
  induction links as [|link rest IH]; intros fs.
  - exists [], fs. split; reflexivity.
  - destruct (run_future_returns link fs) as (r & fs1 & Hr & Hl).
    destruct (IH fs1) as (rs & fs2 & Hrs & Hls).
    exists (r :: rs), fs2. split.
    + cbn [run_pool]. rewrite (HarvestFacts.bind_inr _ _ _ _ _ Hr).
      now rewrite (HarvestFacts.bind_inr _ _ _ _ _ Hrs).
    + cbn [map]. now rewrite Hl, Hls.
Qed.

End Pool.

End PoolFacts.

(** X12: [main] fails only when fetching or reading the index fails,
    and then no task has run.  Once the index text is read, [main]
    returns normally whatever the tasks do: the links are the fields of
    the record lines, and the loop over the futures gives one report
    for each of them, a raising task being a report like any other. *)
Theorem X12_main_reports_every_link :
  forall (C : Collab) (fs : FS.node),
    match index_text fs with
    | (inl e, fs1) => main fs = (inl e, fs1)
    | (inr text, fs1) =>
        let deb_links :=
          Index.field_parse (Index.readlines (Index.universal_newlines text)) in
        exists reports fs',
          run_pool deb_links fs1 = (inr reports, fs') /\
          main fs = (inr (deb_links, reports), fs') /\
          map report_link reports = deb_links
    end.
Proof.
  intros C fs. unfold main, read_index.
  destruct (index_text fs) as [[e|text] fs1] eqn:Hidx.
  - unfold bind. now rewrite Hidx.
  - set (deb_links := Index.field_parse _).
    destruct (PoolFacts.run_pool_returns deb_links fs1) as (reports & fs' & Hrun & Hmap).
    exists reports, fs'. repeat split; auto.
    unfold bind at 1 2. rewrite Hidx. unfold Index.parse_index.
    rewrite IndexFacts.deb_links_field_parse. unfold ret at 1. fold deb_links.
    now rewrite (HarvestFacts.bind_inr _ _ _ _ _ Hrun).
Qed.

Module StripFacts.

Import PyStr.

Lemma has_char_upto (sep : ascii) (s : string) : has_char sep (upto sep s) = false.
Proof.
  induction s as [|c s IH]; simpl; [reflexivity|].
  destruct (Ascii.eqb c sep) eqn:E; simpl; [reflexivity | now rewrite E].
Qed.

Lemma has_char_lstrip (c : ascii) (s : string) :
  has_char c s = false -> has_char c (lstrip s) = false.
Proof.
  induction s as [|x s IH]; simpl; [trivial|]. intros H.
  destruct (isspace x); [|exact H].
  apply orb_false_iff in H as [_ H]. now apply IH.
Qed.

Lemma has_char_rstrip (c : ascii) (s : string) :
  has_char c s = false -> has_char c (rstrip s) = false.
Proof.
  induction s as [|x s IH]; simpl; [trivial|]. intros H.
  apply orb_false_iff in H as [Hx H]. specialize (IH H).
  destruct (rstrip s) as [|y r].
  - destruct (isspace x); simpl; [reflexivity | now rewrite Hx].
  - simpl in *. now rewrite Hx.
Qed.

Lemma has_char_strip (c : ascii) (s : string) :
  has_char c s = false -> has_char c (strip s) = false.
Proof. intros H. unfold strip. now apply has_char_lstrip, has_char_rstrip. Qed.

Lemma rstrip_cons (x : ascii) (s : string) :
  rstrip (String x s) =
  match rstrip s with
  | EmptyString => if isspace x then EmptyString else String x EmptyString
  | r => String x r
  end.
Proof. reflexivity. Qed.

Lemma lstrip_idem (s : string) : lstrip (lstrip s) = lstrip s.
Proof.
  induction s as [|x s IH]; [reflexivity|].
  cbn [lstrip]. destruct (isspace x) eqn:E; [exact IH|].
  cbn [lstrip]. now rewrite E.
Qed.

Lemma rstrip_idem (s : string) : rstrip (rstrip s) = rstrip s.
Proof.
  induction s as [|x s IH]; [reflexivity|].
  rewrite rstrip_cons.
  destruct (rstrip s) as [|y r] eqn:E.
  - destruct (isspace x) eqn:Ex; [reflexivity|].
    rewrite rstrip_cons. cbn [rstrip]. now rewrite Ex.
  - rewrite rstrip_cons, IH. reflexivity.
Qed.

(** What is left of a right-stripped string when its head goes is
    right-stripped. *)
Lemma rstrip_lstrip (s : string) : rstrip s = s -> rstrip (lstrip s) = lstrip s.
Proof.
  induction s as [|x s IH]; [reflexivity|].
  intros H. cbn [lstrip]. destruct (isspace x) eqn:Ex; [|exact H].
  apply IH. rewrite rstrip_cons in H.
  destruct (rstrip s) as [|y r].
  - rewrite Ex in H. discriminate.
  - now injection H.
Qed.

Lemma strip_idem (s : string) : strip (strip s) = strip s.
Proof.
  unfold strip.
  rewrite (rstrip_lstrip (rstrip s) (rstrip_idem s)).
  apply lstrip_idem.
Qed.

End StripFacts.

(** X13: no link read from the index holds a space, and none starts or
    ends with white space: a link is the stripped text between the
    first and the second space of its record line. *)
Theorem X13_links_hold_no_space :
  forall (text : string) (deb_links : list string),
    Index.parse_index text = inr deb_links ->
    Forall (fun link => PyStr.has_char SPACE link = false /\
                        PyStr.strip link = link) deb_links.
Proof.
  intros text deb_links H. unfold Index.parse_index in H.
  rewrite IndexFacts.deb_links_field_parse in H. injection H as <-.
  unfold Index.field_parse. apply Forall_forall. intros link Hin.
  apply in_map_iff in Hin as (line & <- & _). unfold Index.field_of. split.
  - apply StripFacts.has_char_strip, StripFacts.has_char_upto.
  - apply StripFacts.strip_idem.
Qed.

Lemma X13_links_hold_no_space_witness :
  Forall (fun link => PyStr.has_char SPACE link = false /\ PyStr.strip link = link)
    ["pool/main/m/my"].
Proof.
  exact (X13_links_hold_no_space Demo.line_with_space ["pool/main/m/my"] eq_refl).
Defined.

Module IndexTextFacts.

Import FS.


End IndexTextFacts.



Module ScratchFacts.

Import PyStr.

Lemma has_char_replace_from (c : ascii) (old : string) (s : string) : forall k,
  has_char c s = false -> has_char c (replace_from old "" k s) = false.
Proof.
  induction s as [|x s IH]; intros k H; [reflexivity|].
  cbn [has_char] in H. apply orb_false_iff in H as [Hx Hs].
  cbn [replace_from]. destruct k as [|k]; [|now apply IH].
  destruct (startswith (String x s) old).
  - cbn [append]. now apply IH.
  - cbn [has_char]. rewrite Hx. now apply IH.
Qed.

Lemma basename_of_name (s : string) :
  has_char SLASH s = false -> os_path_basename s = s.
Proof.
  intros H. unfold os_path_basename. now rewrite (PyStrFacts.split_no_sep _ _ H).
Qed.

End ScratchFacts.

(** X15: the scratch directory of a task is named after the archive
    with [.deb] taken out wherever it stands, not only at the end: for
    the archive name [a.deb] followed by [b], with no [.deb] inside
    [a], it is [a] followed by what the replacement leaves of [b]; for
    a name that ends in its only [.deb] it is that name without the
    suffix. *)
Theorem X15_scratch_name_drops_every_deb :
  forall (dest_folder : path) (a b : string),
    Forall (fun c => FS.regular c = true) dest_folder ->
    PyStr.has_char SLASH a = false ->
    PyStr.has_char SLASH b = false ->
    PyStr.contains a ".deb" = false ->
    scratch_of dest_folder (a +:+ ".deb" +:+ b) =
      dest_folder ++ [a +:+ PyStr.replace b ".deb" ""] /\
    scratch_of dest_folder (a +:+ ".deb") = dest_folder ++ [a].
Proof.
  intros dest a b Hdest Ha Hb Hno.
  assert (Hgen : forall b', PyStr.has_char SLASH b' = false ->
            scratch_of dest (a +:+ ".deb" +:+ b') =
            dest ++ [a +:+ PyStr.replace b' ".deb" ""]).
  { intros b' Hb'. unfold scratch_of.
    rewrite ScratchFacts.basename_of_name
      by (rewrite !PyStrFacts.has_char_app, Ha, Hb'; reflexivity).
    rewrite (ReplaceFacts.replace_deb_first a b' Hno).
    apply ResolveFacts.os_path_join_name; [exact Hdest|].
    rewrite PyStrFacts.has_char_app, Ha.
    now apply ScratchFacts.has_char_replace_from. }
  split; [now apply Hgen|].
  pose proof (Hgen "" eq_refl) as H. cbn [append] in H. rewrite H.
  unfold PyStr.replace. cbn [PyStr.replace_from].
  now rewrite PyStrFacts.app_empty_r.
Qed.

Lemma X15_scratch_name_drops_every_deb_witness :
  scratch_of UNPACKING_DIR "lib.debug_1.0_all.deb" =
    UNPACKING_DIR ++ ["libug_1.0_all"] /\
  scratch_of UNPACKING_DIR "lib.deb" = UNPACKING_DIR ++ ["lib"].
Proof.
  exact (X15_scratch_name_drops_every_deb UNPACKING_DIR "lib" "ug_1.0_all.deb"
           ltac:(repeat constructor) eq_refl eq_refl eq_refl).
Defined.

Module DirFacts.

Import FS.

Section Dir.

Context {C : Collab}.
Variables (root man_dest_folder : path).

Hypothesis root_names : Forall (fun c => regular c = true) root.
Hypothesis dest_names : Forall (fun c => regular c = true) man_dest_folder.
Hypothesis dest_not_empty : man_dest_folder <> [].
Hypothesis apart : root <> man_dest_folder.

Local Abbreviation src_of file := (root ++ [file]).
Local Abbreviation dst_of file := (man_dest_folder ++ [PyStr.drop_last 3 file]).
Local Abbreviation body :=
  (fun file => when (is_candidate file) (process_candidate root man_dest_folder file)).

Lemma dst_differ (f g : string) :
  is_candidate f = true -> is_candidate g = true -> f <> g -> dst_of g <> dst_of f.
Proof.
  intros Hf Hg Hne E. apply app_inj_tail in E as [_ E]. apply Hne.
  rewrite <- (HarvestFacts.name_of_candidate f Hf),
          <- (HarvestFacts.name_of_candidate g Hg).
  now rewrite E.
Qed.

Lemma src_not_dst_of (f g : string) : src_of g <> dst_of f.
Proof. intros E. apply app_inj_tail in E as [E _]. now apply apart. Qed.

Lemma src_differ (f g : string) : f <> g -> src_of g <> src_of f.
Proof. intros Hne E. apply app_inj_tail in E as [_ E]. now apply Hne. Qed.

(** The loop over the files of one manual directory. *)
Lemma files_loop (files : list string) : forall fs : node,
  is_dir fs man_dest_folder = true ->
  NoDup files ->
  (forall f, In f files -> is_candidate f = true ->
             fresh_candidate root man_dest_folder fs f) ->
  exists fs',
    for_each files body fs = (inr tt, fs') /\
    (forall q, is_dir fs' q = is_dir fs q) /\
    (forall q, (forall f, In f files -> is_candidate f = true ->
                          q <> src_of f /\ q <> dst_of f) ->
               file_at fs' q = file_at fs q) /\
    (forall f, In f files -> is_candidate f = true ->
               harvested root man_dest_folder fs fs' f).
Proof.
  induction files as [|f rest IH]; intros fs Hdir Hnodup Hfresh.
  - exists fs. repeat split; auto. intros f [].
  - inversion Hnodup as [|? ? Hnotin Hnodup']; subst.
    destruct (is_candidate f) eqn:Hcand.
    + destruct (Hfresh f (or_introl eq_refl) Hcand)
        as (Hslash & Hreg & raw & data & Hfile & Hgz & Hmiss).
      assert (Hsrc : Forall (fun c => regular c = true) (src_of f)).
      { apply Forall_app. split; [exact root_names | now constructor]. }
      pose proof (HarvestFacts.candidate_moves root man_dest_folder f Hslash Hsrc
                    dest_names Hcand dest_not_empty fs raw data Hdir Hfile Hgz Hmiss)
        as Hmove.
      set (fs1 := del (put fs (dst_of f) (File data)) (src_of f)) in *.
      assert (Hdirs1 : forall q, is_dir fs1 q = is_dir fs q)
        by exact (HarvestFacts.moved_dirs root man_dest_folder f dest_names Hcand
                    dest_not_empty fs raw data Hdir Hfile Hmiss).
      assert (Hframe1 : forall q, q <> dst_of f -> q <> src_of f ->
                                  file_at fs1 q = file_at fs q)
        by exact (HarvestFacts.moved_frame root man_dest_folder f dest_names Hcand
                    dest_not_empty fs raw data Hdir Hfile Hmiss).
      assert (Hdir1 : is_dir fs1 man_dest_folder = true) by (now rewrite Hdirs1).
      assert (Hother : forall g, In g rest -> f <> g).
      { intros g Hg ->. now apply Hnotin. }
      assert (Hfresh1 : forall g, In g rest -> is_candidate g = true ->
                                  fresh_candidate root man_dest_folder fs1 g).
      { intros g Hg Hcg.
        destruct (Hfresh g (or_intror Hg) Hcg)
          as (Hsg & Hrg & rawg & datag & Hfg & Hgzg & Hmg).
        repeat split; auto. exists rawg, datag. repeat split; auto.
        - rewrite Hframe1; auto using src_not_dst_of, src_differ.
        - destruct (HarvestFacts.missing_child_regular fs man_dest_folder _ dest_names
                      dest_not_empty Hdir Hmg) as [Hrn Hnone].
          unfold path_exists, stat.
          rewrite (HarvestFacts.resolve_child fs1 man_dest_folder _ dest_names
                     dest_not_empty Hdir1).
          unfold step_component.
          unfold regular in Hrn. apply negb_true_iff in Hrn.
          apply orb_false_iff in Hrn as [Hrn H3].
          apply orb_false_iff in Hrn as [H1 H2]. rewrite H1, H2, H3.
          assert (Hf1 : file_at fs1 (dst_of g) = None).
          { rewrite Hframe1.
            - unfold file_at. now rewrite Hnone.
            - apply dst_differ; auto.
            - intros E. symmetry in E. now apply src_not_dst_of in E. }
          assert (Hd1 : is_dir fs1 (dst_of g) = false).
          { rewrite Hdirs1. unfold is_dir. now rewrite Hnone. }
          unfold file_at in Hf1. unfold is_dir in Hd1.
          destruct (get fs1 (dst_of g)) as [[d|es]|]; congruence. }
      destruct (IH fs1 Hdir1 Hnodup' Hfresh1) as (fs' & Hrun & Hdirs & Hframe & Hdone).
      exists fs'. split; [|split; [|split]].
      * cbn [for_each]. rewrite Hcand. cbn [when].
        now rewrite (HarvestFacts.bind_inr _ _ _ _ _ Hmove).
      * intros q. now rewrite Hdirs, Hdirs1.
      * intros q Hq. rewrite Hframe.
        -- destruct (Hq f (or_introl eq_refl) Hcand). now apply Hframe1.
        -- intros g Hg Hcg. apply Hq; auto. now right.
      * intros g [<-|Hg] Hcg.
        -- exists raw, data. repeat split; auto.
           ++ rewrite Hframe.
              ** exact (HarvestFacts.moved_dst root man_dest_folder f dest_names Hcand
                          dest_not_empty fs raw data Hdir Hfile Hmiss).
              ** intros g Hg Hcg'. split.
                 --- intros E. symmetry in E. now apply src_not_dst_of in E.
                 --- intros E. symmetry in E. revert E. apply dst_differ; auto.
           ++ rewrite Hframe.
              ** unfold file_at, fs1. rewrite FSFacts.get_del_same; [reflexivity|].
                 now destruct root.
              ** intros g Hg Hcg'. split.
                 --- intros E. symmetry in E. revert E. apply src_differ; auto.
                 --- apply src_not_dst_of.
        -- destruct (Hdone g Hg Hcg) as (rawg & datag & Hfg & Hgzg & Hdg & Hsg).
           exists rawg, datag. repeat split; auto.
           rewrite <- Hfg. symmetry. apply Hframe1; auto using src_not_dst_of, src_differ.
    + assert (Hfresh' : forall g, In g rest -> is_candidate g = true ->
                                  fresh_candidate root man_dest_folder fs g)
        by (intros g Hg; apply Hfresh; now right).
      destruct (IH fs Hdir Hnodup' Hfresh') as (fs' & Hrun & Hdirs & Hframe & Hdone).
      exists fs'. split; [|split; [|split]]; auto.
      * cbn [for_each]. rewrite Hcand. cbn [when]. unfold bind, ret. exact Hrun.
      * intros q Hq. apply Hframe. intros g Hg. apply Hq. now right.
      * intros g [<-|Hg] Hcg; [congruence | now apply Hdone].
Qed.

End Dir.

End DirFacts.

(** X16: the loop over one manual directory moves every candidate.
    When each file that ends in [.gz] decodes and has no namesake in the
    corpus folder yet, the body for that directory returns normally,
    every such file is afterwards in the corpus folder, decoded and
    under its name without the suffix, its source is gone, and the
    other files of the directory are left as they were. *)
Theorem X16_manual_directory_is_harvested :
  forall (C : Collab) (root man_dest_folder : path) (dirs files : list string)
         (fs : FS.node),
    is_man_dir root = true ->
    Forall (fun c => FS.regular c = true) root ->
    Forall (fun c => FS.regular c = true) man_dest_folder ->
    man_dest_folder <> [] ->
    root <> man_dest_folder ->
    FS.is_dir fs man_dest_folder = true ->
    NoDup files ->
    (forall f, In f files -> is_candidate f = true ->
               fresh_candidate root man_dest_folder fs f) ->
    exists fs',
      process_dir man_dest_folder (root, dirs, files) fs = (inr tt, fs') /\
      (forall f, In f files -> is_candidate f = true ->
                 harvested root man_dest_folder fs fs' f) /\
      (forall f, In f files -> is_candidate f = false ->
                 FS.file_at fs' (root ++ [f]) = FS.file_at fs (root ++ [f])).
Proof.
  intros C root dest dirs files fs Hman Hroot Hdest Hne Hapart Hdir Hnodup Hfresh.
  destruct (DirFacts.files_loop root dest Hroot Hdest Hne Hapart files fs
              Hdir Hnodup Hfresh) as (fs' & Hrun & _ & Hframe & Hdone).
  exists fs'. repeat split; auto.
  - unfold process_dir. rewrite Hman. exact Hrun.
  - intros f Hf Hnc. apply Hframe. intros g Hg Hcg. split.
    + apply DirFacts.src_differ. intros ->. congruence.
    + apply DirFacts.src_not_dst_of. exact Hapart.
Qed.

Lemma X16_manual_directory_is_harvested_witness :
  let root := ["man_data"; "pkg"; Demo.backslash_man] in
  exists fs',
    @process_dir Demo.demo MAN_PAGE_DIR (root, [], ["ok.1.gz"; "README"]) Samples.fs_pages
      = (inr tt, fs') /\
    (forall f, In f ["ok.1.gz"; "README"] -> is_candidate f = true ->
               @harvested Demo.demo root MAN_PAGE_DIR Samples.fs_pages fs' f) /\
    (forall f, In f ["ok.1.gz"; "README"] -> is_candidate f = false ->
               FS.file_at fs' (root ++ [f]) = FS.file_at Samples.fs_pages (root ++ [f])).
Proof.
  refine (X16_manual_directory_is_harvested Demo.demo
            ["man_data"; "pkg"; Demo.backslash_man] MAN_PAGE_DIR []
            ["ok.1.gz"; "README"] Samples.fs_pages
            eq_refl ltac:(repeat constructor) ltac:(repeat constructor)
            ltac:(discriminate) ltac:(discriminate) eq_refl _ _).
  - repeat constructor; simpl; intuition discriminate.
  - intros f [<-|[<-|[]]] Hc; [|discriminate].
    repeat split. exists "gz:OK(1)", "OK(1)". repeat split.
Defined.
